(** * Xray-core: outbound handler and SOCKS protocol engine

    A shallow embedding of
      - [app/proxyman/outbound/handler.go]  (NewHandler, Handler.Dispatch),
      - [infra/conf/http.go]                (HTTPServerConfig.Build, and the
        SOCKS handshake / UDP framing code that follows it),
      - [proxy/http/config.go]              (HasAccount, ValidateKey),
    together with the properties of the specification that are stated about
    them. *)

From Stdlib Require Import ZArith List Bool Lia.
From Stdlib.Strings Require Import String Byte.
From stdpp Require Import base option gmap strings.
Import ListNotations.

#[local] Set Warnings "-register-all".

Local Open Scope string_scope.
Local Open Scope list_scope.

(* ===================================================================== *)
(** * Bytes *)
(* ===================================================================== *)

(** A Go [byte] is [Byte.byte]; its numeric value is [Z_of_byte]. The
    conversion [byte(n)] of an integer keeps the low eight bits. *)

Definition Z_of_byte (b : byte) : Z := Z.of_N (Byte.to_N b).

Definition byte_of_Z (z : Z) : byte :=
  match Byte.of_N (Z.to_N (z mod 256)) with
  | Some b => b
  | None => x00
  end.

Definition bytes_of_string (s : string) : list byte := list_byte_of_string s.
Definition string_of_bytes (l : list byte) : string := string_of_list_byte l.

(** [len(x)] as an [int]. *)
Definition len {A} (l : list A) : Z := Z.of_nat (length l).

(* ===================================================================== *)
(** * Errors *)
(* ===================================================================== *)

Inductive Severity : Set :=
| Severity_Error | Severity_Warning | Severity_Info | Severity_Debug.

(** Modelled from the spec: the error values of [common/errors], which is
    not among the sources (the specification speaks of wrapped errors and
    of info-level errors). The first four constructors are the sentinel
    errors the code compares against; [ErrPlain] is any other leaf error
    produced by a collaborator. [Error] is the value built by
    [errors.New(msg, arg)], with the optional byte printed after the
    message, the severity set by [AtInfo] or [AtWarning] (none when neither
    was called) and the cause given to [Base]. *)
Inductive error : Set :=
| io_EOF
| io_ErrUnexpectedEOF
| io_ErrClosedPipe
| context_Canceled
| ErrPlain (msg : string)
| Error (message : string) (arg : option byte)
        (severity : option Severity) (inner : option error).

Definition errors_New (msg : string) : error := Error msg None None None.
Definition errors_New1 (msg : string) (b : byte) : error :=
  Error msg (Some b) None None.

Definition Base (e : error) (cause : error) : error :=
  match e with
  | Error m a s _ => Error m a s (Some cause)
  | _ => e
  end.

Definition AtSeverity (sev : Severity) (e : error) : error :=
  match e with
  | Error m a _ i => Error m a (Some sev) i
  | _ => e
  end.

Definition AtInfo := AtSeverity Severity_Info.
Definition AtWarning := AtSeverity Severity_Warning.

(** The byte an error reports after its message, if any. *)
Definition error_arg (e : error) : option byte :=
  match e with
  | Error _ a _ _ => a
  | _ => None
  end.

Definition error_message (e : error) : string :=
  match e with
  | Error m _ _ _ => m
  | ErrPlain m => m
  | io_EOF => "EOF"
  | io_ErrUnexpectedEOF => "unexpected EOF"
  | io_ErrClosedPipe => "io: read/write on closed pipe"
  | context_Canceled => "context canceled"
  end.

Definition error_severity (e : error) : option Severity :=
  match e with
  | Error _ _ s _ => s
  | _ => None
  end.

Definition error_inner (e : error) : option error :=
  match e with
  | Error _ _ _ i => i
  | _ => None
  end.

Definition is_sentinel (e : error) : bool :=
  match e with
  | io_EOF | io_ErrUnexpectedEOF | io_ErrClosedPipe | context_Canceled => true
  | _ => false
  end.

Definition sentinel_eqb (a b : error) : bool :=
  match a, b with
  | io_EOF, io_EOF => true
  | io_ErrUnexpectedEOF, io_ErrUnexpectedEOF => true
  | io_ErrClosedPipe, io_ErrClosedPipe => true
  | context_Canceled, context_Canceled => true
  | _, _ => false
  end.

(** [goerrors.Is(err, target)] for a sentinel [target]: [err] is the target
    or wraps it, following the chain of causes. *)
Fixpoint goerrors_Is (err target : error) : bool :=
  match err with
  | Error _ _ _ (Some cause) => goerrors_Is cause target
  | Error _ _ _ None => false
  | _ => sentinel_eqb err target
  end.

(** What a call can produce: a value, an error, or a run-time panic. *)
Inductive result (A : Type) : Type :=
| Ok (a : A)
| Err (e : error)
| Panic (msg : string).
Arguments Ok {A} a.
Arguments Err {A} e.
Arguments Panic {A} msg.

(* ===================================================================== *)
(** * HTTP proxy configuration ([proxy/http/config.go], [conf.HTTPServerConfig]) *)
(* ===================================================================== *)

Inductive AuthType : Set :=
| AuthType_NO_AUTH | AuthType_PASSWORD | AuthType_KEYAUTH.

Module Http.

Definition ValidKey : Z := 1.

Record Account : Set := { Username : string; Password : string }.

(** [http.ServerConfig]. A Go map may be nil: [None]. *)
Record ServerConfig : Type := {
  Accounts : option (gmap string string);
  AllowTransparent : bool;
  UserLevel : Z;
  AuthType_ : AuthType;
  Keys : option (gmap string Z);
}.

Definition HasAccount (sc : ServerConfig) (username password : string) : bool :=
  match Accounts sc with
  | None => false
  | Some accounts =>
      match accounts !! username with
      | None => false
      | Some p => String.eqb p password
      end
  end.

Definition ValidateKey (sc : ServerConfig) (key : string) : bool :=
  match Keys sc with
  | None => false
  | Some keys =>
      match keys !! key with
      | Some value => Z.eqb value ValidKey
      | None => false
      end
  end.

End Http.

Module Conf.

Record HTTPAccount : Set := { Username : string; Password : string }.

Definition HTTPAccount_Build (v : HTTPAccount) : Http.Account :=
  {| Http.Username := Username v; Http.Password := Password v |}.

Definition HTTPAuthMethodNoAuth := "noauth".
Definition HTTPAuthMethodUserPass := "password".
Definition HTTPAuthMethodKeyAuth := "keyauth".

(** [Keys] is a slice: [None] is the nil slice (field absent). *)
Record HTTPServerConfig : Type := {
  Accounts : list HTTPAccount;
  Transparent : bool;
  UserLevel : Z;
  AuthMethod : string;
  Keys : option (list string);
}.

(** [for _, key := range c.Keys { config.Keys[key] = http.ValidKey }] *)
Definition build_keys (keys : list string) : gmap string Z :=
  foldl (fun m key => <[key := Http.ValidKey]> m) ∅ keys.

(** [for _, account := range c.Accounts { config.Accounts[...] = ... }] *)
Definition build_accounts (accounts : list HTTPAccount) : gmap string string :=
  foldl (fun m a => <[Username a := Password a]> m) ∅ accounts.

Definition Build (c : HTTPServerConfig) : Http.ServerConfig :=
  let '(authType, keys) :=
    if String.eqb (AuthMethod c) HTTPAuthMethodNoAuth then
      (AuthType_NO_AUTH, None)
    else if String.eqb (AuthMethod c) HTTPAuthMethodUserPass then
      (AuthType_PASSWORD, None)
    else if String.eqb (AuthMethod c) HTTPAuthMethodKeyAuth then
      (AuthType_KEYAUTH,
       match Keys c with
       | Some ks => Some (build_keys ks)
       | None => None
       end)
    else (AuthType_NO_AUTH, None) in
  {| Http.Accounts :=
       match Accounts c with
       | [] => None
       | _ :: _ => Some (build_accounts (Accounts c))
       end;
     Http.AllowTransparent := Transparent c;
     Http.UserLevel := UserLevel c;
     Http.AuthType_ := authType;
     Http.Keys := keys |}.

End Conf.

(* ===================================================================== *)
(** * Byte streams *)
(* ===================================================================== *)

(** The [io.Reader] / [io.Writer] pair a handshake runs over. [input] is
    what the peer has sent and is still unread. [wlog] lists, in order, the
    [Write] calls made on the writer, each with the bytes handed over and
    whether the call succeeded (the peer received them). [wquota] is the
    number of [Write] calls the writer will still accept before it starts
    failing; [None] is a writer that never fails. *)
Record Conn : Set := mkConn {
  input : list byte;
  wlog : list (list byte * bool);
  wquota : option nat;
}.

Definition writer_accepts (c : Conn) : bool :=
  match wquota c with
  | Some O => false
  | _ => true
  end.

(** Bytes the peer has received. *)
Definition received (c : Conn) : list (list byte) :=
  map fst (List.filter (fun w : list byte * bool => snd w) (wlog c)).

(** Number of [Write] calls issued so far. *)
Definition write_calls (c : Conn) : nat := length (wlog c).

(** Computations over a connection. *)
Definition IO (A : Type) : Type := Conn -> result A * Conn.

Definition ret {A} (a : A) : IO A := fun c => (Ok a, c).

Definition fail {A} (e : error) : IO A := fun c => (Err e, c).

Definition bind {A B} (m : IO A) (k : A -> IO B) : IO B := fun c =>
  match m c with
  | (Ok a, c') => k a c'
  | (Err e, c') => (Err e, c')
  | (Panic s, c') => (Panic s, c')
  end.

Notation "'let*' x ':=' m 'in' k" := (bind m (fun x => k))
  (at level 10, x name, m at level 100, k at level 200).
Notation "'let*' ' p ':=' m 'in' k" := (bind m (fun x => match x with p => k end))
  (at level 10, p pattern, m at level 100, k at level 200).

(** A call whose returned error the caller discards: [f(...)] as a
    statement. *)
Definition ignore_err {A} (m : IO A) : IO unit := fun c =>
  match m c with
  | (Panic s, c') => (Panic s, c')
  | (_, c') => (Ok tt, c')
  end.

(** [if err != nil { return errors.New(msg).Base(err) }] *)
Definition wrap_err {A} (msg : string) (m : IO A) : IO A := fun c =>
  match m c with
  | (Err e, c') => (Err (Base (errors_New msg) e), c')
  | r => r
  end.

Definition lift {A} (r : result A) : IO A := fun c => (r, c).

(** [common.Must(err)] and [common.Must2(v, err)] of [common]: panic on an
    error. *)
Definition Must {A} (r : result A) : result A :=
  match r with
  | Err e => Panic (error_message e)
  | _ => r
  end.

(** [io.ReadFull(reader, p)] with [len(p) = n]: exactly [n] bytes, or
    [io.EOF] when the stream ended before the first byte and
    [io.ErrUnexpectedEOF] when it ended after it. *)
Definition ReadFull (n : nat) : IO (list byte) := fun c =>
  if (n <=? length (input c))%nat then
    (Ok (firstn n (input c)),
     mkConn (skipn n (input c)) (wlog c) (wquota c))
  else
    (Err (match input c with [] => io_EOF | _ => io_ErrUnexpectedEOF end),
     mkConn [] (wlog c) (wquota c)).

(** One [writer.Write(data)]. *)
Definition Write (data : list byte) : IO unit := fun c =>
  match wquota c with
  | Some O =>
      (Err (ErrPlain "write failed"),
       mkConn (input c) (wlog c ++ [(data, false)]) (Some O))
  | Some (S n) =>
      (Ok tt, mkConn (input c) (wlog c ++ [(data, true)]) (Some n))
  | None =>
      (Ok tt, mkConn (input c) (wlog c ++ [(data, true)]) None)
  end.

(** Modelled from the spec: [buf.WriteAllBytes(writer, payload, nil)] of
    [common/buf], not among the sources, writes the whole payload: nothing
    to do for an empty payload, one [Write] otherwise. *)
Definition WriteAllBytes (payload : list byte) : IO unit :=
  match payload with
  | [] => ret tt
  | _ => Write payload
  end.

(* ===================================================================== *)
(** * Buffers *)
(* ===================================================================== *)

(** Modelled from the spec: the [buf.Buffer] type of [common/buf] is not
    among the sources. The specification calls it a bounded scratch buffer
    whose overflow is a buffer-overrun error (section 4.2), and the sources
    rely on that bound in [ReadUntilNull] ([b.IsFull()]). A buffer is
    modelled by its content; [buf.New()] and [buf.StackNew()] give the
    empty buffer. Its capacity [Size] is the package constant [buf.Size],
    8192 bytes. As in that package, [Write] copies the bytes that still fit
    and returns no error, [WriteByte] returns the error "buffer full" on a
    full buffer, [Extend] panics beyond the capacity, and [ReadFullFrom]
    refuses a read that would not fit. *)
Definition Size : Z := 8192.

(** Modelled from the spec: a [buf.Buffer], by its content. *)
Definition Buffer : Set := list byte.

(** Modelled from the spec: [buf.New()], [buf.StackNew()] and a buffer
    after [b.Clear()]. *)
Definition buf_New : Buffer := [].

(** Modelled from the spec: [b.IsFull()]. *)
Definition IsFull (b : Buffer) : bool := (Size <=? len b)%Z.

(** Modelled from the spec: [b.Write(data)] and [b.WriteString(s)]; the
    bytes beyond the capacity are dropped. *)
Definition Buffer_Write (b : Buffer) (data : list byte) : Buffer :=
  b ++ firstn (Z.to_nat (Size - len b)) data.

(** Modelled from the spec: [b.WriteByte(v)]. *)
Definition Buffer_WriteByte (b : Buffer) (v : byte) : result Buffer :=
  if IsFull b then Err (errors_New "buffer full") else Ok (b ++ [v]).

(** Modelled from the spec: [b.Extend(n)] followed by filling the returned
    slice with [data], where [len(data) = n]. *)
Definition Buffer_Extend (b : Buffer) (data : list byte) : result Buffer :=
  if (Size <? len b + len data)%Z then Panic "extending out of bound"
  else Ok (b ++ data).

(** Modelled from the spec: [b.ReadFullFrom(reader, n)]; a short read is
    the error of [io.ReadFull]. *)
Definition Buffer_ReadFullFrom (b : Buffer) (n : Z) : IO Buffer :=
  if (Size <? len b + n)%Z then fail (errors_New "out of bound")
  else let* bs := ReadFull (Z.to_nat n) in ret (b ++ bs).

(** Modelled from the spec: [b.Byte(i)]; the code only reads indices
    inside the content (outside it Go panics). *)
Definition Buffer_Byte (b : Buffer) (i : nat) : byte := nth i b x00.

(** Modelled from the spec: [b.BytesRange(from, to)]. *)
Definition BytesRange (b : Buffer) (from to : nat) : list byte :=
  firstn (to - from) (skipn from b).

(* ===================================================================== *)
(** * Addresses and the address codec *)
(* ===================================================================== *)

(** Modelled from the spec: [net.Address] of [common/net] (section 3: an
    IP literal or a domain): an IPv4 address (4 bytes), an IPv6 address
    (16 bytes) or a domain name. *)
Inductive Address : Set :=
| ipv4Address (ip : list byte)
| ipv6Address (ip : list byte)
| domainAddress (domain : string).

(** [net.Port] is a [uint16]. *)
Definition Port : Set := Z.

Definition AnyIP : Address := ipv4Address [x00; x00; x00; x00].

(** [address.IP()]; it panics on a domain. *)
Definition Address_IP (a : Address) : result (list byte) :=
  match a with
  | ipv4Address ip | ipv6Address ip => Ok ip
  | domainAddress _ => Panic "Calling IP() on a DomainAddress."
  end.

(** [net.PortFromBytes]: big endian. *)
Definition PortFromBytes (b : list byte) : Port :=
  (Z_of_byte (nth 0 b x00) * 256 + Z_of_byte (nth 1 b x00))%Z.

(** [binary.BigEndian.PutUint16(_, port.Value())] *)
Definition PutUint16 (v : Z) : list byte :=
  [byte_of_Z (v / 256); byte_of_Z v].

(** The addresses a [RequestHeader] can carry on the wire. *)
Definition Address_wf (a : Address) : Prop :=
  match a with
  | ipv4Address ip => length ip = 4%nat
  | ipv6Address ip => length ip = 16%nat
  | domainAddress d => (len (bytes_of_string d) <= 255)%Z
  end.

Definition Port_wf (p : Port) : Prop := (0 <= p < 65536)%Z.

(** Modelled from the spec: the address codec ([protocol.AddressParser] of
    [common/protocol]) is not among the sources; only its construction is
    ([addrParser]: family byte 0x01 for IPv4, 0x04 for IPv6, 0x03 for a
    domain). The specification has it parse and serialize addresses and
    ports in SOCKS wire format (RFC 1928): the family byte, then 4 or 16
    address bytes or a length-prefixed domain, then the port in two
    big-endian bytes. *)
Definition encode_address (a : Address) : result (list byte) :=
  match a with
  | ipv4Address ip => Ok (x01 :: ip)
  | ipv6Address ip => Ok (x04 :: ip)
  | domainAddress d =>
      let bs := bytes_of_string d in
      if (255 <? len bs)%Z
      then Err (errors_New "Super long domain is not supported")
      else Ok (x03 :: byte_of_Z (len bs) :: bs)
  end.

(** Modelled from the spec: [addrParser.WriteAddressPort(b, a, p)]. *)
Definition WriteAddressPort (b : Buffer) (a : Address) (p : Port)
  : result Buffer :=
  match encode_address a with
  | Ok bs => Ok (Buffer_Write (Buffer_Write b bs) (PutUint16 p))
  | Err e => Err e
  | Panic s => Panic s
  end.

(** Modelled from the spec: the address part of
    [addrParser.ReadAddressPort]. *)
Definition readAddress : IO Address :=
  let* t := ReadFull 1 in
  let ty := nth 0 t x00 in
  if Byte.eqb ty x01 then
    let* ip := ReadFull 4 in ret (ipv4Address ip)
  else if Byte.eqb ty x04 then
    let* ip := ReadFull 16 in ret (ipv6Address ip)
  else if Byte.eqb ty x03 then
    let* l := ReadFull 1 in
    let* d := ReadFull (Z.to_nat (Z_of_byte (nth 0 l x00))) in
    ret (domainAddress (string_of_bytes d))
  else fail (errors_New1 "unknown address type: " ty).

(** Modelled from the spec: [addrParser.ReadAddressPort(_, reader)]. *)
Definition ReadAddressPort : IO (Address * Port) :=
  let* a := readAddress in
  let* p := ReadFull 2 in
  ret (a, PortFromBytes p).

(* ===================================================================== *)
(** * SOCKS protocol engine (package [socks] in [infra/conf/http.go]) *)
(* ===================================================================== *)

Module Socks.

Definition socks5Version : byte := x05.
Definition socks4Version : byte := x04.

Definition cmdTCPConnect : byte := x01.
Definition cmdTCPBind : byte := x02.
Definition cmdUDPAssociate : byte := x03.
Definition cmdTorResolve : byte := xf0.
Definition cmdTorResolvePTR : byte := xf1.

Definition socks4RequestGranted : byte := x5a.   (* 90 *)
Definition socks4RequestRejected : byte := x5b.  (* 91 *)

Definition authNotRequired : byte := x00.
Definition authPassword : byte := x02.
Definition authNoMatchingMethod : byte := xff.

Definition statusSuccess : byte := x00.
Definition statusCmdNotSupport : byte := x07.

Definition ValidKey : Z := 1.

Record Account : Set := { Username : string; Password : string }.

(** [protocol.MemoryUser]; [Account_] is [None] when the user carries no
    SOCKS account. *)
Record MemoryUser : Set := { Email : string; Account_ : option Account }.

Inductive RequestCommand : Set := RequestCommandTCP | RequestCommandUDP.

Record RequestHeader : Set := {
  Version : byte;
  Command : RequestCommand;
  Address_ : Address;
  Port_ : Port;
  User : option MemoryUser;
}.

Record ServerConfig : Type := {
  AuthType_ : AuthType;
  Accounts : option (gmap string string);
  ConfigAddress : option Address;
  UdpEnabled : bool;
  Keys : option (gmap string Z);
}.

Record ServerSession : Type := {
  config : ServerConfig;
  address : Address;
  port : Port;
  localAddress : Address;
}.

Definition HasAccount (c : ServerConfig) (username password : string) : bool :=
  match Accounts c with
  | None => false
  | Some accounts =>
      match accounts !! username with
      | None => false
      | Some storedPassed => String.eqb storedPassed password
      end
  end.

Definition ValidateKey (c : ServerConfig) (key : string) : bool :=
  match Keys c with
  | None => false
  | Some keys =>
      match keys !! key with
      | Some value => Z.eqb value ValidKey
      | None => false
      end
  end.

Fixpoint hasAuthMethod (expectedAuth : byte) (authCandidates : list byte) : bool :=
  match authCandidates with
  | [] => false
  | a :: rest =>
      if Byte.eqb a expectedAuth then true else hasAuthMethod expectedAuth rest
  end.

Definition writeSocks5AuthenticationResponse (version auth : byte) : IO unit :=
  WriteAllBytes [version; auth].

Definition writeSocks5Response (errCode : byte) (a : Address) (p : Port) : IO unit :=
  let buffer := Buffer_Write buf_New [socks5Version; errCode; x00] in
  let* buffer := lift (WriteAddressPort buffer a p) in
  WriteAllBytes buffer.

Definition writeSocks4Response (errCode : byte) (a : Address) (p : Port) : IO unit :=
  let* buffer := lift (Must (Buffer_WriteByte buf_New x00)) in
  let* buffer := lift (Must (Buffer_WriteByte buffer errCode)) in
  let* buffer := lift (Buffer_Extend buffer (PutUint16 p)) in
  let* ip := lift (Address_IP a) in
  let buffer := Buffer_Write buffer ip in
  WriteAllBytes buffer.

(** The loop of [ReadUntilNull]: [b] is the buffer filled so far. *)
Fixpoint ReadUntilNull_loop (b : Buffer) (inp : list byte)
  : result string * list byte :=
  match inp with
  | [] => (Err io_EOF, [])
  | x :: rest =>
      let b := b ++ [x] in
      if Byte.eqb x x00 then (Ok (string_of_bytes (removelast b)), rest)
      else if IsFull b then (Err (errors_New "buffer overrun"), rest)
      else ReadUntilNull_loop b rest
  end.

Definition ReadUntilNull : IO string := fun c =>
  let '(r, rest) := ReadUntilNull_loop buf_New (input c) in
  (r, mkConn rest (wlog c) (wquota c)).

Definition ReadUsernamePassword : IO (string * string) :=
  let* buffer := Buffer_ReadFullFrom buf_New 2 in
  let nUsername := Z_of_byte (Buffer_Byte buffer 1) in
  let* buffer := Buffer_ReadFullFrom buf_New nUsername in
  let username := string_of_bytes buffer in
  let* buffer := Buffer_ReadFullFrom buf_New 1 in
  let nPassword := Z_of_byte (Buffer_Byte buffer 0) in
  let* buffer := Buffer_ReadFullFrom buf_New nPassword in
  let password := string_of_bytes buffer in
  ret (username, password).

(** The method byte the server insists on. *)
Definition expectedAuth (c : ServerConfig) : byte :=
  match AuthType_ c with
  | AuthType_PASSWORD => authPassword
  | AuthType_KEYAUTH => authPassword
  | AuthType_NO_AUTH => authNotRequired
  end.

Definition auth5 (s : ServerSession) (nMethod : byte) : IO string :=
  let* buffer :=
    wrap_err "failed to read auth methods"
      (Buffer_ReadFullFrom buf_New (Z_of_byte nMethod)) in
  let expected := expectedAuth (config s) in
  if negb (hasAuthMethod expected
             (BytesRange buffer 0 (Z.to_nat (Z_of_byte nMethod)))) then
    let* _ := ignore_err
      (writeSocks5AuthenticationResponse socks5Version authNoMatchingMethod) in
    fail (errors_New "no matching auth method")
  else
    let* _ := wrap_err "failed to write auth response"
      (writeSocks5AuthenticationResponse socks5Version expected) in
    if Byte.eqb expected authPassword then
      let* '(username, password) :=
        wrap_err "failed to read username and password for authentication"
          ReadUsernamePassword in
      let* _ :=
        match AuthType_ (config s) with
        | AuthType_PASSWORD =>
            if negb (HasAccount (config s) username password) then
              let* _ := ignore_err (writeSocks5AuthenticationResponse x01 xff) in
              fail (errors_New "invalid username or password")
            else ret tt
        | AuthType_KEYAUTH =>
            if negb (ValidateKey (config s) password) then
              let* _ := ignore_err (writeSocks5AuthenticationResponse x01 xff) in
              fail (errors_New "invalid key")
            else ret tt
        | AuthType_NO_AUTH => ret tt
        end in
      let* _ := wrap_err "failed to write auth response"
        (writeSocks5AuthenticationResponse x01 x00) in
      ret username
    else ret "".

Definition handshake5 (s : ServerSession) (nMethod : byte) : IO RequestHeader :=
  let* username := auth5 s nMethod in
  let* buffer := wrap_err "failed to read request" (Buffer_ReadFullFrom buf_New 3) in
  let cmd := Buffer_Byte buffer 1 in
  let user :=
    if String.eqb username "" then None
    else Some {| Email := username; Account_ := None |} in
  let* command :=
    if Byte.eqb cmd cmdTCPConnect || Byte.eqb cmd cmdTorResolve
       || Byte.eqb cmd cmdTorResolvePTR then
      ret RequestCommandTCP
    else if Byte.eqb cmd cmdUDPAssociate then
      if negb (UdpEnabled (config s)) then
        let* _ := ignore_err (writeSocks5Response statusCmdNotSupport AnyIP 0%Z) in
        fail (errors_New "UDP is not enabled.")
      else ret RequestCommandUDP
    else if Byte.eqb cmd cmdTCPBind then
      let* _ := ignore_err (writeSocks5Response statusCmdNotSupport AnyIP 0%Z) in
      fail (errors_New "TCP bind is not supported.")
    else
      let* _ := ignore_err (writeSocks5Response statusCmdNotSupport AnyIP 0%Z) in
      fail (errors_New1 "unknown command " cmd) in
  let* '(addr, prt) := wrap_err "failed to read address" ReadAddressPort in
  let request :=
    {| Version := socks5Version; Command := command;
       Address_ := addr; Port_ := prt; User := user |} in
  let responseAddress :=
    match command with
    | RequestCommandUDP =>
        match ConfigAddress (config s) with
        | Some a => a
        | None => localAddress s
        end
    | RequestCommandTCP => address s
    end in
  let* _ := writeSocks5Response statusSuccess responseAddress (port s) in
  ret request.

Section WithParseAddress.

(** [net.ParseAddress] ([common/net]): an IP literal gives an IP
    address, anything else a domain. *)
Variable ParseAddress : string -> Address.

Definition handshake4 (s : ServerSession) (cmd : byte) : IO RequestHeader :=
  match AuthType_ (config s) with
  | AuthType_PASSWORD =>
      let* _ := ignore_err (writeSocks4Response socks4RequestRejected AnyIP 0%Z) in
      fail (errors_New "socks 4 is not allowed when auth is required.")
  | _ =>
      let* buffer := wrap_err "insufficient header" (Buffer_ReadFullFrom buf_New 6) in
      let prt := PortFromBytes (BytesRange buffer 0 2) in
      let ip := BytesRange buffer 2 6 in
      let* _ := ReadUntilNull (* user id *) in
      let* addr :=
        if Byte.eqb (nth 0 ip x00) x00 then
          let* domain :=
            wrap_err "failed to read domain for socks 4a" ReadUntilNull in
          ret (ParseAddress domain)
        else ret (ipv4Address ip) in
      if Byte.eqb cmd cmdTCPConnect then
        let request :=
          {| Version := socks4Version; Command := RequestCommandTCP;
             Address_ := addr; Port_ := prt; User := None |} in
        let* _ := writeSocks4Response socks4RequestGranted AnyIP 0%Z in
        ret request
      else
        let* _ := ignore_err (writeSocks4Response socks4RequestRejected AnyIP 0%Z) in
        fail (errors_New1 "unsupported command: " cmd)
  end.

(** [Handshake] performs a Socks4/4a/5 handshake. *)
Definition Handshake (s : ServerSession) : IO RequestHeader :=
  let* buffer := wrap_err "insufficient header" (Buffer_ReadFullFrom buf_New 2) in
  let version := Buffer_Byte buffer 0 in
  let cmd := Buffer_Byte buffer 1 in
  if Byte.eqb version socks4Version then handshake4 s cmd
  else if Byte.eqb version socks5Version then handshake5 s cmd
  else fail (errors_New1 "unknown Socks version: " version).

End WithParseAddress.

(** [DecodeUDPPacket]: the result and the content left in [packet]. *)
Definition DecodeUDPPacket (packet : Buffer) : result RequestHeader * Buffer :=
  if (len packet <? 5)%Z then
    (Err (errors_New "insufficient length of packet."), packet)
  else if negb (Byte.eqb (Buffer_Byte packet 2) x00) then
    (Err (errors_New "discarding fragmented payload."), packet)
  else
    let packet := skipn 3 packet in
    match wrap_err "failed to read UDP header" ReadAddressPort
            (mkConn packet [] None) with
    | (Ok (addr, prt), c) =>
        (Ok {| Version := socks5Version; Command := RequestCommandUDP;
               Address_ := addr; Port_ := prt; User := None |}, input c)
    | (Err e, c) => (Err e, input c)
    | (Panic m, c) => (Panic m, input c)
    end.

Definition EncodeUDPPacket (request : RequestHeader) (data : list byte)
  : result Buffer :=
  let b := Buffer_Write buf_New [x00; x00; x00] in
  match WriteAddressPort b (Address_ request) (Port_ request) with
  | Ok b => Ok (Buffer_Write b data)
  | Err e => Err e
  | Panic m => Panic m
  end.

(** The method the client offers: password when the request carries a
    user, no-auth otherwise. *)
Definition clientAuthByte (request : RequestHeader) : byte :=
  match User request with
  | Some _ => authPassword
  | None => authNotRequired
  end.

Definition ClientHandshake (request : RequestHeader) : IO (option RequestHeader) :=
  let authByte := clientAuthByte request in
  let b := Buffer_Write buf_New [socks5Version; x01; authByte] in
  let* _ := WriteAllBytes b in
  let* b := Buffer_ReadFullFrom buf_New 2 in
  if negb (Byte.eqb (Buffer_Byte b 0) socks5Version) then
    fail (AtWarning (errors_New1 "unexpected server version: " (Buffer_Byte b 0)))
  else if negb (Byte.eqb (Buffer_Byte b 1) authByte) then
    fail (AtWarning (errors_New "auth method not supported."))
  else
    let* _ :=
      if Byte.eqb authByte authPassword then
        let* account :=
          lift (match User request with
                | Some {| Account_ := Some a |} => Ok a
                | _ => Panic "interface conversion: not *socks.Account"
                end) in
        let* b := lift (Must (Buffer_WriteByte buf_New x01)) in
        let* b := lift (Must (Buffer_WriteByte b
                     (byte_of_Z (len (bytes_of_string (Username account)))))) in
        let b := Buffer_Write b (bytes_of_string (Username account)) in
        let* b := lift (Must (Buffer_WriteByte b
                     (byte_of_Z (len (bytes_of_string (Password account)))))) in
        let b := Buffer_Write b (bytes_of_string (Password account)) in
        let* _ := WriteAllBytes b in
        let* b := Buffer_ReadFullFrom buf_New 2 in
        if negb (Byte.eqb (Buffer_Byte b 1) x00) then
          fail (errors_New1 "server rejects account: " (Buffer_Byte b 1))
        else ret tt
      else ret tt in
    let command :=
      match Command request with
      | RequestCommandUDP => cmdUDPAssociate
      | RequestCommandTCP => cmdTCPConnect
      end in
    let b := Buffer_Write buf_New [socks5Version; command; x00] in
    let* b :=
      match Command request with
      | RequestCommandUDP =>
          ret (Buffer_Write b [x01; x00; x00; x00; x00; x00; x00])
      | RequestCommandTCP =>
          lift (WriteAddressPort b (Address_ request) (Port_ request))
      end in
    let* _ := WriteAllBytes b in
    let* b := Buffer_ReadFullFrom buf_New 3 in
    let resp := Buffer_Byte b 1 in
    if negb (Byte.eqb resp x00) then
      fail (errors_New1 "server rejects request: " resp)
    else
      let* '(addr, prt) := ReadAddressPort in
      match Command request with
      | RequestCommandUDP =>
          ret (Some {| Version := socks5Version; Command := RequestCommandUDP;
                       Address_ := addr; Port_ := prt; User := None |})
      | RequestCommandTCP => ret None
      end.

End Socks.

(* ===================================================================== *)
(** * Outbound handler ([app/proxyman/outbound/handler.go]) *)
(* ===================================================================== *)

#[global] Instance byte_eq_dec : EqDecision byte := Byte.byte_eq_dec.

#[global] Instance Address_eq_dec : EqDecision Address.
Proof. solve_decision. Defined.

Module Outbound.

Inductive Network : Set := Network_Unknown | Network_TCP | Network_UDP.

#[global] Instance Network_eq_dec : EqDecision Network.
Proof. solve_decision. Defined.

(** [net.Destination]; the address is an interface value and may be nil. *)
Record Destination : Set := {
  DAddress : option Address;
  DPort : Z;
  DNetwork : Network;
}.

(** The fields of [session.Outbound] that [Dispatch] reads. *)
Record SessionOutbound : Set := {
  Target : Destination;
  OriginalTarget : Destination;
}.

(** [mux.ClientStrategy] *)
Record ClientStrategy : Set := { MaxConcurrency : Z; MaxConnection : Z }.

(** [mux.ClientManager]. The picker's factory always holds the handler's
    own proxy and the handler itself as dialer; what varies is the
    strategy. [Picker] is [None] where the code sets no picker. *)
Record ClientManager : Set := {
  Enabled : bool;
  Picker : option ClientStrategy;
}.

(** [proxyman.MultiplexingConfig]; the concurrencies are [int32]. *)
Record MultiplexingConfig : Set := {
  MuxEnabled : bool;
  Concurrency : Z;
  XudpConcurrency : Z;
  XudpProxyUDP443 : string;
}.

Record SenderConfig : Set := {
  MultiplexSettings : option MultiplexingConfig;
}.

Record Handler : Set := {
  tag : string;
  senderSettings : option SenderConfig;
  mux : option ClientManager;
  xudp : option ClientManager;
  udp443 : string;
}.

(** What [GetInstance] finds in a typed message. *)
Inductive Message : Set :=
| SenderConfigMessage (s : SenderConfig)
| OtherMessage.

(** [core.OutboundHandlerConfig]: each settings field is given by what
    its [GetInstance] returns; [SenderSettings] may be nil. *)
Record OutboundHandlerConfig : Set := {
  Tag : string;
  SenderSettings : option (result Message);
  ProxySettings : option error;
}.

(** Outcomes of the collaborators [NewHandler] calls:
    [internet.ToMemoryStreamConfig] and [common.CreateObject] (with
    whether the created object is a [proxy.Outbound]). *)
Record Collaborators : Set := {
  ToMemoryStreamConfig : option error;
  CreateObject : result bool;
}.

Definition int32_range (z : Z) : Prop := (- 2 ^ 31 <= z < 2 ^ 31)%Z.

(** [uint32(x)] *)
Definition uint32 (z : Z) : Z := (z mod 2 ^ 32)%Z.

Definition enabledManager (concurrency : Z) : ClientManager :=
  {| Enabled := true;
     Picker := Some {| MaxConcurrency := uint32 concurrency;
                       MaxConnection := 128 |} |}.

Definition disabledManager : ClientManager :=
  {| Enabled := false; Picker := None |}.

(** The multiplexing block of [NewHandler], run on a handler whose
    [mux], [xudp] and [udp443] are still unset. The assignment
    [config.Concurrency = 8] is visible through [h.senderSettings]. *)
Definition setupMux (h : Handler) : Handler :=
  match senderSettings h with
  | Some {| MultiplexSettings := Some config |} =>
      if MuxEnabled config then
        let mux := if (Concurrency config <? 0)%Z
                   then Some disabledManager else mux h in
        let concurrency := if (Concurrency config =? 0)%Z
                           then 8%Z else Concurrency config in
        let mux := if (0 <? concurrency)%Z
                   then Some (enabledManager concurrency) else mux in
        let xudp := if (XudpConcurrency config <? 0)%Z
                    then Some disabledManager else xudp h in
        let xudp := if (XudpConcurrency config =? 0)%Z
                    then None else xudp in
        let xudp := if (0 <? XudpConcurrency config)%Z
                    then Some (enabledManager (XudpConcurrency config)) else xudp in
        {| tag := tag h;
           senderSettings :=
             Some {| MultiplexSettings :=
                       Some {| MuxEnabled := MuxEnabled config;
                               Concurrency := concurrency;
                               XudpConcurrency := XudpConcurrency config;
                               XudpProxyUDP443 := XudpProxyUDP443 config |} |};
           mux := mux;
           xudp := xudp;
           udp443 := XudpProxyUDP443 config |}
      else h
  | _ => h
  end.

Definition NewHandler (env : Collaborators) (config : OutboundHandlerConfig)
  : result Handler :=
  let h0 senderSettings :=
    {| tag := Tag config; senderSettings := senderSettings;
       mux := None; xudp := None; udp443 := "" |} in
  let with_sender : result Handler :=
    match SenderSettings config with
    | None => Ok (h0 None)
    | Some (Err e) => Err e
    | Some (Panic m) => Panic m
    | Some (Ok (SenderConfigMessage s)) =>
        match ToMemoryStreamConfig env with
        | Some e =>
            Err (AtWarning (Base (errors_New "failed to parse stream settings") e))
        | None => Ok (h0 (Some s))
        end
    | Some (Ok OtherMessage) => Err (errors_New "settings is not SenderConfig")
    end in
  match with_sender with
  | Ok h =>
      match ProxySettings config with
      | Some e => Err e
      | None =>
          match CreateObject env with
          | Err e => Err e
          | Panic m => Panic m
          | Ok false => Err (errors_New "not an outbound handler")
          | Ok true => Ok (setupMux h)
          end
      end
  | r => r
  end.

(** ** Dispatch *)

(** The two ends of a [transport.Link], possibly wrapped in the
    endpoint-override adapters of [buf]. *)
Inductive Endpoint : Set :=
| LinkEnd (id : nat)
| EndpointOverride (inner : Endpoint) (Dest : option Address)
                   (OriginalDest : Address).

Record Link : Set := { Reader : Endpoint; Writer : Endpoint }.

Inductive Pool : Set := PoolMux | PoolXudp.

(** What [Dispatch] does to the outside, in order. *)
Inductive Event : Set :=
| SubmitOutboundErrorToOriginator (e : error)
| LogInfo (e : error)
| Interrupt (x : Endpoint)
| Close (x : Endpoint)
| PoolDispatch (p : Pool) (m : ClientManager) (l : Link)
| ProxyProcess (l : Link).

(** Outcomes of the calls [Dispatch] makes on its collaborators; [None]
    is a nil error. *)
Record Outcomes : Set := {
  xudp_Dispatch : option error;
  mux_Dispatch : option error;
  proxy_Process : option error;
}.

(** The link after the first statement of [Dispatch]. *)
Definition overrideLink (ob : SessionOutbound) (link : Link) : Link :=
  match DAddress (OriginalTarget ob) with
  | Some original =>
      if bool_decide (DNetwork (Target ob) = Network_UDP)
         && negb (bool_decide (Some original = DAddress (Target ob)))
      then {| Reader := EndpointOverride (Reader link)
                          (DAddress (Target ob)) original;
              Writer := EndpointOverride (Writer link)
                          (DAddress (Target ob)) original |}
      else link
  | None => link
  end.

(** The closure [test]. *)
Definition test (link : Link) (err : option error) : list Event :=
  match err with
  | Some err =>
      let err := Base (errors_New "failed to process mux outbound traffic") err in
      [SubmitOutboundErrorToOriginator err; LogInfo err; Interrupt (Writer link)]
  | None => []
  end.

Definition benign (err : error) : bool :=
  goerrors_Is err io_EOF || goerrors_Is err io_ErrClosedPipe
  || goerrors_Is err context_Canceled.

(** From the label [out] to the end. *)
Definition out (link : Link) (outcomes : Outcomes) : list Event :=
  let err := proxy_Process outcomes in
  let err := match err with
             | Some e => if benign e then None else Some e
             | None => None
             end in
  ProxyProcess link ::
  match err with
  | Some err =>
      let err := Base (errors_New "failed to process outbound traffic") err in
      [SubmitOutboundErrorToOriginator err; LogInfo err; Interrupt (Writer link)]
  | None => [Close (Writer link)]
  end ++ [Interrupt (Reader link)].

(** The two pool branches that follow the UDP/443 switch. *)
Definition selectPool (h : Handler) (m : ClientManager) (ob : SessionOutbound)
  (link : Link) (outcomes : Outcomes) : list Event :=
  let viaMux :=
    if Enabled m
    then PoolDispatch PoolMux m link :: test link (mux_Dispatch outcomes)
    else out link outcomes in
  match xudp h with
  | Some x =>
      if bool_decide (DNetwork (Target ob) = Network_UDP) then
        if negb (Enabled x) then out link outcomes
        else PoolDispatch PoolXudp x link :: test link (xudp_Dispatch outcomes)
      else viaMux
  | None => viaMux
  end.

Definition Dispatch (h : Handler) (ob : SessionOutbound) (link : Link)
  (outcomes : Outcomes) : list Event :=
  let link := overrideLink ob link in
  match mux h with
  | Some m =>
      if bool_decide (DNetwork (Target ob) = Network_UDP)
         && (DPort (Target ob) =? 443)%Z then
        if String.eqb (udp443 h) "reject" then
          test link (Some (AtInfo (errors_New "XUDP rejected UDP/443 traffic")))
        else if String.eqb (udp443 h) "skip" then
          out link outcomes
        else selectPool h m ob link outcomes
      else selectPool h m ob link outcomes
  | None => out link outcomes
  end.

(** Trace predicates. *)
Definition is_pool_event (e : Event) : bool :=
  match e with PoolDispatch _ _ _ => true | _ => false end.

Definition is_submit (e : Event) : bool :=
  match e with SubmitOutboundErrorToOriginator _ => true | _ => false end.

Definition is_process (e : Event) : bool :=
  match e with ProxyProcess _ => true | _ => false end.

Definition submitted (t : list Event) : list error :=
  flat_map (fun e => match e with
                     | SubmitOutboundErrorToOriginator err => [err]
                     | _ => []
                     end) t.

(** The condition of the first statement of [Dispatch]: the two ends of
    the link are wrapped. *)
Definition overridden (ob : SessionOutbound) : bool :=
  match DAddress (OriginalTarget ob) with
  | Some original =>
      bool_decide (DNetwork (Target ob) = Network_UDP)
      && negb (bool_decide (Some original = DAddress (Target ob)))
  | None => false
  end.

(** Modelled from the spec: [common.Interrupt] and [common.Close] of
    [common], and the adapters [buf.EndpointOverrideReader] and
    [buf.EndpointOverrideWriter] of [common/buf], are not among the
    sources. [Interrupt] interrupts a value that can be interrupted,
    closes one that can only be closed, as [Close] does, and does nothing
    to any other value. An end of a link can be interrupted and closed.
    An endpoint-override adapter (section 4.1: it restores the original
    destination in observed packet metadata) has the read or write method
    of the side it wraps and no other method, so that neither call reaches
    the side it wraps. [end_of x] is the end of the link that a call on
    [x] ends, if any. *)
Definition end_of (x : Endpoint) : list nat :=
  match x with
  | LinkEnd id => [id]
  | EndpointOverride _ _ _ => []
  end.

(** The ends of the link that an event ends. *)
Definition ended (e : Event) : list nat :=
  match e with
  | Interrupt x | Close x => end_of x
  | _ => []
  end.

(** The ends of the link that [Dispatch] has ended, in order. *)
Definition ended_by (t : list Event) : list nat := flat_map ended t.

End Outbound.

(** The severity the code gave an error: the first one set along the chain
    of causes, outermost first. *)
Fixpoint marked_severity (e : error) : option Severity :=
  match e with
  | Error _ _ (Some s) _ => Some s
  | Error _ _ None (Some cause) => marked_severity cause
  | _ => None
  end.

(* ===================================================================== *)
(** * Auxiliary notions used in the statements *)
(* ===================================================================== *)

(** A computation only ever appends to the writer's log. *)
Definition extends {A} (m : IO A) : Prop :=
  forall c, exists tail, wlog (snd (m c)) = wlog c ++ tail.

(** A result is an error that reports byte [b]. *)
Definition reports_byte {A} (r : result A) (b : byte) : Prop :=
  exists e, r = Err e /\ error_arg e = Some b.

(** The SOCKS4 reply frame with status [code], null port and address. *)
Definition socks4Reply (code : byte) : list byte :=
  [x00; code; x00; x00; x00; x00; x00; x00].

(** The connection after one more [Write] call. *)
Definition written (c : Conn) (data : list byte) : Conn :=
  mkConn (input c) (wlog c ++ [(data, writer_accepts c)])
         (match wquota c with
          | Some (S n) => Some n
          | q => q
          end).

Definition with_input (c : Conn) (inp : list byte) : Conn :=
  mkConn inp (wlog c) (wquota c).

Definition with_AuthType (s : Socks.ServerSession) (a : AuthType) : Socks.ServerSession :=
  {| Socks.config :=
       {| Socks.AuthType_ := a;
          Socks.Accounts := Socks.Accounts (Socks.config s);
          Socks.ConfigAddress := Socks.ConfigAddress (Socks.config s);
          Socks.UdpEnabled := Socks.UdpEnabled (Socks.config s);
          Socks.Keys := Socks.Keys (Socks.config s) |};
     Socks.address := Socks.address s;
     Socks.port := Socks.port s;
     Socks.localAddress := Socks.localAddress s |}.

(** What the server's check of the credentials accepted. *)
Definition credentials_accepted (c : Socks.ServerConfig) (username password : string)
  : Prop :=
  match Socks.AuthType_ c with
  | AuthType_PASSWORD => Socks.HasAccount c username password = true
  | AuthType_KEYAUTH => Socks.ValidateKey c password = true
  | AuthType_NO_AUTH => True
  end.

(* ===================================================================== *)
(** * Concrete sessions and streams *)
(* ===================================================================== *)

Module Samples.

Definition ip1234 : Address := ipv4Address [x01; x02; x03; x04].

Definition session (a : AuthType) : Socks.ServerSession :=
  {| Socks.config :=
       {| Socks.AuthType_ := a;
          Socks.Accounts := Some {[ "alice" := "secret" ]};
          Socks.ConfigAddress := None;
          Socks.UdpEnabled := true;
          Socks.Keys := Some {[ "k" := 1%Z ]} |};
     Socks.address := ip1234;
     Socks.port := 1080%Z;
     Socks.localAddress := ip1234 |}.

Definition stream (inp : list byte) : Conn := mkConn inp [] None.

(** A SOCKS5 client that offers the password method, answers the
    sub-negotiation with an empty username and the key "k", and asks to
    connect to 1.2.3.4:80. *)
Definition keyauth_empty_username : list byte :=
  [x02] ++ [x01; x00; x01; x6b]
  ++ [x05; x01; x00; x01; x01; x02; x03; x04; x00; x50].

(** The method bytes of a client offering no-auth and the password
    method. *)
Definition noauth_or_password : list byte := [x00; x02].

(** The key-authenticated client again, with username "bob". *)
Definition keyauth_bob : list byte :=
  [x02] ++ [x01; x03; x62; x6f; x62; x01; x6b]
  ++ [x05; x01; x00; x01; x01; x02; x03; x04; x00; x50].

End Samples.

Module ClientSamples.

(** A CONNECT request to 1.2.3.4:80 without credentials. *)
Definition anonymous : Socks.RequestHeader :=
  {| Socks.Version := x05; Socks.Command := Socks.RequestCommandTCP;
     Socks.Address_ := Samples.ip1234; Socks.Port_ := 80%Z;
     Socks.User := None |}.

(** The same for user "alice" with password "secret". *)
Definition alice : Socks.RequestHeader :=
  {| Socks.Version := x05; Socks.Command := Socks.RequestCommandTCP;
     Socks.Address_ := Samples.ip1234; Socks.Port_ := 80%Z;
     Socks.User :=
       Some {| Socks.Email := "alice";
               Socks.Account_ :=
                 Some {| Socks.Username := "alice";
                         Socks.Password := "secret" |} |} |}.

End ClientSamples.

(** Bytes an address and port take on the wire. *)
Definition wire_len (a : Address) : Z :=
  match a with
  | ipv4Address _ => 1 + 4 + 2
  | ipv6Address _ => 1 + 16 + 2
  | domainAddress d => 1 + 1 + len (bytes_of_string d) + 2
  end.

Module UDPSamples.

(** A datagram for 1.2.3.4:80. *)
Definition header : Socks.RequestHeader :=
  {| Socks.Version := x05; Socks.Command := Socks.RequestCommandUDP;
     Socks.Address_ := Samples.ip1234; Socks.Port_ := 80%Z;
     Socks.User := None |}.

(** A payload of 8192 zero bytes. *)
Definition payload8192 : list byte := repeat x00 (Z.to_nat 8192).

Definition hello : list byte := [x68; x65; x6c; x6c; x6f].

End UDPSamples.

Module OutboundSamples.
Import Outbound.

Definition multiplex (concurrency xudpConcurrency : Z) : MultiplexingConfig :=
  {| MuxEnabled := true; Concurrency := concurrency;
     XudpConcurrency := xudpConcurrency; XudpProxyUDP443 := "reject" |}.

Definition config (concurrency xudpConcurrency : Z) : OutboundHandlerConfig :=
  {| Tag := "proxy";
     SenderSettings :=
       Some (Ok (SenderConfigMessage
                   {| MultiplexSettings :=
                        Some (multiplex concurrency xudpConcurrency) |}));
     ProxySettings := None |}.

Definition collaborators : Collaborators :=
  {| ToMemoryStreamConfig := None; CreateObject := Ok true |}.

Definition pool : ClientManager := enabledManager 8.

Definition handler (mux : option ClientManager) (udp443 : string) : Handler :=
  {| tag := "proxy"; senderSettings := None;
     mux := mux; xudp := None; udp443 := udp443 |}.


(** The same flow after address translation: it was addressed to the
    domain "dns.google". *)
Definition translated : SessionOutbound :=
  {| Target := {| DAddress := Some (ipv4Address [x08; x08; x08; x08]);
                  DPort := 443; DNetwork := Network_UDP |};
     OriginalTarget := {| DAddress := Some (domainAddress "dns.google");
                          DPort := 443; DNetwork := Network_UDP |} |}.

Definition link : Link := {| Reader := LinkEnd 0; Writer := LinkEnd 1 |}.

Definition outcomes (process : option error) : Outcomes :=
  {| xudp_Dispatch := None; mux_Dispatch := None; proxy_Process := process |}.

End OutboundSamples.

Module Socks4Samples.

(** CONNECT 1.2.3.4:80 with user id "u", after the two bytes that
    [Handshake] reads. *)
Definition connect : list byte :=
  [x00; x50] ++ [x01; x02; x03; x04] ++ [x75] ++ [x00].

End Socks4Samples.

Module ConfSamples.

(** [{"auth": "keyauth", "keys": ["k"]}] *)
Definition keyauth : Conf.HTTPServerConfig :=
  {| Conf.Accounts := []; Conf.Transparent := false; Conf.UserLevel := 0;
     Conf.AuthMethod := "keyauth"; Conf.Keys := Some ["k"] |}.

End ConfSamples.

(** The writer accepts at least [k] more [Write] calls. *)
Definition accepts (k : nat) (c : Conn) : Prop :=
  match wquota c with
  | None => True
  | Some n => (k <= n)%nat
  end.

(** Writes a client-role handshake makes before it reads the reply to its
    request: the method offer, the credentials if it has any, the
    request. *)
Definition client_writes (request : Socks.RequestHeader) : nat :=
  match Socks.User request with
  | Some _ => 3
  | None => 2
  end.

(* ===================================================================== *)
(** * Frames on the wire *)
(* ===================================================================== *)

(** The bytes of an address on the wire; empty for a domain too long to
    encode. *)
Definition address_bytes (a : Address) : list byte :=
  match encode_address a with
  | Ok bs => bs
  | _ => []
  end.

(** The SOCKS5 reply frame: version, status, reserved, bound address and
    port. *)
Definition socks5Reply (code : byte) (a : Address) (p : Port) : list byte :=
  [x05; code; x00] ++ address_bytes a ++ PutUint16 p.

(** The SOCKS5 request frame. *)
Definition socks5Request (cmd : byte) (a : Address) (p : Port) : list byte :=
  [x05; cmd; x00] ++ address_bytes a ++ PutUint16 p.

(** The frame of the password sub-negotiation for a username and a
    password of at most 255 bytes each. *)
Definition credentialsFrame (ver : byte) (username password : string) : list byte :=
  [ver; byte_of_Z (len (bytes_of_string username))]
  ++ bytes_of_string username
  ++ [byte_of_Z (len (bytes_of_string password))]
  ++ bytes_of_string password.

(** The address a SOCKS5 server puts in its success reply. *)
Definition responseAddress (s : Socks.ServerSession) (command : Socks.RequestCommand)
  : Address :=
  match command with
  | Socks.RequestCommandUDP =>
      match Socks.ConfigAddress (Socks.config s) with
      | Some a => a
      | None => Socks.localAddress s
      end
  | Socks.RequestCommandTCP => Socks.address s
  end.

(** The commands [handshake5] serves as a TCP connect. *)
Definition is_connect_command (cmd : byte) : bool :=
  Byte.eqb cmd Socks.cmdTCPConnect || Byte.eqb cmd Socks.cmdTorResolve
  || Byte.eqb cmd Socks.cmdTorResolvePTR.

(** The user record [handshake5] attaches for a username. *)
Definition identity (username : string) : option Socks.MemoryUser :=
  if String.eqb username "" then None
  else Some {| Socks.Email := username; Socks.Account_ := None |}.

(** The error [handshake5] returns for a command it does not serve. *)
Definition refusal (cmd : byte) : error :=
  if Byte.eqb cmd Socks.cmdUDPAssociate then errors_New "UDP is not enabled."
  else if Byte.eqb cmd Socks.cmdTCPBind then errors_New "TCP bind is not supported."
  else errors_New1 "unknown command " cmd.

(** Whether the server's configuration accepts the credentials. *)
Definition accepted (c : Socks.ServerConfig) (username password : string) : bool :=
  match Socks.AuthType_ c with
  | AuthType_PASSWORD => Socks.HasAccount c username password
  | AuthType_KEYAUTH => Socks.ValidateKey c password
  | AuthType_NO_AUTH => true
  end.

(** The error [auth5] returns for credentials it does not accept. *)
Definition rejection (c : Socks.ServerConfig) : error :=
  match Socks.AuthType_ c with
  | AuthType_KEYAUTH => errors_New "invalid key"
  | _ => errors_New "invalid username or password"
  end.


(** Whether a flow is to UDP port 443. *)
Definition is_udp443 (ob : Outbound.SessionOutbound) : bool :=
  bool_decide (Outbound.DNetwork (Outbound.Target ob) = Outbound.Network_UDP)
  && (Outbound.DPort (Outbound.Target ob) =? 443)%Z.

(** What a pool returned to [Dispatch]. *)
Definition poolResult (p : Outbound.Pool) (outcomes : Outbound.Outcomes)
  : option error :=
  match p with
  | Outbound.PoolXudp => Outbound.xudp_Dispatch outcomes
  | Outbound.PoolMux => Outbound.mux_Dispatch outcomes
  end.

(** The request frame [ClientHandshake] sends: for a UDP association it
    carries the null address and port, whatever the request names. *)
Definition clientRequestFrame (request : Socks.RequestHeader) : list byte :=
  match Socks.Command request with
  | Socks.RequestCommandUDP => socks5Request Socks.cmdUDPAssociate AnyIP 0%Z
  | Socks.RequestCommandTCP =>
      socks5Request Socks.cmdTCPConnect (Socks.Address_ request)
                    (Socks.Port_ request)
  end.

(** The credentials frame of a request that has a user with an account. *)
Definition clientCredentials (request : Socks.RequestHeader) : list (list byte) :=
  match Socks.User request with
  | Some {| Socks.Account_ := Some account |} =>
      [credentialsFrame x01 (Socks.Username account) (Socks.Password account)]
  | _ => []
  end.

(** The frames of a complete client-role handshake, in order. *)
Definition clientFrames (request : Socks.RequestHeader) : list (list byte) :=
  [x05; x01; Socks.clientAuthByte request]
  :: clientCredentials request ++ [clientRequestFrame request].

(** What [ClientHandshake] returns on success. *)
Definition clientResult (request : Socks.RequestHeader) (bnd : Address) (bport : Port)
  : option Socks.RequestHeader :=
  match Socks.Command request with
  | Socks.RequestCommandUDP =>
      Some {| Socks.Version := x05; Socks.Command := Socks.RequestCommandUDP;
              Socks.Address_ := bnd; Socks.Port_ := bport; Socks.User := None |}
  | Socks.RequestCommandTCP => None
  end.

(** The account of a request's user has a username and a password that
    fit the one-byte lengths of the credentials frame. *)
Definition sendable_credentials (request : Socks.RequestHeader) : Prop :=
  match Socks.User request with
  | Some user =>
      exists account,
        Socks.Account_ user = Some account
        /\ (len (bytes_of_string (Socks.Username account)) <= 255)%Z
        /\ (len (bytes_of_string (Socks.Password account)) <= 255)%Z
  | None => True
  end.

(** The account of a request's user has a username and a password
    that fit the buffer together with the three bytes that frame them. *)
Definition credentials_fit (request : Socks.RequestHeader) : Prop :=
  match Socks.User request with
  | Some user =>
      exists account,
        Socks.Account_ user = Some account
        /\ (3 + len (bytes_of_string (Socks.Username account))
            + len (bytes_of_string (Socks.Password account)) <= Size)%Z
  | None => True
  end.

(** All [Write] calls logged on a connection succeeded. *)
Definition all_received (c : Conn) : Prop :=
  Forall (fun w : list byte * bool => snd w = true) (wlog c).

(** The target a SOCKS5 server learns from a client's request frame. *)
Definition requestedTarget (request : Socks.RequestHeader) : Address * Port :=
  match Socks.Command request with
  | Socks.RequestCommandUDP => (AnyIP, 0%Z)
  | Socks.RequestCommandTCP => (Socks.Address_ request, Socks.Port_ request)
  end.

(** The username a client's request presents. *)
Definition presentedUsername (request : Socks.RequestHeader) : string :=
  match Socks.User request with
  | Some {| Socks.Account_ := Some account |} => Socks.Username account
  | _ => ""
  end.

(** The server's configuration admits the client's request: no
    authentication on either side, or credentials the server accepts. *)
Definition admits (config : Socks.ServerConfig) (request : Socks.RequestHeader)
  : Prop :=
  match Socks.User request with
  | None => Socks.AuthType_ config = AuthType_NO_AUTH
  | Some user =>
      Socks.AuthType_ config <> AuthType_NO_AUTH
      /\ exists account,
           Socks.Account_ user = Some account
           /\ accepted config (Socks.Username account) (Socks.Password account)
              = true
  end.

(* ===================================================================== *)
(** * The address a dial is sent through ([Handler.Dial], [ParseRandomIP]) *)
(* ===================================================================== *)

From Stdlib.Strings Require Import Ascii.

Module Via.

(** ** Strings *)

(** [strings.HasPrefix(s, prefix)] *)
Definition HasPrefix (s prefix : string) : bool := String.prefix prefix s.

(** [strings.TrimPrefix(s, prefix)] *)
Definition TrimPrefix (s prefix : string) : string :=
  if HasPrefix s prefix
  then substring (String.length prefix)
                 (String.length s - String.length prefix) s
  else s.

(** [strings.Split(s, sep)] for a separator of one character: the pieces
    between the separators, one more than there are separators. *)
Fixpoint Split (s : string) (sep : ascii) : list string :=
  match s with
  | EmptyString => [EmptyString]
  | String c s' =>
      if Ascii.eqb c sep then EmptyString :: Split s' sep
      else match Split s' sep with
           | piece :: pieces => String c piece :: pieces
           | [] => [String c EmptyString]
           end
  end.

(** The character [sep] does not occur in [s]. *)
Fixpoint free_of (sep : ascii) (s : string) : bool :=
  match s with
  | EmptyString => true
  | String c s' => negb (Ascii.eqb c sep) && free_of sep s'
  end.

(** [strings.Join(elems, sep)] *)
Definition Join (elems : list string) (sep : string) : string :=
  String.concat sep elems.

(** ** IP addresses and networks *)

(** [big.Int.SetBytes]: the bytes as a big-endian unsigned integer. *)
Definition SetBytes (bs : list byte) : Z :=
  fold_left (fun acc b => (acc * 256 + Z_of_byte b)%Z) bs 0%Z.

(** The [k] low-order bytes of [z], big-endian. *)
Fixpoint be_bytes (k : nat) (z : Z) : list byte :=
  match k with
  | O => []
  | S k' => be_bytes k' (z / 256) ++ [byte_of_Z z]
  end.

(** [big.Int.Bytes] of a non-negative integer: big-endian, without
    leading zero bytes; empty for zero. *)
Definition Bytes (z : Z) : list byte :=
  if (z <=? 0)%Z then [] else be_bytes (Z.to_nat (Z.log2 z / 8 + 1)) z.

(** One byte of [net.CIDRMask]: its [ones] high bits set, all eight when
    [ones] is 8 or more. *)
Definition maskByte (ones : nat) : byte :=
  byte_of_Z (256 - 2 ^ Z.of_nat (8 - ones)).

(** [net.CIDRMask(ones, 8 * n)], as [n] bytes. *)
Fixpoint CIDRMask (ones n : nat) : list byte :=
  match n with
  | O => []
  | S n' => maskByte ones :: CIDRMask (ones - 8) n'
  end.

(** [ip.Mask(mask)] for an address and a mask of the same length. *)
Fixpoint Mask (ip mask : list byte) : list byte :=
  match ip, mask with
  | a :: ip', m :: mask' =>
      byte_of_Z (Z.land (Z_of_byte a) (Z_of_byte m)) :: Mask ip' mask'
  | _, _ => []
  end.

Definition isZeros (p : list byte) : bool := forallb (fun b => Byte.eqb b x00) p.

(** [ip.To4()]: the four bytes of an IPv4 address, also when it is held
    in sixteen bytes (ten zero bytes, FF FF, the address). *)
Definition To4 (ip : list byte) : option (list byte) :=
  if (length ip =? 4)%nat then Some ip
  else if (length ip =? 16)%nat && isZeros (firstn 10 ip)
          && Byte.eqb (nth 10 ip x00) xff && Byte.eqb (nth 11 ip x00) xff
  then Some (skipn 12 ip)
  else None.

(** [net.ParseAddress(gonet.IP(ip).String())] for an [ip] of 4 or 16
    bytes: the text of an IP address parses back to the address, an IPv4
    address held in sixteen bytes printing and parsing as IPv4. *)
Definition IPAddress (ip : list byte) : Address :=
  match To4 ip with
  | Some v4 => ipv4Address v4
  | None => ipv6Address ip
  end.

(** [session.Inbound], the fields [Dial] reads: the user, and the
    connection by the texts of its local and remote addresses. *)
Record InboundConn : Set := { LocalAddr : string; RemoteAddr : string }.

Record Inbound : Set := {
  User : option Socks.MemoryUser;
  Conn : option InboundConn;
}.

Section WithLibraries.

(** [net.ParseAddress]: the address a text denotes. *)
Variable ParseAddress : string -> Address.

(** [net.SplitHostPort]: the host part, or [None] for an error. *)
Variable SplitHostPort : string -> option string.

(** The number a CIDR prefix length is written as, or [None] when the
    text is not a decimal number. *)
Variable dtoi : string -> option nat.

(** [rand.Int(rand.Reader, max)]: some integer in [[0, max)]. *)
Variable rand_Int : Z -> Z.

(** [gonet.ParseCIDR(ip.String() + "/" + prefix)]: the network number
    [ipnet.IP] and the number of ones of [ipnet.Mask], or [None] for the
    nil [ipnet] of an error. The network has 4 bytes for an IPv4 address
    and 16 bytes otherwise. *)
Definition ParseCIDR (ip : list byte) (prefix : string)
  : option (list byte * nat) :=
  match To4 ip, (length ip =? 16)%nat with
  | None, false => None
  | v4, _ =>
      let ip := match v4 with Some ip4 => ip4 | None => ip end in
      match dtoi prefix with
      | Some n =>
          if (n <=? 8 * length ip)%nat
          then Some (Mask ip (CIDRMask n (length ip)), n)
          else None
      | None => None
      end
  end.

Definition ParseRandomIP (addr : Address) (prefix : string) : result Address :=
  match Address_IP addr with
  | Ok ip =>
      match ParseCIDR ip prefix with
      | None => Panic "invalid memory address or nil pointer dereference"
      | Some (ipnet_IP, ones) =>
          let bits := (8 * length ipnet_IP)%nat in
          let subnetSize := Z.shiftl 1 (Z.of_nat (bits - ones)) in
          let rnd := rand_Int subnetSize in
          let startInt := SetBytes ipnet_IP in
          let rndInt := (startInt + rnd)%Z in
          let rndBytes := Bytes rndInt in
          if (length ipnet_IP <? length rndBytes)%nat
          then Panic "slice bounds out of range"
          else Ok (IPAddress (repeat x00 (length ipnet_IP - length rndBytes)
                              ++ rndBytes))
      end
  | Err e => Err e
  | Panic m => Panic m
  end.

(** The address of the inbound connection's local end, if it has a host
    part; otherwise the gateway stays as it is. *)
Definition hostGateway (text : string) (gateway : option Address)
  : option Address :=
  match SplitHostPort text with
  | Some host => Some (ParseAddress host)
  | None => gateway
  end.

(** [Dial], the block under [h.senderSettings.Via != nil]: the value of
    [ob.Gateway] of the last outbound after it, from its value before.
    [Via] is [h.senderSettings.Via.AsAddress()], an IP or a domain. In
    mode "origin" the email of the inbound's user is read for the debug
    log before the user is tested for nil. *)
Definition Dial_via (Via : Address) (ViaCidr : string) (inbound : option Inbound)
  (gateway : option Address) : result (option Address) :=
  let addr := Via in
  let domain := match Via with domainAddress d => d | _ => "" end in
  if negb (String.eqb ViaCidr "") then
    match ParseRandomIP addr ViaCidr with
    | Ok a => Ok (Some a)
    | Err e => Err e
    | Panic m => Panic m
    end
  else if String.eqb domain "origin" then
    match inbound with
    | Some inbound =>
        match User inbound with
        | None => Panic "invalid memory address or nil pointer dereference"
        | Some _ =>
            let fromConn :=
              match Conn inbound with
              | Some conn => Ok (hostGateway (LocalAddr conn) gateway)
              | None => Ok gateway
              end in
            match User inbound with
            | Some user =>
                if negb (String.eqb (Socks.Email user) "") then
                  let email := Socks.Email user in
                  if HasPrefix email "ipv4_" then
                    let ipStr := TrimPrefix email "ipv4_" in
                    let parts := Split ipStr "-"%char in
                    if (4 <=? length parts)%nat
                    then Ok (Some (ParseAddress (Join (firstn 4 parts) ".")))
                    else Ok gateway
                  else if HasPrefix email "ipv6_" then
                    let ipStr := TrimPrefix email "ipv6_" in
                    let parts := Split ipStr "-"%char in
                    if (8 <=? length parts)%nat
                    then Ok (Some (ParseAddress (Join (firstn 8 parts) ":")))
                    else Ok gateway
                  else fromConn
                else fromConn
            | None => fromConn
            end
        end
    | None => Ok gateway
    end
  else if String.eqb domain "srcip" then
    match inbound with
    | Some inbound =>
        match Conn inbound with
        | Some conn => Ok (hostGateway (RemoteAddr conn) gateway)
        | None => Ok gateway
        end
    | None => Ok gateway
    end
  else Ok (Some addr).

End WithLibraries.

End Via.

(* ===================================================================== *)
(** * Properties: key validation *)
(* ===================================================================== *)

Lemma foldl_insert_const_lookup {V} (v : V) (ks : list string) (m : gmap string V) (k : string) :
  foldl (fun m key => <[key := v]> m) m ks !! k
  = if bool_decide (k ∈ ks) then Some v else m !! k.
Proof.
  revert m. induction ks as [|a ks IH]; intros m.
  - cbn [foldl]. rewrite bool_decide_eq_false_2; [done | apply not_elem_of_nil].
  - cbn [foldl]. rewrite IH.
    destruct (decide (k = a)) as [-> | Hne].
    + rewrite lookup_insert_eq.
      rewrite (bool_decide_eq_true_2 (a ∈ a :: ks)) by (apply elem_of_cons; by left).
      by case_bool_decide.
    + rewrite lookup_insert_ne by done.
      destruct (decide (k ∈ ks)) as [Hin | Hnin].
      * rewrite !bool_decide_eq_true_2; [done | apply elem_of_cons; by right | done].
      * rewrite !bool_decide_eq_false_2; [done | by apply not_elem_of_cons | done].
Qed.

Lemma build_keys_lookup (ks : list string) (k : string) :
  Conf.build_keys ks !! k = if bool_decide (k ∈ ks) then Some 1%Z else None.
Proof.
  unfold Conf.build_keys. rewrite foldl_insert_const_lookup.
  by rewrite lookup_empty.
Qed.

Lemma Build_Keys (c : Conf.HTTPServerConfig) (keys : gmap string Z) :
  Http.Keys (Conf.Build c) = Some keys ->
  exists ks, Conf.Keys c = Some ks /\ keys = Conf.build_keys ks
             /\ Conf.AuthMethod c = Conf.HTTPAuthMethodKeyAuth.
Proof.
  unfold Conf.Build.
  destruct (String.eqb_spec (Conf.AuthMethod c) Conf.HTTPAuthMethodNoAuth);
    [discriminate |].
  destruct (String.eqb_spec (Conf.AuthMethod c) Conf.HTTPAuthMethodUserPass);
    [discriminate |].
  destruct (String.eqb_spec (Conf.AuthMethod c) Conf.HTTPAuthMethodKeyAuth);
    [| discriminate].
  simpl. destruct (Conf.Keys c) as [ks|]; [| discriminate].
  intros [= <-]. eauto.
Qed.

Lemma Http_ValidateKey_spec (sc : Http.ServerConfig) (key : string) :
  Http.ValidateKey sc key = true
  <-> exists keys, Http.Keys sc = Some keys /\ keys !! key = Some 1%Z.
Proof.
  unfold Http.ValidateKey, Http.ValidKey. split.
  - destruct (Http.Keys sc) as [keys|]; [| discriminate].
    destruct (keys !! key) as [v|] eqn:E; [| discriminate].
    intros H%Z.eqb_eq. subst v. eauto.
  - intros (keys & -> & ->). reflexivity.
Qed.

Lemma Socks_ValidateKey_spec (c : Socks.ServerConfig) (key : string) :
  Socks.ValidateKey c key = true
  <-> exists keys, Socks.Keys c = Some keys /\ keys !! key = Some 1%Z.
Proof.
  unfold Socks.ValidateKey, Socks.ValidKey. split.
  - destruct (Socks.Keys c) as [keys|]; [| discriminate].
    destruct (keys !! key) as [v|] eqn:E; [| discriminate].
    intros H%Z.eqb_eq. subst v. eauto.
  - intros (keys & -> & ->). reflexivity.
Qed.

(** C10. [ValidateKey(key)] is true exactly when the [Keys] map is not nil,
    holds [key], and maps it to 1, for the HTTP and for the SOCKS server
    configuration alike; a key held with another value is rejected; and
    every key of the [Keys] map of a configuration produced by
    [HTTPServerConfig.Build] validates, the builder storing 1 for each key
    it lists. *)
Theorem ValidateKey_iff_present_with_value_1 :
  (forall (sc : Http.ServerConfig) (key : string),
      Http.ValidateKey sc key = true
      <-> exists keys, Http.Keys sc = Some keys /\ keys !! key = Some 1%Z)
  /\ (forall (c : Socks.ServerConfig) (key : string),
      Socks.ValidateKey c key = true
      <-> exists keys, Socks.Keys c = Some keys /\ keys !! key = Some 1%Z)
  /\ (forall (sc : Http.ServerConfig) (keys : gmap string Z) (key : string) (v : Z),
      Http.Keys sc = Some keys -> keys !! key = Some v -> v <> 1%Z ->
      Http.ValidateKey sc key = false)
  /\ (forall (c : Conf.HTTPServerConfig) (keys : gmap string Z) (key : string),
      Http.Keys (Conf.Build c) = Some keys ->
      (forall v, keys !! key = Some v -> v = 1%Z)
      /\ (is_Some (keys !! key) -> Http.ValidateKey (Conf.Build c) key = true))
  /\ (forall (c : Conf.HTTPServerConfig) (ks : list string) (key : string),
      Conf.AuthMethod c = "keyauth" -> Conf.Keys c = Some ks -> key ∈ ks ->
      Http.ValidateKey (Conf.Build c) key = true).
Proof.
  split; [exact Http_ValidateKey_spec |].
  split; [exact Socks_ValidateKey_spec |].
  split; [| split].
  - intros sc keys key v Hk Hl Hv. unfold Http.ValidateKey.
    rewrite Hk, Hl. apply Z.eqb_neq. exact Hv.
  - intros c keys key HK.
    destruct (Build_Keys c keys HK) as (ks & Hks & -> & _).
    assert (Hone : forall v, Conf.build_keys ks !! key = Some v -> v = 1%Z).
    { intros v. rewrite build_keys_lookup. case_bool_decide; congruence. }
    split; [exact Hone |].
    intros [v Hv]. apply Http_ValidateKey_spec. exists (Conf.build_keys ks).
    split; [exact HK |]. rewrite Hv. f_equal. exact (Hone v Hv).
  - intros c ks key Ha Hks Hin. apply Http_ValidateKey_spec.
    exists (Conf.build_keys ks). split.
    + unfold Conf.Build. rewrite Ha, Hks. reflexivity.
    + rewrite build_keys_lookup. by rewrite bool_decide_eq_true_2.
Qed.

(* ===================================================================== *)
(** * Properties: outbound handler *)
(* ===================================================================== *)

Section OutboundProperties.
Import Outbound.

Lemma uint32_small (z : Z) : (0 <= z < 2 ^ 31)%Z -> uint32 z = z.
Proof. intros H. unfold uint32. apply Z.mod_small. lia. Qed.

(** C4. When a handler is built with multiplexing enabled (and its
    collaborators report no error, so that it is built at all), the TCP
    pool is disabled for a negative concurrency, enabled with concurrency
    8 for concurrency 0, and enabled with the given concurrency
    otherwise, with at most 128 connections per worker; the xudp pool
    follows the same rule except that xudp concurrency 0 leaves no xudp
    pool at all. *)
Theorem NewHandler_mux_tristate :
  forall env config s mc,
    SenderSettings config = Some (Ok (SenderConfigMessage s)) ->
    MultiplexSettings s = Some mc ->
    MuxEnabled mc = true ->
    int32_range (Concurrency mc) ->
    int32_range (XudpConcurrency mc) ->
    ToMemoryStreamConfig env = None ->
    ProxySettings config = None ->
    CreateObject env = Ok true ->
    exists h,
      NewHandler env config = Ok h
      /\ ((Concurrency mc < 0)%Z ->
          mux h = Some {| Enabled := false; Picker := None |})
      /\ (Concurrency mc = 0%Z ->
          mux h = Some {| Enabled := true;
                          Picker := Some {| MaxConcurrency := 8;
                                            MaxConnection := 128 |} |})
      /\ ((Concurrency mc > 0)%Z ->
          mux h = Some {| Enabled := true;
                          Picker := Some {| MaxConcurrency := Concurrency mc;
                                            MaxConnection := 128 |} |})
      /\ ((XudpConcurrency mc < 0)%Z ->
          xudp h = Some {| Enabled := false; Picker := None |})
      /\ (XudpConcurrency mc = 0%Z -> xudp h = None)
      /\ ((XudpConcurrency mc > 0)%Z ->
          xudp h = Some {| Enabled := true;
                           Picker := Some {| MaxConcurrency := XudpConcurrency mc;
                                             MaxConnection := 128 |} |})
      /\ udp443 h = XudpProxyUDP443 mc.
Proof.
  intros env config s mc HS HM HE [Hc1 Hc2] [Hx1 Hx2] HT HP HC.
  assert (HN : NewHandler env config
               = Ok (setupMux {| tag := Tag config; senderSettings := Some s;
                                 mux := None; xudp := None; udp443 := "" |})).
  { unfold NewHandler. rewrite HS, HT, HP, HC. reflexivity. }
  eexists. split; [exact HN |].
  unfold setupMux. cbn [senderSettings].
  destruct s as [ms]. cbn [MultiplexSettings] in HM. subst ms. rewrite HE.
  cbn [mux xudp udp443].
  repeat split; try intros H.
  - destruct (Z.ltb_spec (Concurrency mc) 0); [| lia].
    destruct (Z.eqb_spec (Concurrency mc) 0); [lia |].
    destruct (Z.ltb_spec 0 (Concurrency mc)); [lia |]. reflexivity.
  - rewrite H. reflexivity.
  - destruct (Z.eqb_spec (Concurrency mc) 0); [lia |].
    destruct (Z.ltb_spec 0 (Concurrency mc)); [| lia].
    unfold enabledManager. rewrite uint32_small by lia. reflexivity.
  - destruct (Z.ltb_spec (XudpConcurrency mc) 0); [| lia].
    destruct (Z.eqb_spec (XudpConcurrency mc) 0); [lia |].
    destruct (Z.ltb_spec 0 (XudpConcurrency mc)); [lia |]. reflexivity.
  - rewrite H. reflexivity.
  - destruct (Z.eqb_spec (XudpConcurrency mc) 0); [lia |].
    destruct (Z.ltb_spec 0 (XudpConcurrency mc)); [| lia].
    unfold enabledManager. rewrite uint32_small by lia.
    destruct (Z.ltb_spec (XudpConcurrency mc) 0); reflexivity.
Qed.

Lemma test_no_pool link err : existsb is_pool_event (test link err) = false.
Proof. destruct err; reflexivity. Qed.

Lemma test_no_process link err : existsb is_process (test link err) = false.
Proof. destruct err; reflexivity. Qed.

Lemma out_no_pool link outcomes : existsb is_pool_event (out link outcomes) = false.
Proof.
  unfold out. destruct (proxy_Process outcomes) as [e|]; [| reflexivity].
  destruct (benign e); reflexivity.
Qed.

Lemma out_cases link outcomes :
  out link outcomes
  = match proxy_Process outcomes with
    | Some e =>
        if benign e then
          [ProxyProcess link; Close (Writer link); Interrupt (Reader link)]
        else
          let err := Base (errors_New "failed to process outbound traffic") e in
          [ProxyProcess link; SubmitOutboundErrorToOriginator err; LogInfo err;
           Interrupt (Writer link); Interrupt (Reader link)]
    | None => [ProxyProcess link; Close (Writer link); Interrupt (Reader link)]
    end.
Proof.
  unfold out. destruct (proxy_Process outcomes) as [e|]; [| reflexivity].
  destruct (benign e); reflexivity.
Qed.

Lemma overrideLink_plain ob link :
  overridden ob = false -> overrideLink ob link = link.
Proof.
  unfold overrideLink, overridden.
  destruct (DAddress (OriginalTarget ob)) as [original|]; [| reflexivity].
  by intros ->.
Qed.

(** What the calls on the two ends of the link end, after the first
    statement of [Dispatch]. *)
Lemma end_of_overrideLink ob link :
  end_of (Writer (overrideLink ob link))
  = (if overridden ob then [] else end_of (Writer link))
  /\ end_of (Reader (overrideLink ob link))
     = (if overridden ob then [] else end_of (Reader link)).
Proof.
  unfold overrideLink, overridden.
  destruct (DAddress (OriginalTarget ob)) as [original|]; [| by split].
  destruct (_ && _); by split.
Qed.

(** The direct path, as a trace: the proxy's [Process] on the link, once,
    first, and no pool. *)
Lemma out_direct link outcomes :
  exists rest,
    out link outcomes = ProxyProcess link :: rest
    /\ existsb is_pool_event rest = false
    /\ existsb is_process rest = false.
Proof.
  rewrite out_cases.
  destruct (proxy_Process outcomes) as [e|]; [destruct (benign e) |];
    eexists; (split; [reflexivity |]); split; reflexivity.
Qed.

(** C1, as the code has it. With a mux pool configured and a flow to UDP
    port 443, [Dispatch] follows the configured policy. "reject": it
    returns after reporting one info-level error to the originator,
    logging it and calling [Interrupt] on the writer of the link, with no
    pool invoked and no direct processing; the call ends the writer
    unless the link was wrapped in endpoint-override adapters, in which
    case it ends nothing. "skip": it takes the direct path: the proxy's
    [Process] is invoked first, once, and no pool. Any other value: pool
    selection as for every other flow: the xudp pool if there is one, the
    mux pool otherwise, is invoked first and [Process] is not, if that
    pool is enabled, and the direct path is taken if it is not. *)
Theorem Dispatch_udp443_policy :
  forall h m ob link outcomes,
    mux h = Some m ->
    DNetwork (Target ob) = Network_UDP ->
    DPort (Target ob) = 443%Z ->
    let link' := overrideLink ob link in
    let t := Dispatch h ob link outcomes in
    let rejected :=
      Base (errors_New "failed to process mux outbound traffic")
           (AtInfo (errors_New "XUDP rejected UDP/443 traffic")) in
    let direct :=
      exists rest,
        t = ProxyProcess link' :: rest
        /\ existsb is_pool_event rest = false
        /\ existsb is_process rest = false in
    let through (p : Pool) (pool : ClientManager) (result : option error) :=
      t = PoolDispatch p pool link'
          :: match result with
             | Some e =>
                 let err :=
                   Base (errors_New "failed to process mux outbound traffic") e in
                 [SubmitOutboundErrorToOriginator err; LogInfo err;
                  Interrupt (Writer link')]
             | None => []
             end in
    (udp443 h = "reject" ->
       t = [SubmitOutboundErrorToOriginator rejected; LogInfo rejected;
            Interrupt (Writer link')]
       /\ existsb is_pool_event t = false
       /\ existsb is_process t = false
       /\ submitted t = [rejected]
       /\ marked_severity rejected = Some Severity_Info
       /\ ended_by t = if overridden ob then [] else end_of (Writer link))
    /\ (udp443 h = "skip" -> direct)
    /\ (udp443 h <> "reject" -> udp443 h <> "skip" ->
        match xudp h with
        | Some x =>
            if Enabled x then through PoolXudp x (xudp_Dispatch outcomes)
            else direct
        | None =>
            if Enabled m then through PoolMux m (mux_Dispatch outcomes)
            else direct
        end).
Proof.
  intros h m ob link outcomes Hm Hn Hp link' t rejected direct through.
  assert (HD : t = if String.eqb (udp443 h) "reject" then
                     test link' (Some (AtInfo (errors_New "XUDP rejected UDP/443 traffic")))
                   else if String.eqb (udp443 h) "skip" then out link' outcomes
                   else selectPool h m ob link' outcomes).
  { unfold t, Dispatch. rewrite Hm, Hn, Hp. reflexivity. }
  split; [| split].
  - intros H. rewrite H in HD. cbn [String.eqb Ascii.eqb Bool.eqb] in HD.
    rewrite HD. repeat split.
    unfold ended_by, test. cbn [flat_map ended app].
    rewrite app_nil_r. apply end_of_overrideLink.
  - intros H. rewrite H in HD. cbn [String.eqb Ascii.eqb Bool.eqb] in HD.
    unfold direct. rewrite HD. apply out_direct.
  - intros H1 H2.
    destruct (String.eqb_spec (udp443 h) "reject"); [contradiction |].
    destruct (String.eqb_spec (udp443 h) "skip"); [contradiction |].
    unfold direct, through. rewrite HD. unfold selectPool.
    destruct (xudp h) as [x|].
    + rewrite bool_decide_eq_true_2 by exact Hn.
      destruct (Enabled x); cbn [negb]; [| apply out_direct].
      unfold test. destruct (xudp_Dispatch outcomes); reflexivity.
    + destruct (Enabled m); [| apply out_direct].
      unfold test. destruct (mux_Dispatch outcomes); reflexivity.
Qed.

Lemma In_process_test l link err : ~ In (ProxyProcess l) (test link err).
Proof. destruct err; simpl; intuition discriminate. Qed.

Lemma In_process_out l link outcomes :
  In (ProxyProcess l) (out link outcomes) -> l = link.
Proof.
  rewrite out_cases. destruct (proxy_Process outcomes) as [e|];
    [destruct (benign e) |]; simpl; intuition congruence.
Qed.

Lemma In_process_selectPool l h m ob link outcomes :
  In (ProxyProcess l) (selectPool h m ob link outcomes) ->
  l = link /\ selectPool h m ob link outcomes = out link outcomes.
Proof.
  unfold selectPool.
  assert (Hmux : In (ProxyProcess l)
                   (if Enabled m
                    then PoolDispatch PoolMux m link :: test link (mux_Dispatch outcomes)
                    else out link outcomes) ->
                 l = link /\
                 (if Enabled m
                  then PoolDispatch PoolMux m link :: test link (mux_Dispatch outcomes)
                  else out link outcomes) = out link outcomes).
  { destruct (Enabled m).
    - intros [H | H]; [discriminate | destruct (In_process_test _ _ _ H)].
    - intros H. split; [exact (In_process_out _ _ _ H) | reflexivity]. }
  destruct (xudp h) as [x|]; [| exact Hmux].
  destruct (bool_decide (DNetwork (Target ob) = Network_UDP)); [| exact Hmux].
  destruct (Enabled x); simpl.
  - intros [H | H]; [discriminate | destruct (In_process_test _ _ _ H)].
  - intros H. split; [exact (In_process_out _ _ _ H) | reflexivity].
Qed.

Lemma Dispatch_direct h ob link outcomes l :
  In (ProxyProcess l) (Dispatch h ob link outcomes) ->
  l = overrideLink ob link /\ Dispatch h ob link outcomes = out l outcomes.
Proof.
  unfold Dispatch. set (link' := overrideLink ob link).
  assert (Hout : In (ProxyProcess l) (out link' outcomes) ->
                 l = link' /\ out link' outcomes = out l outcomes).
  { intros H. rewrite (In_process_out _ _ _ H). auto. }
  assert (Hsel : forall m, In (ProxyProcess l) (selectPool h m ob link' outcomes) ->
                 l = link' /\ selectPool h m ob link' outcomes = out l outcomes).
  { intros m H. destruct (In_process_selectPool _ _ _ _ _ _ H) as [-> ->]. auto. }
  destruct (mux h) as [m|]; [| exact Hout].
  destruct (_ && _); [| apply Hsel].
  destruct (String.eqb (udp443 h) "reject").
  - intros H. destruct (In_process_test _ _ _ H).
  - destruct (String.eqb (udp443 h) "skip"); [exact Hout | apply Hsel].
Qed.

(** The errors [Dispatch] takes for a clean end of the flow. *)
Lemma benign_sentinels :
  benign io_EOF = true /\ benign io_ErrClosedPipe = true
  /\ benign context_Canceled = true
  /\ benign io_ErrUnexpectedEOF = false
  /\ (forall msg, benign (ErrPlain msg) = false)
  /\ (forall msg cause, benign (Base (errors_New msg) cause) = benign cause).
Proof. repeat split. Qed.

Lemma benign_Is (e : error) :
  benign e
  = goerrors_Is e io_EOF || goerrors_Is e io_ErrClosedPipe
    || goerrors_Is e context_Canceled.
Proof. reflexivity. Qed.

(** C6, as the code has it. Whenever [Dispatch] reaches the direct path
    (the proxy's [Process] is invoked, on link [l]): after an error that
    neither is nor wraps EOF, closed pipe or canceled, the error is
    reported and logged and [Interrupt] is called on the writer; after
    success or one of those errors [Close] is called on the writer; in
    both cases [Interrupt] is then called on the reader, and that is the
    last thing [Dispatch] does. The calls end the writer and then the
    reader of the link, unless the link was wrapped in endpoint-override
    adapters: then they reach the adapters and neither end of the link is
    ended. *)
Theorem Dispatch_direct_path_ends :
  forall h ob link outcomes l,
    In (ProxyProcess l) (Dispatch h ob link outcomes) ->
    let t := Dispatch h ob link outcomes in
    l = overrideLink ob link
    /\ (forall e, proxy_Process outcomes = Some e ->
          goerrors_Is e io_EOF = false ->
          goerrors_Is e io_ErrClosedPipe = false ->
          goerrors_Is e context_Canceled = false ->
          let err := Base (errors_New "failed to process outbound traffic") e in
          t = [ProxyProcess l; SubmitOutboundErrorToOriginator err; LogInfo err;
               Interrupt (Writer l); Interrupt (Reader l)])
    /\ (forall e, proxy_Process outcomes = Some e ->
          goerrors_Is e io_EOF = true \/ goerrors_Is e io_ErrClosedPipe = true
          \/ goerrors_Is e context_Canceled = true ->
          t = [ProxyProcess l; Close (Writer l); Interrupt (Reader l)])
    /\ (proxy_Process outcomes = None ->
          t = [ProxyProcess l; Close (Writer l); Interrupt (Reader l)])
    /\ (exists pre w,
          t = pre ++ [w; Interrupt (Reader l)]
          /\ (w = Interrupt (Writer l) \/ w = Close (Writer l)))
    /\ ended_by t
       = if overridden ob then []
         else end_of (Writer link) ++ end_of (Reader link).
Proof.
  intros h ob link outcomes l Hin t. subst t.
  destruct (Dispatch_direct _ _ _ _ _ Hin) as [Hl ->].
  split; [exact Hl |]. rewrite out_cases.
  split; [| split; [| split; [| split]]].
  - intros e -> H1 H2 H3. rewrite benign_Is, H1, H2, H3. reflexivity.
  - intros e -> H. rewrite benign_Is.
    destruct H as [-> | [-> | ->]]; rewrite ?orb_true_r; reflexivity.
  - intros ->. reflexivity.
  - destruct (proxy_Process outcomes) as [e|]; [destruct (benign e) |].
    + exists [ProxyProcess l], (Close (Writer l)). auto.
    + eexists [ProxyProcess l; _; _], (Interrupt (Writer l)). auto.
    + exists [ProxyProcess l], (Close (Writer l)). auto.
  - destruct (end_of_overrideLink ob link) as [HW HR]. rewrite <- Hl in HW, HR.
    assert (HE : end_of (Writer l) ++ end_of (Reader l)
                 = if overridden ob then []
                   else end_of (Writer link) ++ end_of (Reader link)).
    { rewrite HW, HR. by destruct (overridden ob). }
    rewrite <- HE.
    destruct (proxy_Process outcomes) as [e|]; [destruct (benign e) |];
      unfold ended_by; cbn [flat_map ended app]; by rewrite app_nil_r.
Qed.

End OutboundProperties.

(* ===================================================================== *)
(** * Properties: byte and buffer arithmetic *)
(* ===================================================================== *)

Lemma Z_of_byte_range (b : byte) : (0 <= Z_of_byte b <= 255)%Z.
Proof.
  unfold Z_of_byte. pose proof (Byte.to_N_bounded b). lia.
Qed.

Lemma Z_of_byte_of_Z (z : Z) : Z_of_byte (byte_of_Z z) = (z mod 256)%Z.
Proof.
  unfold Z_of_byte, byte_of_Z.
  assert (Hr : (0 <= z mod 256 < 256)%Z) by (apply Z.mod_pos_bound; lia).
  destruct (Byte.of_N (Z.to_N (z mod 256))) as [b|] eqn:E.
  - apply Byte.to_of_N in E. rewrite E. lia.
  - apply Byte.of_N_None_iff in E. lia.
Qed.

Lemma Z_of_byte_of_Z_small (z : Z) :
  (0 <= z <= 255)%Z -> Z_of_byte (byte_of_Z z) = z.
Proof. intros H. rewrite Z_of_byte_of_Z. apply Z.mod_small. lia. Qed.

Lemma PortFromBytes_PutUint16 (p : Port) :
  Port_wf p -> PortFromBytes (PutUint16 p) = p.
Proof.
  unfold Port_wf, PortFromBytes, PutUint16. intros H. cbn [nth].
  rewrite !Z_of_byte_of_Z.
  rewrite (Z.mod_small (p / 256) 256)
    by (split; [apply Z.div_pos; lia | apply Z.div_lt_upper_bound; lia]).
  symmetry. rewrite Z.mul_comm. apply Z.div_mod. lia.
Qed.

Lemma len_app {A} (l1 l2 : list A) : len (l1 ++ l2) = (len l1 + len l2)%Z.
Proof. unfold len. rewrite length_app. lia. Qed.

Lemma len_nonneg {A} (l : list A) : (0 <= len l)%Z.
Proof. unfold len. lia. Qed.

Lemma Buffer_Write_fits (b : Buffer) (data : list byte) :
  (len b + len data <= Size)%Z -> Buffer_Write b data = b ++ data.
Proof.
  intros H. unfold Buffer_Write. f_equal. apply firstn_all2.
  unfold len in *. lia.
Qed.

Lemma ReadFull_app (bs rest : list byte) (w : list (list byte * bool)) (q : option nat) :
  ReadFull (length bs) (mkConn (bs ++ rest) w q) = (Ok bs, mkConn rest w q).
Proof.
  unfold ReadFull. cbn [input wlog wquota].
  rewrite (proj2 (Nat.leb_le _ _)) by (rewrite length_app; lia).
  rewrite firstn_app, Nat.sub_diag, firstn_all, firstn_O, app_nil_r.
  rewrite skipn_app, Nat.sub_diag, skipn_all. reflexivity.
Qed.

Lemma ReadFull_enough (n : nat) (c : Conn) :
  (n <= length (input c))%nat ->
  ReadFull n c = (Ok (firstn n (input c)),
                  mkConn (skipn n (input c)) (wlog c) (wquota c)).
Proof.
  intros H. unfold ReadFull. rewrite (proj2 (Nat.leb_le _ _)) by exact H.
  reflexivity.
Qed.

Lemma Buffer_ReadFullFrom_empty (n : Z) (c : Conn) :
  (0 <= n <= 255)%Z -> Buffer_ReadFullFrom buf_New n c = ReadFull (Z.to_nat n) c.
Proof.
  intros H. unfold Buffer_ReadFullFrom.
  destruct (Z.ltb_spec Size (len buf_New + n)) as [Hlt | _].
  - unfold Size, buf_New, len in Hlt. simpl in Hlt. lia.
  - unfold bind, ret. destruct (ReadFull (Z.to_nat n) c) as [[bs | e | m] c'];
      reflexivity.
Qed.


(* ===================================================================== *)
(** * Properties: writes *)
(* ===================================================================== *)

Lemma Write_written (data : list byte) (c : Conn) :
  Write data c
  = (if writer_accepts c then Ok tt else Err (ErrPlain "write failed"),
     written c data).
Proof.
  unfold Write, written, writer_accepts.
  destruct (wquota c) as [[|n]|]; reflexivity.
Qed.

Lemma writeSocks4Response_AnyIP (code : byte) (c : Conn) :
  Socks.writeSocks4Response code AnyIP 0%Z c
  = (if writer_accepts c then Ok tt else Err (ErrPlain "write failed"),
     written c (socks4Reply code)).
Proof.
  unfold Socks.writeSocks4Response, bind, lift. cbn -[Write].
  apply Write_written.
Qed.

Lemma writeSocks5AuthenticationResponse_written (v a : byte) (c : Conn) :
  Socks.writeSocks5AuthenticationResponse v a c
  = (if writer_accepts c then Ok tt else Err (ErrPlain "write failed"),
     written c [v; a]).
Proof. unfold Socks.writeSocks5AuthenticationResponse. cbn. apply Write_written. Qed.

(** ** The writer's log only grows *)

Lemma extends_ret {A} (a : A) : extends (ret a).
Proof. intros c. exists []. cbn. by rewrite app_nil_r. Qed.

Lemma extends_fail {A} (e : error) : extends (@fail A e).
Proof. intros c. exists []. cbn. by rewrite app_nil_r. Qed.

Lemma extends_lift {A} (r : result A) : extends (lift r).
Proof. intros c. exists []. cbn. by rewrite app_nil_r. Qed.

Lemma extends_bind {A B} (m : IO A) (k : A -> IO B) :
  extends m -> (forall a, extends (k a)) -> extends (bind m k).
Proof.
  intros Hm Hk c. unfold bind. destruct (Hm c) as [t1 H1].
  destruct (m c) as [[a | e | p] c1]; cbn in *; eauto.
  destruct (Hk a c1) as [t2 H2]. exists (t1 ++ t2).
  rewrite H2, H1. by rewrite app_assoc.
Qed.

Lemma extends_ignore_err {A} (m : IO A) : extends m -> extends (ignore_err m).
Proof.
  intros Hm c. unfold ignore_err. destruct (Hm c) as [t H].
  destruct (m c) as [[a | e | p] c1]; cbn in *; eauto.
Qed.

Lemma extends_wrap_err {A} (msg : string) (m : IO A) :
  extends m -> extends (wrap_err msg m).
Proof.
  intros Hm c. unfold wrap_err. destruct (Hm c) as [t H].
  destruct (m c) as [[a | e | p] c1]; cbn in *; eauto.
Qed.

Lemma extends_ReadFull (n : nat) : extends (ReadFull n).
Proof.
  intros c. exists []. unfold ReadFull.
  destruct (n <=? length (input c))%nat; cbn; by rewrite app_nil_r.
Qed.

Lemma extends_Write (data : list byte) : extends (Write data).
Proof. intros c. rewrite Write_written. cbn. eauto. Qed.

Lemma extends_WriteAllBytes (data : list byte) : extends (WriteAllBytes data).
Proof. destruct data; [apply extends_ret | apply extends_Write]. Qed.

Lemma extends_Buffer_ReadFullFrom (b : Buffer) (n : Z) :
  extends (Buffer_ReadFullFrom b n).
Proof.
  unfold Buffer_ReadFullFrom. destruct (_ <? _)%Z; [apply extends_fail |].
  apply extends_bind; [apply extends_ReadFull | intros; apply extends_ret].
Qed.

Lemma extends_ReadUsernamePassword : extends Socks.ReadUsernamePassword.
Proof.
  unfold Socks.ReadUsernamePassword.
  repeat (apply extends_bind; [apply extends_Buffer_ReadFullFrom | intros]).
  apply extends_ret.
Qed.


(* ===================================================================== *)
(** * Properties: SOCKS4 and authentication *)
(* ===================================================================== *)

(** C2. With password authentication required, every SOCKS4/4a handshake
    fails, and before it fails the rejection reply, status byte 91, is
    written to the peer (who receives it whenever the writer accepts the
    write); nothing is read from the request. *)
Theorem handshake4_password_rejected :
  forall (ParseAddress : string -> Address) s cmd c,
    Socks.AuthType_ (Socks.config s) = AuthType_PASSWORD ->
    Socks.handshake4 ParseAddress s cmd c
    = (Err (errors_New "socks 4 is not allowed when auth is required."),
       written c (socks4Reply Socks.socks4RequestRejected))
    /\ Z_of_byte (nth 1 (socks4Reply Socks.socks4RequestRejected) x00) = 91%Z
    /\ (forall rest,
          input c = Socks.socks4Version :: cmd :: rest ->
          Socks.Handshake ParseAddress s c
          = (Err (errors_New "socks 4 is not allowed when auth is required."),
             written (with_input c rest)
                     (socks4Reply Socks.socks4RequestRejected))).
Proof.
  intros P s cmd c HA.
  assert (H4 : forall c0, Socks.handshake4 P s cmd c0
            = (Err (errors_New "socks 4 is not allowed when auth is required."),
               written c0 (socks4Reply Socks.socks4RequestRejected))).
  { intros c0. unfold Socks.handshake4. rewrite HA.
    unfold bind, ignore_err, fail. rewrite writeSocks4Response_AnyIP.
    destruct (writer_accepts c0); reflexivity. }
  split; [apply H4 |]. split; [reflexivity |].
  intros rest Hin. unfold Socks.Handshake, bind, wrap_err.
  rewrite Buffer_ReadFullFrom_empty by lia.
  rewrite ReadFull_enough by (rewrite Hin; simpl; lia).
  rewrite Hin. cbn -[Socks.handshake4]. apply (H4 (with_input c rest)).
Qed.

Lemma bind_Ok {A B} (m : IO A) (k : A -> IO B) c a c' :
  m c = (Ok a, c') -> bind m k c = k a c'.
Proof. intros H. unfold bind. rewrite H. reflexivity. Qed.

Lemma bind_Err {A B} (m : IO A) (k : A -> IO B) c e c' :
  m c = (Err e, c') -> bind m k c = (Err e, c').
Proof. intros H. unfold bind. rewrite H. reflexivity. Qed.

Lemma wrap_err_Ok {A} msg (m : IO A) c a c' :
  m c = (Ok a, c') -> wrap_err msg m c = (Ok a, c').
Proof. intros H. unfold wrap_err. rewrite H. reflexivity. Qed.

Lemma wrap_err_Err {A} msg (m : IO A) c e c' :
  m c = (Err e, c') -> wrap_err msg m c = (Err (Base (errors_New msg) e), c').
Proof. intros H. unfold wrap_err. rewrite H. reflexivity. Qed.

Lemma Byte_eqb_neq (a b : byte) : a <> b -> Byte.eqb a b = false.
Proof.
  intros H. destruct (Byte.eqb a b) eqn:E; [| reflexivity].
  apply Byte.byte_dec_bl in E. contradiction.
Qed.

Lemma Byte_eqb_refl (a : byte) : Byte.eqb a a = true.
Proof. by apply Byte.byte_dec_lb. Qed.

Lemma ReadUntilNull_loop_found (b u rest : list byte) :
  Forall (fun x => x <> x00) u ->
  (len b + len u < Size)%Z ->
  Socks.ReadUntilNull_loop b (u ++ x00 :: rest)
  = (Ok (string_of_bytes (b ++ u)), rest).
Proof.
  revert b. induction u as [|x u IH]; intros b Hu Hlen.
  - cbn. rewrite removelast_last, app_nil_r. reflexivity.
  - inversion Hu as [|? ? Hx Hu']; subst.
    cbn [app Socks.ReadUntilNull_loop]. rewrite (Byte_eqb_neq _ _ Hx).
    assert (Hfull : IsFull (b ++ [x]) = false).
    { unfold IsFull. apply Z.leb_gt. rewrite len_app.
      unfold len in *. cbn [length] in *. lia. }
    rewrite Hfull, IH; [by rewrite <- app_assoc | exact Hu' |].
    rewrite len_app. unfold len in *. cbn [length] in *. lia.
Qed.

Lemma ReadUntilNull_found (u rest : list byte) w q :
  Forall (fun x => x <> x00) u ->
  (len u < Size)%Z ->
  Socks.ReadUntilNull (mkConn (u ++ x00 :: rest) w q)
  = (Ok (string_of_bytes u), mkConn rest w q).
Proof.
  intros Hu Hlen. unfold Socks.ReadUntilNull. cbn [input wlog wquota].
  rewrite ReadUntilNull_loop_found; [reflexivity | exact Hu |].
  unfold buf_New, len in *. cbn [length]. lia.
Qed.

(** C9. Under key authentication a SOCKS4/4a handshake behaves exactly as
    with no authentication configured: it is not rejected up front, and a
    well-formed CONNECT request (port, IPv4 address, user id, null byte)
    is granted, reply status 90, with a request header that carries no
    user. *)
Theorem handshake4_keyauth_as_noauth :
  forall (ParseAddress : string -> Address) s cmd c,
    Socks.AuthType_ (Socks.config s) = AuthType_KEYAUTH ->
    Socks.handshake4 ParseAddress s cmd c
    = Socks.handshake4 ParseAddress (with_AuthType s AuthType_NO_AUTH) cmd c
    /\ (forall p1 p2 ip userid rest,
          input c = p1 :: p2 :: ip ++ userid ++ x00 :: rest ->
          length ip = 4%nat ->
          nth 0 ip x00 <> x00 ->
          Forall (fun b => b <> x00) userid ->
          (len userid < Size)%Z ->
          cmd = Socks.cmdTCPConnect ->
          Socks.handshake4 ParseAddress s cmd c
          = (if writer_accepts c
             then Ok {| Socks.Version := Socks.socks4Version;
                        Socks.Command := Socks.RequestCommandTCP;
                        Socks.Address_ := ipv4Address ip;
                        Socks.Port_ := PortFromBytes [p1; p2];
                        Socks.User := None |}
             else Err (ErrPlain "write failed"),
             written (with_input c rest)
                     (socks4Reply Socks.socks4RequestGranted))).
Proof.
  intros P s cmd c HA. split.
  - unfold Socks.handshake4. rewrite HA. reflexivity.
  - intros p1 p2 ip userid rest Hin Hip Hnz Hu Hlen ->.
    destruct ip as [|a [|b [|d [|e [|]]]]]; try discriminate.
    cbn [nth] in Hnz. destruct c as [inp w q]. cbn [input] in Hin. subst inp.
    unfold Socks.handshake4. rewrite HA.
    erewrite bind_Ok; cycle 1.
    { apply wrap_err_Ok. rewrite Buffer_ReadFullFrom_empty by lia.
      exact (ReadFull_app [p1; p2; a; b; d; e] _ w q). }
    erewrite bind_Ok; [| apply (ReadUntilNull_found userid rest w q Hu Hlen)].
    cbn [BytesRange skipn firstn Nat.sub nth].
    rewrite (Byte_eqb_neq _ _ Hnz).
    erewrite bind_Ok; [| reflexivity].
    cbn [Byte.eqb Socks.cmdTCPConnect]. rewrite Byte_eqb_refl.
    unfold bind. rewrite writeSocks4Response_AnyIP.
    unfold with_input. cbn [input wlog wquota writer_accepts].
    destruct q as [[|n]|]; reflexivity.
Qed.

Lemma hasAuthMethod_In (e : byte) (l : list byte) :
  Socks.hasAuthMethod e l = true <-> In e l.
Proof.
  induction l as [|a l IH]; cbn.
  - split; [discriminate | tauto].
  - destruct (Byte.eqb a e) eqn:E.
    + apply Byte.byte_dec_bl in E. tauto.
    + apply Byte.eqb_false in E. rewrite IH. tauto.
Qed.

Lemma extends_auth_check (s : Socks.ServerSession) (username password : string) :
  extends
    (match Socks.AuthType_ (Socks.config s) with
     | AuthType_PASSWORD =>
         if negb (Socks.HasAccount (Socks.config s) username password) then
           let* _ := ignore_err (Socks.writeSocks5AuthenticationResponse x01 xff) in
           fail (errors_New "invalid username or password")
         else ret tt
     | AuthType_KEYAUTH =>
         if negb (Socks.ValidateKey (Socks.config s) password) then
           let* _ := ignore_err (Socks.writeSocks5AuthenticationResponse x01 xff) in
           fail (errors_New "invalid key")
         else ret tt
     | AuthType_NO_AUTH => ret tt
     end).
Proof.
  destruct (Socks.AuthType_ (Socks.config s)); [apply extends_ret | |];
    (destruct (negb _); [| apply extends_ret]);
    (apply extends_bind; [| intros; apply extends_fail]);
    apply extends_ignore_err, extends_WriteAllBytes.
Qed.

(** C5. In SOCKS5 method negotiation the server expects one method, fixed
    by its configuration: no-auth (0x00) for NO_AUTH, and the password
    method (0x02) for both PASSWORD and KEYAUTH. If that method is not
    among the [nMethod] candidate bytes the client sent, the server writes
    the "no acceptable methods" reply (0x05 0xFF) and fails; otherwise the
    next thing it writes is the reply echoing the chosen method. *)
Theorem auth5_method_negotiation :
  forall s nMethod c,
    let n := Z.to_nat (Z_of_byte nMethod) in
    (n <= length (input c))%nat ->
    let candidates := firstn n (input c) in
    let expected := Socks.expectedAuth (Socks.config s) in
    let c1 := with_input c (skipn n (input c)) in
    expected = match Socks.AuthType_ (Socks.config s) with
               | AuthType_NO_AUTH => x00
               | AuthType_PASSWORD => x02
               | AuthType_KEYAUTH => x02
               end
    /\ (~ In expected candidates ->
        Socks.auth5 s nMethod c
        = (Err (errors_New "no matching auth method"),
           written c1 [x05; xff]))
    /\ (In expected candidates ->
        exists tail,
          wlog (snd (Socks.auth5 s nMethod c))
          = wlog c ++ ([x05; expected], writer_accepts c) :: tail).
Proof.
  intros s nMethod c n Hn candidates expected c1.
  split; [unfold expected, Socks.expectedAuth;
          destruct (Socks.AuthType_ (Socks.config s)); reflexivity |].
  assert (Hread : wrap_err "failed to read auth methods"
                    (Buffer_ReadFullFrom buf_New (Z_of_byte nMethod)) c
                  = (Ok candidates, c1)).
  { apply wrap_err_Ok. rewrite Buffer_ReadFullFrom_empty by apply Z_of_byte_range.
    apply ReadFull_enough. exact Hn. }
  assert (Hcand : BytesRange candidates 0 n = candidates).
  { unfold BytesRange. rewrite Nat.sub_0_r. cbn [skipn].
    apply firstn_all2. unfold candidates. rewrite length_firstn. lia. }
  unfold Socks.auth5. rewrite (bind_Ok _ _ _ _ _ Hread).
  fold n expected. rewrite Hcand. split; intros Hin.
  - destruct (Socks.hasAuthMethod expected candidates) eqn:E;
      [apply hasAuthMethod_In in E; contradiction |].
    cbn [negb]. unfold bind, ignore_err, fail.
    rewrite writeSocks5AuthenticationResponse_written.
    destruct (writer_accepts c1); reflexivity.
  - apply hasAuthMethod_In in Hin. rewrite Hin. cbn [negb].
    unfold bind at 1. unfold wrap_err at 1.
    rewrite writeSocks5AuthenticationResponse_written.
    change (writer_accepts c) with (writer_accepts c1).
    destruct (writer_accepts c1) eqn:Hacc.
    + match goal with
      | |- context [wlog (snd (?m ?c0))] =>
          assert (Hext : extends m)
      end.
      { destruct (Byte.eqb expected Socks.authPassword); [| apply extends_ret].
        apply extends_bind;
          [apply extends_wrap_err, extends_ReadUsernamePassword |].
        intros [username password].
        apply extends_bind; [apply extends_auth_check |]. intros _.
        apply extends_bind; [| intros; apply extends_ret].
        apply extends_wrap_err, extends_WriteAllBytes. }
      destruct (Hext (written c1 [Socks.socks5Version; expected])) as [tail Ht].
      exists tail. rewrite Ht. unfold written. cbn [wlog c1 with_input].
      rewrite Hacc. by rewrite <- app_assoc.
    + exists []. cbn [snd written wlog c1 with_input]. by rewrite Hacc.
Qed.

(* ===================================================================== *)
(** * Properties: the authenticated identity *)
(* ===================================================================== *)

Lemma bind_inv_Ok {A B} (m : IO A) (k : A -> IO B) c b c' :
  bind m k c = (Ok b, c') ->
  exists a c1, m c = (Ok a, c1) /\ k a c1 = (Ok b, c').
Proof.
  unfold bind. destruct (m c) as [[a | e | p] c1]; try discriminate. eauto.
Qed.

Lemma wrap_err_inv_Ok {A} msg (m : IO A) c a c' :
  wrap_err msg m c = (Ok a, c') -> m c = (Ok a, c').
Proof.
  unfold wrap_err. destruct (m c) as [[a0 | e | p] c1]; try discriminate. auto.
Qed.

Lemma ignore_then_fail_not_Ok {A B} (m : IO A) (e : error) c (b : B) c' :
  bind (ignore_err m) (fun _ => fail e) c <> (Ok b, c').
Proof.
  unfold bind, ignore_err, fail. destruct (m c) as [[a | e0 | p] c1]; discriminate.
Qed.

Lemma ReadFull_inv_Ok (n : nat) (c : Conn) bs c' :
  ReadFull n c = (Ok bs, c') ->
  bs = firstn n (input c) /\ c' = with_input c (skipn n (input c)).
Proof.
  unfold ReadFull. destruct (n <=? length (input c))%nat; [| discriminate].
  intros [= <- <-]. split; reflexivity.
Qed.

Lemma Write_inv_Ok (data : list byte) (c : Conn) c' :
  Write data c = (Ok tt, c') -> c' = written c data.
Proof. rewrite Write_written. by intros [= _ <-]. Qed.

(** The state of the stream when the server starts reading the
    credentials: the [nMethod] method bytes read, the choice of the
    password method written. *)
Lemma auth5_Ok s nMethod c username c' :
  Socks.auth5 s nMethod c = (Ok username, c') ->
  Socks.AuthType_ (Socks.config s) <> AuthType_NO_AUTH ->
  exists password c0',
    Socks.ReadUsernamePassword
      (written (with_input c (skipn (Z.to_nat (Z_of_byte nMethod)) (input c)))
               [x05; x02])
    = (Ok (username, password), c0')
    /\ credentials_accepted (Socks.config s) username password.
Proof.
  unfold Socks.auth5. intros H HA.
  apply bind_inv_Ok in H as (buffer & c1 & Hc1%wrap_err_inv_Ok & H).
  rewrite Buffer_ReadFullFrom_empty in Hc1 by apply Z_of_byte_range.
  apply ReadFull_inv_Ok in Hc1 as [_ ->].
  destruct (negb _); [by apply ignore_then_fail_not_Ok in H |].
  apply bind_inv_Ok in H as ([] & c2 & Hc2%wrap_err_inv_Ok & H).
  assert (HE : Socks.expectedAuth (Socks.config s) = Socks.authPassword).
  { unfold Socks.expectedAuth.
    destruct (Socks.AuthType_ (Socks.config s)); [contradiction | |]; reflexivity. }
  rewrite HE in Hc2, H. rewrite Byte_eqb_refl in H.
  apply Write_inv_Ok in Hc2. subst c2.
  apply bind_inv_Ok in H as ([u p] & c3 & Hread%wrap_err_inv_Ok & H).
  apply bind_inv_Ok in H as (t & c4 & Hcheck & H).
  apply bind_inv_Ok in H as (_ & c5 & _ & H).
  injection H as Hu _. subst u.
  exists p, c3. split; [exact Hread |].
  unfold credentials_accepted.
  destruct (Socks.AuthType_ (Socks.config s)); [exact I | |].
  - destruct (Socks.HasAccount _ _ _); [reflexivity |].
    by apply ignore_then_fail_not_Ok in Hcheck.
  - destruct (Socks.ValidateKey _ _); [reflexivity |].
    by apply ignore_then_fail_not_Ok in Hcheck.
Qed.

Lemma handshake5_Ok s nMethod c req c' :
  Socks.handshake5 s nMethod c = (Ok req, c') ->
  exists username c1,
    Socks.auth5 s nMethod c = (Ok username, c1)
    /\ Socks.User req
       = if String.eqb username "" then None
         else Some {| Socks.Email := username; Socks.Account_ := None |}.
Proof.
  unfold Socks.handshake5. intros H.
  apply bind_inv_Ok in H as (username & c1 & Hauth & H).
  exists username, c1. split; [exact Hauth |].
  apply bind_inv_Ok in H as (buffer & c2 & _ & H).
  apply bind_inv_Ok in H as (command & c3 & _ & H).
  apply bind_inv_Ok in H as ([addr prt] & c4 & _ & H).
  apply bind_inv_Ok in H as (_ & c5 & _ & H).
  injection H as <- _. reflexivity.
Qed.

(** C7, as the code has it. After a successful SOCKS5 handshake with
    password or key authentication, the username read in the
    sub-negotiation (which follows the method bytes and the server's
    choice of the password method), whose credentials the server accepted,
    is the identity of the request header's user record when it is not
    empty; with an empty username the request header carries no user
    record. *)
Theorem handshake5_carries_nonempty_username :
  forall s nMethod c req c',
    Socks.handshake5 s nMethod c = (Ok req, c') ->
    Socks.AuthType_ (Socks.config s) <> AuthType_NO_AUTH ->
    exists username password c0',
      Socks.ReadUsernamePassword
        (written (with_input c (skipn (Z.to_nat (Z_of_byte nMethod)) (input c)))
                 [x05; x02])
      = (Ok (username, password), c0')
      /\ credentials_accepted (Socks.config s) username password
      /\ (username <> "" ->
          Socks.User req
          = Some {| Socks.Email := username; Socks.Account_ := None |})
      /\ (username = "" -> Socks.User req = None).
Proof.
  intros s nMethod c req c' H HA.
  destruct (handshake5_Ok _ _ _ _ _ H) as (username & c1 & Hauth & Huser).
  destruct (auth5_Ok _ _ _ _ _ Hauth HA) as (password & c0' & Hread & Hacc).
  exists username, password, c0'.
  split; [exact Hread |]. split; [exact Hacc |].
  rewrite Huser. split; intros Hu.
  - destruct (String.eqb_spec username ""); [contradiction | reflexivity].
  - rewrite Hu. reflexivity.
Qed.

(** A key-authenticated client named "bob" is carried forward. *)
Lemma handshake5_carries_nonempty_username_witness :
  exists username password c0',
    Socks.ReadUsernamePassword
      (mkConn [x01; x03; x62; x6f; x62; x01; x6b;
               x05; x01; x00; x01; x01; x02; x03; x04; x00; x50]
              [([x05; x02], true)] None)
    = (Ok (username, password), c0')
    /\ credentials_accepted (Socks.config (Samples.session AuthType_KEYAUTH))
         username password
    /\ (username <> "" ->
        Socks.User
          {| Socks.Version := x05; Socks.Command := Socks.RequestCommandTCP;
             Socks.Address_ := Samples.ip1234; Socks.Port_ := 80%Z;
             Socks.User := Some {| Socks.Email := "bob"; Socks.Account_ := None |} |}
        = Some {| Socks.Email := username; Socks.Account_ := None |})
    /\ (username = "" ->
        Socks.User
          {| Socks.Version := x05; Socks.Command := Socks.RequestCommandTCP;
             Socks.Address_ := Samples.ip1234; Socks.Port_ := 80%Z;
             Socks.User := Some {| Socks.Email := "bob"; Socks.Account_ := None |} |}
        = None).
Proof.
  eapply (handshake5_carries_nonempty_username
            (Samples.session AuthType_KEYAUTH) x01
            (Samples.stream Samples.keyauth_bob)).
  - vm_compute. reflexivity.
  - discriminate.
Defined.

(** C7, as stated, fails: a client authenticated by key with an empty
    username completes the handshake, and the request header has no user
    record holding that (empty) identity. *)
Lemma handshake5_keyauth_empty_username_no_user :
  exists req c1 c',
    Socks.auth5 (Samples.session AuthType_KEYAUTH) x01
      (Samples.stream Samples.keyauth_empty_username) = (Ok "", c1)
    /\ Socks.handshake5 (Samples.session AuthType_KEYAUTH) x01
         (Samples.stream Samples.keyauth_empty_username) = (Ok req, c')
    /\ ~ (exists user, Socks.User req = Some user /\ Socks.Email user = "").
Proof.
  do 3 eexists. split; [vm_compute; reflexivity |].
  split; [vm_compute; reflexivity |].
  cbn. intros (user & Hu & _). discriminate.
Qed.

(* ===================================================================== *)
(** * Properties: client-role handshake *)
(* ===================================================================== *)

Ltac fits :=
  unfold Size, len, buf_New in *; cbn [length] in *;
  rewrite ?length_app in *; cbn [length] in *; lia.

(** One step of a computation whose first action succeeds. *)
Tactic Notation "step" tactic3(tac) := erewrite bind_Ok; [| tac]; cbv beta.

Lemma accepts_S (k : nat) (c : Conn) : accepts (S k) c -> accepts k c.
Proof. unfold accepts. destruct (wquota c); [lia | trivial]. Qed.

Lemma accepts_with_input (k : nat) (c : Conn) inp :
  accepts k c -> accepts k (with_input c inp).
Proof. trivial. Qed.

Lemma Write_accepts (k : nat) (data : list byte) (c : Conn) :
  accepts (S k) c ->
  Write data c = (Ok tt, written c data)
  /\ writer_accepts c = true
  /\ accepts k (written c data).
Proof.
  unfold accepts. rewrite Write_written. unfold writer_accepts, written.
  destruct (wquota c) as [[|n]|]; cbn; intros H; repeat split; trivial; lia.
Qed.

Lemma WriteAllBytes_accepts (k : nat) (data : list byte) (c : Conn) :
  accepts (S k) c ->
  exists c', WriteAllBytes data c = (Ok tt, c')
             /\ input c' = input c /\ accepts k c'.
Proof.
  intros H. destruct data as [|x data].
  - exists c. repeat split. by apply accepts_S.
  - exists (written c (x :: data)).
    destruct (Write_accepts k (x :: data) c H) as (HW & _ & HA).
    repeat split; assumption.
Qed.

Lemma ReadFull_prefix (bs rest : list byte) (c : Conn) :
  input c = bs ++ rest ->
  ReadFull (length bs) c = (Ok bs, with_input c rest).
Proof.
  destruct c as [inp w q]. cbn [input]. intros ->. apply ReadFull_app.
Qed.

Lemma read2 (a b : byte) rest (c : Conn) :
  input c = a :: b :: rest ->
  Buffer_ReadFullFrom buf_New 2 c = (Ok [a; b], with_input c rest).
Proof.
  intros H. rewrite Buffer_ReadFullFrom_empty by lia.
  exact (ReadFull_prefix [a; b] rest c H).
Qed.

Lemma read3 (a b d : byte) rest (c : Conn) :
  input c = a :: b :: d :: rest ->
  Buffer_ReadFullFrom buf_New 3 c = (Ok [a; b; d], with_input c rest).
Proof.
  intros H. rewrite Buffer_ReadFullFrom_empty by lia.
  exact (ReadFull_prefix [a; b; d] rest c H).
Qed.

Lemma offer_written (request : Socks.RequestHeader) :
  Buffer_Write buf_New [Socks.socks5Version; x01; Socks.clientAuthByte request]
  = [x05; x01; Socks.clientAuthByte request].
Proof. rewrite Buffer_Write_fits by fits. reflexivity. Qed.

Lemma Buffer_WriteByte_Ok (b : Buffer) (v : byte) :
  (len b < Size)%Z -> Buffer_WriteByte b v = Ok (b ++ [v]).
Proof.
  intros H. unfold Buffer_WriteByte, IsFull.
  destruct (Z.leb_spec Size (len b)); [lia | reflexivity].
Qed.

(** The start of [ClientHandshake]: the method offer is written and the
    two-byte reply read. *)
Lemma client_offer (request : Socks.RequestHeader) (a b : byte) rest (c : Conn)
  (k : Buffer -> IO (option Socks.RequestHeader)) :
  accepts 1 c ->
  input c = a :: b :: rest ->
  (let* _ := WriteAllBytes
               (Buffer_Write buf_New
                  [Socks.socks5Version; x01; Socks.clientAuthByte request]) in
   let* b := Buffer_ReadFullFrom buf_New 2 in k b) c
  = k [a; b] (written (with_input c rest)
                      [x05; x01; Socks.clientAuthByte request]).
Proof.
  intros HA Hin. rewrite offer_written.
  destruct (Write_accepts 0 [x05; x01; Socks.clientAuthByte request] c HA)
    as (HW & Hacc & _).
  step (exact HW). step (apply (read2 a b rest); exact Hin).
  unfold written, with_input. cbn [input wlog wquota writer_accepts].
  reflexivity.
Qed.

(** The password sub-negotiation of [ClientHandshake] up to the status
    byte. *)
Lemma client_password_exchange (user : Socks.MemoryUser) (account : Socks.Account)
  (a st : byte) rest (k : nat) (c : Conn) :
  Socks.Account_ user = Some account ->
  (len (bytes_of_string (Socks.Username account)) < Size - 2)%Z ->
  accepts (S k) c ->
  input c = a :: st :: rest ->
  exists c',
    (let* account :=
       lift (match Some user with
             | Some {| Socks.Account_ := Some a |} => Ok a
             | _ => Panic "interface conversion: not *socks.Account"
             end) in
     let* b := lift (Must (Buffer_WriteByte buf_New x01)) in
     let* b := lift (Must (Buffer_WriteByte b
                  (byte_of_Z (len (bytes_of_string (Socks.Username account)))))) in
     let b := Buffer_Write b (bytes_of_string (Socks.Username account)) in
     let* b := lift (Must (Buffer_WriteByte b
                  (byte_of_Z (len (bytes_of_string (Socks.Password account)))))) in
     let b := Buffer_Write b (bytes_of_string (Socks.Password account)) in
     let* _ := WriteAllBytes b in
     let* b := Buffer_ReadFullFrom buf_New 2 in
     if negb (Byte.eqb (Buffer_Byte b 1) x00) then
       fail (errors_New1 "server rejects account: " (Buffer_Byte b 1))
     else ret tt) c
    = (if Byte.eqb st x00 then Ok tt
       else Err (errors_New1 "server rejects account: " st), c')
    /\ input c' = rest
    /\ accepts k c'.
Proof.
  intros Hacc Hu HA Hin. destruct user as [email acc].
  cbn [Socks.Account_] in Hacc. subst acc.
  set (ub := bytes_of_string (Socks.Username account)) in *.
  set (pb := bytes_of_string (Socks.Password account)).
  destruct (WriteAllBytes_accepts k
              (Buffer_Write (([x01; byte_of_Z (len ub)] ++ ub) ++ [byte_of_Z (len pb)]) pb)
              c HA) as (c1 & Hw & Hin1 & HA1).
  exists (with_input c1 rest). split; [| split; [reflexivity | exact HA1]].
  step reflexivity. step reflexivity. step reflexivity.
  fold ub pb. cbv zeta.
  rewrite (Buffer_Write_fits _ ub) by fits.
  rewrite Buffer_WriteByte_Ok by fits. cbn [Must].
  step reflexivity. step (exact Hw).
  step (apply (read2 a st rest); congruence).
  cbn [Buffer_Byte nth]. destruct (Byte.eqb st x00); reflexivity.
Qed.

Lemma encode_address_wf (a : Address) :
  Address_wf a -> exists bs, encode_address a = Ok bs.
Proof.
  destruct a as [ip | ip | d]; cbn; eauto.
  intros H. destruct (Z.ltb_spec 255 (len (bytes_of_string d))); [lia | eauto].
Qed.

(** The request of [ClientHandshake], from the command byte to the reply
    status. *)
Lemma client_request_rejected (request : Socks.RequestHeader) (v r rsv : byte)
  rest (c : Conn) :
  Socks.Command request = Socks.RequestCommandUDP \/ Address_wf (Socks.Address_ request) ->
  r <> x00 ->
  accepts 1 c ->
  input c = v :: r :: rsv :: rest ->
  fst ((let command :=
          match Socks.Command request with
          | Socks.RequestCommandUDP => Socks.cmdUDPAssociate
          | Socks.RequestCommandTCP => Socks.cmdTCPConnect
          end in
        let b := Buffer_Write buf_New [Socks.socks5Version; command; x00] in
        let* b :=
          match Socks.Command request with
          | Socks.RequestCommandUDP =>
              ret (Buffer_Write b [x01; x00; x00; x00; x00; x00; x00])
          | Socks.RequestCommandTCP =>
              lift (WriteAddressPort b (Socks.Address_ request) (Socks.Port_ request))
          end in
        let* _ := WriteAllBytes b in
        let* b := Buffer_ReadFullFrom buf_New 3 in
        let resp := Buffer_Byte b 1 in
        if negb (Byte.eqb resp x00) then
          fail (errors_New1 "server rejects request: " resp)
        else
          let* '(addr, prt) := ReadAddressPort in
          match Socks.Command request with
          | Socks.RequestCommandUDP =>
              ret (Some {| Socks.Version := Socks.socks5Version;
                           Socks.Command := Socks.RequestCommandUDP;
                           Socks.Address_ := addr; Socks.Port_ := prt;
                           Socks.User := None |})
          | Socks.RequestCommandTCP => ret None
          end) c)
  = Err (errors_New1 "server rejects request: " r).
Proof.
  intros Hwf Hr HA Hin. cbv zeta.
  assert (Hb : exists b, (match Socks.Command request with
          | Socks.RequestCommandUDP =>
              ret (Buffer_Write
                     (Buffer_Write buf_New
                        [Socks.socks5Version; Socks.cmdUDPAssociate; x00])
                     [x01; x00; x00; x00; x00; x00; x00])
          | Socks.RequestCommandTCP =>
              lift (WriteAddressPort
                      (Buffer_Write buf_New
                         [Socks.socks5Version; Socks.cmdTCPConnect; x00])
                      (Socks.Address_ request) (Socks.Port_ request))
          end) c = (Ok b, c)).
  { destruct (Socks.Command request) eqn:HC.
    - destruct Hwf as [Hwf | Hwf]; [discriminate |].
      destruct (encode_address_wf _ Hwf) as [bs Hbs].
      unfold WriteAddressPort, lift. rewrite Hbs. eauto.
    - unfold ret. eauto. }
  destruct Hb as [b Hb].
  destruct (WriteAllBytes_accepts 0 b c HA) as (c1 & Hw & Hin1 & _).
  destruct (Socks.Command request);
    (step (exact Hb); step (exact Hw);
     step (apply (read3 v r rsv rest); congruence);
     cbn [Buffer_Byte nth]; rewrite (Byte_eqb_neq _ _ Hr); reflexivity).
Qed.

(** C8, as the code has it. In a client-role handshake whose writes the
    writer accepts: a method-negotiation reply whose version byte is not 5
    fails with an error reporting that byte; a reply whose method byte is
    not the one offered fails with the error "auth method not supported."
    (which reports no byte), and the method offer is then the only thing
    the client has written. When the server takes the password method, a
    request whose user carries no account makes the client panic. When
    the user carries an account whose username leaves room in the buffer
    for the rest of the credentials frame (fewer than [Size - 2] bytes),
    a non-zero status in the reply to the password sub-negotiation fails
    with an error reporting that status. When, moreover, the target of a
    TCP request can be encoded (an IP address, or a domain of at most 255
    bytes), a non-zero status in the reply to the request fails with an
    error reporting that status. *)
Theorem ClientHandshake_hard_failures :
  forall request c,
    let offer := [x05; x01; Socks.clientAuthByte request] in
    (forall v m rest,
        accepts 1 c ->
        input c = v :: m :: rest -> v <> x05 ->
        Socks.ClientHandshake request c
        = (Err (AtWarning (errors_New1 "unexpected server version: " v)),
           written (with_input c rest) offer)
        /\ reports_byte (fst (Socks.ClientHandshake request c)) v)
    /\ (forall m rest,
        accepts 1 c ->
        input c = x05 :: m :: rest -> m <> Socks.clientAuthByte request ->
        Socks.ClientHandshake request c
        = (Err (AtWarning (errors_New "auth method not supported.")),
           written (with_input c rest) offer)
        /\ wlog (snd (Socks.ClientHandshake request c))
           = wlog c ++ [(offer, true)])
    /\ (forall user rest,
        accepts 1 c ->
        Socks.User request = Some user ->
        Socks.Account_ user = None ->
        input c = x05 :: x02 :: rest ->
        Socks.ClientHandshake request c
        = (Panic "interface conversion: not *socks.Account",
           written (with_input c rest) offer))
    /\ (forall user account a st rest,
        accepts 2 c ->
        Socks.User request = Some user ->
        Socks.Account_ user = Some account ->
        (len (bytes_of_string (Socks.Username account)) < Size - 2)%Z ->
        input c = x05 :: x02 :: a :: st :: rest -> st <> x00 ->
        fst (Socks.ClientHandshake request c)
        = Err (errors_New1 "server rejects account: " st)
        /\ reports_byte (fst (Socks.ClientHandshake request c)) st)
    /\ (forall exchange v r rsv rest,
        accepts (client_writes request) c ->
        match Socks.User request with
        | None => exchange = []
        | Some user =>
            exists account a,
              Socks.Account_ user = Some account
              /\ (len (bytes_of_string (Socks.Username account)) < Size - 2)%Z
              /\ exchange = [a; x00]
        end ->
        Socks.Command request = Socks.RequestCommandUDP
        \/ Address_wf (Socks.Address_ request) ->
        input c = x05 :: Socks.clientAuthByte request
                      :: exchange ++ v :: r :: rsv :: rest ->
        r <> x00 ->
        fst (Socks.ClientHandshake request c)
        = Err (errors_New1 "server rejects request: " r)
        /\ reports_byte (fst (Socks.ClientHandshake request c)) r).
Proof.
  intros request c offer.
  split; [| split; [| split; [| split]]].
  - intros v m rest HA Hin Hv.
    assert (H : Socks.ClientHandshake request c
                = (Err (AtWarning (errors_New1 "unexpected server version: " v)),
                   written (with_input c rest) offer)).
    { unfold Socks.ClientHandshake. cbv zeta.
      rewrite (client_offer request v m rest c _ HA Hin).
      cbn [Buffer_Byte nth]. unfold Socks.socks5Version at 1.
      rewrite (Byte_eqb_neq _ _ Hv). reflexivity. }
    split; [exact H |]. rewrite H. eexists. split; reflexivity.
  - intros m rest HA Hin Hm.
    assert (H : Socks.ClientHandshake request c
                = (Err (AtWarning (errors_New "auth method not supported.")),
                   written (with_input c rest) offer)).
    { unfold Socks.ClientHandshake. cbv zeta.
      rewrite (client_offer request x05 m rest c _ HA Hin).
      cbn [Buffer_Byte nth]. change (Byte.eqb x05 Socks.socks5Version) with true.
      rewrite (Byte_eqb_neq _ _ Hm). reflexivity. }
    split; [exact H |]. rewrite H.
    unfold written, with_input, writer_accepts, accepts in *.
    cbn [snd wlog wquota] in *.
    destruct (wquota c) as [[|n]|]; [lia | reflexivity | reflexivity].
  - intros user rest HA HU Hacc Hin.
    unfold Socks.ClientHandshake. cbv zeta.
    pose proof (client_offer request x05 x02 rest c) as Hoff.
    unfold offer, Socks.clientAuthByte in *. rewrite HU in *.
    rewrite (Hoff _ HA Hin). clear Hoff.
    cbn [Buffer_Byte nth].
    change Socks.socks5Version with x05. change Socks.authPassword with x02.
    rewrite !Byte_eqb_refl. cbn [negb].
    destruct user as [email acc]. cbn [Socks.Account_] in Hacc. subst acc.
    reflexivity.
  - intros user account a st rest HA HU Hacc Hlen Hin Hst.
    assert (H : fst (Socks.ClientHandshake request c)
                = Err (errors_New1 "server rejects account: " st)).
    { unfold Socks.ClientHandshake. cbv zeta.
      rewrite (client_offer request x05 x02 (a :: st :: rest) c _
                 (accepts_S _ _ HA) Hin).
      unfold Socks.clientAuthByte. rewrite HU. cbn [Buffer_Byte nth].
      change Socks.socks5Version with x05. change Socks.authPassword with x02.
      rewrite !Byte_eqb_refl. cbn [negb].
      destruct (client_password_exchange user account a st rest 0
                  (written (with_input c (a :: st :: rest)) [x05; x01; x02])
                  Hacc Hlen) as (c' & Hx & _ & _).
      { apply (proj2 (proj2 (Write_accepts 1 [x05; x01; x02]
                               (with_input c (a :: st :: rest)) HA))). }
      { reflexivity. }
      rewrite (Byte_eqb_neq _ _ Hst) in Hx.
      erewrite bind_Err; [| exact Hx]. reflexivity. }
    split; [exact H |]. rewrite H. eexists. split; reflexivity.
  - intros exchange v r rsv rest HA Hex Hwf Hin Hr.
    assert (H : fst (Socks.ClientHandshake request c)
                = Err (errors_New1 "server rejects request: " r)).
    { unfold Socks.ClientHandshake. cbv zeta.
      unfold client_writes, Socks.clientAuthByte in *.
      destruct (Socks.User request) as [user|] eqn:HU.
      - destruct Hex as (account & a & Hacc & Hlen & ->). cbn [app] in Hin.
        pose proof (client_offer request x05 x02
                      (a :: x00 :: v :: r :: rsv :: rest) c) as Hoff.
        unfold Socks.clientAuthByte in Hoff. rewrite HU in Hoff.
        rewrite (Hoff _ (accepts_S _ _ (accepts_S _ _ HA)) Hin). clear Hoff.
        cbn [Buffer_Byte nth].
        change Socks.socks5Version with x05. change Socks.authPassword with x02.
        rewrite !Byte_eqb_refl. cbn [negb].
        destruct (client_password_exchange user account a x00
                    (v :: r :: rsv :: rest) 1
                    (written (with_input c (a :: x00 :: v :: r :: rsv :: rest))
                             [x05; x01; x02])
                    Hacc Hlen) as (c' & Hx & Hin' & HA').
        { apply (proj2 (proj2 (Write_accepts 2 [x05; x01; x02]
                                 (with_input c _) HA))). }
        { reflexivity. }
        cbn [Byte.eqb] in Hx.
        step (exact Hx).
        apply (client_request_rejected request v r rsv rest c' Hwf Hr HA' Hin').
      - subst exchange. cbn [app] in Hin.
        pose proof (client_offer request x05 x00 (v :: r :: rsv :: rest) c)
          as Hoff.
        unfold Socks.clientAuthByte in Hoff. rewrite HU in Hoff.
        rewrite (Hoff _ (accepts_S _ _ HA) Hin). clear Hoff.
        cbn [Buffer_Byte nth].
        change Socks.socks5Version with x05.
        change Socks.authNotRequired with x00.
        rewrite !Byte_eqb_refl. cbn [negb].
        change (Byte.eqb x00 Socks.authPassword) with false.
        step reflexivity.
        apply (client_request_rejected request v r rsv rest _ Hwf Hr);
          [| reflexivity].
        apply (proj2 (proj2 (Write_accepts 1 [x05; x01; x00]
                               (with_input c (v :: r :: rsv :: rest)) HA))). }
    split; [exact H |]. rewrite H. eexists. split; reflexivity.
Qed.

(** C8 fails as stated: when the server answers the method offer 0x00
    with method 0x02, the client fails with "auth method not supported.",
    an error that does not report the offending byte. *)
Lemma ClientHandshake_method_mismatch_reports_no_byte :
  fst (Socks.ClientHandshake ClientSamples.anonymous (Samples.stream [x05; x02]))
  = Err (AtWarning (errors_New "auth method not supported."))
  /\ ~ reports_byte
         (fst (Socks.ClientHandshake ClientSamples.anonymous
                 (Samples.stream [x05; x02]))) x02.
Proof.
  split; [vm_compute; reflexivity |].
  intros (e & He & Harg). vm_compute in He. injection He as <-. discriminate.
Qed.

(** The failures on concrete replies. *)
Lemma ClientHandshake_hard_failures_witness :
  reports_byte
    (fst (Socks.ClientHandshake ClientSamples.anonymous
            (Samples.stream [x04; x00]))) x04
  /\ wlog (snd (Socks.ClientHandshake ClientSamples.anonymous
                  (Samples.stream [x05; x02])))
     = [([x05; x01; x00], true)]
  /\ reports_byte
       (fst (Socks.ClientHandshake ClientSamples.alice
               (Samples.stream [x05; x02; x01; x01]))) x01
  /\ reports_byte
       (fst (Socks.ClientHandshake ClientSamples.alice
               (Samples.stream [x05; x02; x01; x00; x05; x04; x00]))) x04.
Proof.
  split; [| split; [| split]].
  - apply (proj1 (ClientHandshake_hard_failures ClientSamples.anonymous
                    (Samples.stream [x04; x00])) x04 x00 [] I eq_refl).
    discriminate.
  - apply (proj1 (proj2 (ClientHandshake_hard_failures ClientSamples.anonymous
                    (Samples.stream [x05; x02]))) x02 [] I eq_refl).
    discriminate.
  - eapply (proj1 (proj2 (proj2 (proj2 (ClientHandshake_hard_failures
                    ClientSamples.alice
                    (Samples.stream [x05; x02; x01; x01])))))
              _ _ x01 x01 [] I eq_refl eq_refl).
    + vm_compute. reflexivity.
    + reflexivity.
    + discriminate.
  - eapply (proj2 (proj2 (proj2 (proj2 (ClientHandshake_hard_failures
                    ClientSamples.alice
                    (Samples.stream [x05; x02; x01; x00; x05; x04; x00])))))
              [x01; x00] x05 x04 x00 [] I).
    + cbn. do 2 eexists. split; [reflexivity |]. split; [| reflexivity].
      vm_compute. reflexivity.
    + right. reflexivity.
    + reflexivity.
    + discriminate.
Defined.

(* ===================================================================== *)
(** * Properties: UDP framing *)
(* ===================================================================== *)

Lemma ReadFull_exact (n : nat) (bs rest : list byte) w q :
  length bs = n ->
  ReadFull n (mkConn (bs ++ rest) w q) = (Ok bs, mkConn rest w q).
Proof. intros <-. apply ReadFull_app. Qed.

Lemma readAddress_encode (a : Address) (bs rest : list byte) w q :
  Address_wf a ->
  encode_address a = Ok bs ->
  readAddress (mkConn (bs ++ rest) w q) = (Ok a, mkConn rest w q).
Proof.
  intros Hwf Henc. unfold readAddress.
  destruct a as [ip | ip | d]; cbn [Address_wf encode_address] in *.
  - injection Henc as <-.
    step (exact (ReadFull_exact 1 [x01] (ip ++ rest) w q eq_refl)).
    cbn [nth]. change (Byte.eqb x01 x01) with true. cbv iota.
    step (apply ReadFull_exact; exact Hwf). reflexivity.
  - injection Henc as <-.
    step (exact (ReadFull_exact 1 [x04] (ip ++ rest) w q eq_refl)).
    cbn [nth]. change (Byte.eqb x04 x01) with false.
    change (Byte.eqb x04 x04) with true. cbv iota.
    step (apply ReadFull_exact; exact Hwf). reflexivity.
  - destruct (Z.ltb_spec 255 (len (bytes_of_string d))); [lia |].
    injection Henc as <-.
    step (exact (ReadFull_exact 1 [x03] (_ :: bytes_of_string d ++ rest) w q eq_refl)).
    cbn [nth]. change (Byte.eqb x03 x01) with false.
    change (Byte.eqb x03 x04) with false.
    change (Byte.eqb x03 x03) with true. cbv iota.
    step (exact (ReadFull_exact 1 [_] (bytes_of_string d ++ rest) w q eq_refl)).
    cbn [nth].
    rewrite Z_of_byte_of_Z_small by (pose proof (len_nonneg (bytes_of_string d)); lia).
    step (apply ReadFull_exact; unfold len; symmetry; apply Nat2Z.id).
    unfold ret, string_of_bytes, bytes_of_string.
    by rewrite string_of_list_byte_of_string.
Qed.

Lemma ReadAddressPort_encode (a : Address) (p : Port) (bs rest : list byte) w q :
  Address_wf a -> Port_wf p ->
  encode_address a = Ok bs ->
  ReadAddressPort (mkConn (bs ++ PutUint16 p ++ rest) w q)
  = (Ok (a, p), mkConn rest w q).
Proof.
  intros Hwf Hp Henc. unfold ReadAddressPort.
  step (apply readAddress_encode; eassumption).
  step (exact (ReadFull_exact 2 (PutUint16 p) rest w q eq_refl)).
  unfold ret. by rewrite PortFromBytes_PutUint16.
Qed.

Lemma encode_address_len (a : Address) (bs : list byte) :
  Address_wf a -> encode_address a = Ok bs -> (len bs + 2 = wire_len a)%Z.
Proof.
  destruct a as [ip | ip | d]; cbn [Address_wf encode_address wire_len].
  - intros H [= <-]. unfold len. cbn [length]. lia.
  - intros H [= <-]. unfold len. cbn [length]. lia.
  - intros H. destruct (Z.ltb_spec 255 (len (bytes_of_string d))); [lia |].
    intros [= <-]. unfold len. cbn [length]. lia.
Qed.

Ltac fits_app :=
  rewrite ?len_app; unfold len, Size, buf_New in *;
  cbn [length app] in *; lia.

(** C3, as the code has it. For a request header with an IPv4, IPv6 or
    domain (at most 255 bytes) address and every payload that fits,
    together with the three-byte prefix, the address and the port, in one
    buffer ([Size] bytes), encoding succeeds and decoding the packet gives
    back the address and the port and leaves exactly the payload in the
    packet. *)
Theorem UDP_roundtrip_within_buffer :
  forall (h : Socks.RequestHeader) (p : list byte),
    Address_wf (Socks.Address_ h) ->
    Port_wf (Socks.Port_ h) ->
    (3 + wire_len (Socks.Address_ h) + len p <= Size)%Z ->
    exists packet h',
      Socks.EncodeUDPPacket h p = Ok packet
      /\ Socks.DecodeUDPPacket packet = (Ok h', p)
      /\ Socks.Address_ h' = Socks.Address_ h
      /\ Socks.Port_ h' = Socks.Port_ h.
Proof.
  intros h p Hwf Hp Hfit.
  destruct (encode_address_wf _ Hwf) as [bs Hbs].
  pose proof (encode_address_len _ _ Hwf Hbs) as Hlen.
  pose proof (len_nonneg bs) as Hbs0. pose proof (len_nonneg p) as Hp0.
  assert (Hput : len (PutUint16 (Socks.Port_ h)) = 2%Z) by reflexivity.
  assert (HE : Socks.EncodeUDPPacket h p
               = Ok (x00 :: x00 :: x00 :: bs ++ PutUint16 (Socks.Port_ h) ++ p)).
  { unfold Socks.EncodeUDPPacket, WriteAddressPort. rewrite Hbs.
    rewrite (Buffer_Write_fits buf_New) by fits.
    rewrite (Buffer_Write_fits _ bs) by fits_app.
    rewrite (Buffer_Write_fits _ (PutUint16 _)) by fits_app.
    rewrite Buffer_Write_fits by fits_app.
    unfold buf_New. cbn [app]. by rewrite <- !app_assoc. }
  eexists. exists {| Socks.Version := Socks.socks5Version;
                     Socks.Command := Socks.RequestCommandUDP;
                     Socks.Address_ := Socks.Address_ h;
                     Socks.Port_ := Socks.Port_ h;
                     Socks.User := None |}.
  split; [exact HE |]. split; [| split; reflexivity].
  unfold Socks.DecodeUDPPacket.
  destruct (Z.ltb_spec
              (len (x00 :: x00 :: x00 :: bs ++ PutUint16 (Socks.Port_ h) ++ p)) 5)
    as [Hshort | _].
  { unfold len in Hshort. cbn [length] in Hshort.
    rewrite !length_app in Hshort. unfold len in *. cbn [length] in *. lia. }
  cbn [Buffer_Byte nth skipn]. change (Byte.eqb x00 x00) with true. cbn [negb].
  erewrite wrap_err_Ok; [| apply ReadAddressPort_encode; eassumption].
  reflexivity.
Qed.

(** A five-byte payload for 1.2.3.4:80. *)
Lemma UDP_roundtrip_within_buffer_witness :
  exists packet h',
    Socks.EncodeUDPPacket UDPSamples.header UDPSamples.hello = Ok packet
    /\ Socks.DecodeUDPPacket packet = (Ok h', UDPSamples.hello)
    /\ Socks.Address_ h' = Samples.ip1234
    /\ Socks.Port_ h' = 80%Z.
Proof.
  apply (UDP_roundtrip_within_buffer UDPSamples.header UDPSamples.hello).
  - reflexivity.
  - unfold Port_wf. cbn. lia.
  - vm_compute. discriminate.
Defined.

(** C3 fails as stated: a payload of 8192 bytes, within the stated range
    of 0..65000, does not come back; the packet buffer holds 8192 bytes in
    all, so the encoder keeps only the first 8182 bytes of the payload. *)
Lemma UDP_roundtrip_fails_beyond_buffer :
  (len UDPSamples.payload8192 <= 65000)%Z
  /\ Address_wf (Socks.Address_ UDPSamples.header)
  /\ ~ (exists packet h',
          Socks.EncodeUDPPacket UDPSamples.header UDPSamples.payload8192 = Ok packet
          /\ Socks.DecodeUDPPacket packet = (Ok h', UDPSamples.payload8192)).
Proof.
  split; [vm_compute; discriminate |]. split; [reflexivity |].
  intros (packet & h' & HE & HD).
  assert (Hlen : len (snd (Socks.DecodeUDPPacket packet)) = 8182%Z).
  { vm_compute in HE. injection HE as <-. vm_compute. reflexivity. }
  rewrite HD in Hlen. cbn [snd] in Hlen. vm_compute in Hlen. discriminate.
Qed.

(* ===================================================================== *)
(** * The properties on concrete inputs *)
(* ===================================================================== *)

(** A built key-auth configuration listing key "k" validates it. *)
Lemma ValidateKey_iff_present_with_value_1_witness :
  Http.ValidateKey (Conf.Build ConfSamples.keyauth) "k" = true.
Proof.
  apply (proj2 (proj2 (proj2 (proj2 ValidateKey_iff_present_with_value_1)))
           ConfSamples.keyauth ["k"] "k" eq_refl eq_refl).
  apply elem_of_cons. by left.
Defined.

(** Concurrency 0 gives the default of 8; xudp concurrency 0 gives no
    pool; negative values give disabled pools. *)
Lemma NewHandler_mux_tristate_witness :
  (exists h,
      Outbound.NewHandler OutboundSamples.collaborators (OutboundSamples.config 0 0)
      = Ok h
      /\ Outbound.mux h = Some (Outbound.enabledManager 8)
      /\ Outbound.xudp h = None)
  /\ (exists h,
      Outbound.NewHandler OutboundSamples.collaborators (OutboundSamples.config (-1) 16)
      = Ok h
      /\ Outbound.mux h = Some Outbound.disabledManager
      /\ Outbound.xudp h = Some (Outbound.enabledManager 16)).
Proof.
  split.
  - destruct (NewHandler_mux_tristate
                OutboundSamples.collaborators (OutboundSamples.config 0 0)
                _ (OutboundSamples.multiplex 0 0) eq_refl eq_refl eq_refl)
      as (h & HN & _ & H0 & _ & _ & HX & _).
    + unfold Outbound.int32_range. cbn. lia.
    + unfold Outbound.int32_range. cbn. lia.
    + reflexivity.
    + reflexivity.
    + reflexivity.
    + exists h. split; [exact HN |].
      split; [exact (H0 eq_refl) | exact (HX eq_refl)].
  - destruct (NewHandler_mux_tristate
                OutboundSamples.collaborators (OutboundSamples.config (-1) 16)
                _ (OutboundSamples.multiplex (-1) 16) eq_refl eq_refl eq_refl)
      as (h & HN & Hneg & _ & _ & _ & _ & HX & _).
    + unfold Outbound.int32_range. cbn. lia.
    + unfold Outbound.int32_range. cbn. lia.
    + reflexivity.
    + reflexivity.
    + reflexivity.
    + exists h. split; [exact HN |].
      split; [apply Hneg; cbn; lia | apply HX; cbn; lia].
Defined.

(** Policy "reject" on a translated flow to UDP port 443: one error is
    reported, and the call on the writer ends nothing. *)
Lemma Dispatch_udp443_policy_witness :
  let t := Outbound.Dispatch
             (OutboundSamples.handler (Some OutboundSamples.pool) "reject")
             OutboundSamples.translated OutboundSamples.link
             (OutboundSamples.outcomes None) in
  Outbound.submitted t
  = [Base (errors_New "failed to process mux outbound traffic")
          (AtInfo (errors_New "XUDP rejected UDP/443 traffic"))]
  /\ Outbound.ended_by t = [].
Proof.
  intros t.
  destruct (proj1 (Dispatch_udp443_policy
                     (OutboundSamples.handler (Some OutboundSamples.pool) "reject")
                     OutboundSamples.pool OutboundSamples.translated
                     OutboundSamples.link (OutboundSamples.outcomes None)
                     eq_refl eq_refl eq_refl) eq_refl)
    as (_ & _ & _ & Hs & _ & He).
  split; [exact Hs | exact He].
Defined.

(** A handler without mux on a translated flow whose proxy ends with a
    wrapped EOF: the writer is closed, the reader interrupted, and
    neither call ends an end of the link. *)
Lemma Dispatch_direct_path_ends_witness :
  let l := Outbound.overrideLink OutboundSamples.translated OutboundSamples.link in
  let t := Outbound.Dispatch (OutboundSamples.handler None "")
             OutboundSamples.translated OutboundSamples.link
             (OutboundSamples.outcomes
                (Some (Base (errors_New "connection ends") io_EOF))) in
  t = [Outbound.ProxyProcess l; Outbound.Close (Outbound.Writer l);
       Outbound.Interrupt (Outbound.Reader l)]
  /\ Outbound.ended_by t = [].
Proof.
  intros l t.
  destruct (Dispatch_direct_path_ends
              (OutboundSamples.handler None "") OutboundSamples.translated
              OutboundSamples.link
              (OutboundSamples.outcomes
                 (Some (Base (errors_New "connection ends") io_EOF)))
              l (or_introl eq_refl))
    as (_ & _ & Hbenign & _ & _ & He).
  split; [| exact He].
  exact (Hbenign (Base (errors_New "connection ends") io_EOF) eq_refl
           (or_introl eq_refl)).
Defined.

(** SOCKS4 against a server that requires passwords. *)
Lemma handshake4_password_rejected_witness :
  Socks.Handshake domainAddress (Samples.session AuthType_PASSWORD)
    (Samples.stream (x04 :: x01 :: Socks4Samples.connect))
  = (Err (errors_New "socks 4 is not allowed when auth is required."),
     mkConn Socks4Samples.connect
       [([x00; x5b; x00; x00; x00; x00; x00; x00], true)] None).
Proof.
  apply (proj2 (proj2 (handshake4_password_rejected domainAddress
                         (Samples.session AuthType_PASSWORD) x01
                         (Samples.stream (x04 :: x01 :: Socks4Samples.connect))
                         eq_refl))
           Socks4Samples.connect eq_refl).
Defined.

(** SOCKS4 CONNECT against a server with key authentication. *)
Lemma handshake4_keyauth_as_noauth_witness :
  Socks.handshake4 domainAddress (Samples.session AuthType_KEYAUTH) x01
    (Samples.stream Socks4Samples.connect)
  = (Ok {| Socks.Version := x04; Socks.Command := Socks.RequestCommandTCP;
           Socks.Address_ := Samples.ip1234; Socks.Port_ := 80%Z;
           Socks.User := None |},
     mkConn [] [([x00; x5a; x00; x00; x00; x00; x00; x00], true)] None).
Proof.
  apply (proj2 (handshake4_keyauth_as_noauth domainAddress
                  (Samples.session AuthType_KEYAUTH) x01
                  (Samples.stream Socks4Samples.connect) eq_refl)
           x00 x50 [x01; x02; x03; x04] [x75] [] eq_refl eq_refl).
  - discriminate.
  - repeat constructor. discriminate.
  - vm_compute. reflexivity.
  - reflexivity.
Defined.

(** A client offering no-auth and password: a key-auth server picks the
    password method; a client offering neither is turned away. *)
Lemma auth5_method_negotiation_witness :
  (exists tail,
      wlog (snd (Socks.auth5 (Samples.session AuthType_KEYAUTH) x02
                   (Samples.stream Samples.noauth_or_password)))
      = ([x05; x02], true) :: tail)
  /\ Socks.auth5 (Samples.session AuthType_KEYAUTH) x01 (Samples.stream [x00])
     = (Err (errors_New "no matching auth method"),
        mkConn [] [([x05; xff], true)] None).
Proof.
  split.
  - apply (proj2 (proj2 (auth5_method_negotiation
                           (Samples.session AuthType_KEYAUTH) x02
                           (Samples.stream Samples.noauth_or_password)
                           (le_n 2)))).
    right. left. reflexivity.
  - apply (proj1 (proj2 (auth5_method_negotiation
                           (Samples.session AuthType_KEYAUTH) x01
                           (Samples.stream [x00]) (le_n 1)))).
    intros [H | []]. discriminate.
Defined.

(* ===================================================================== *)
(** * Further properties: accounts and the built configuration *)
(* ===================================================================== *)

Lemma build_accounts_snoc (l : list Conf.HTTPAccount) (a : Conf.HTTPAccount) :
  Conf.build_accounts (l ++ [a])
  = <[Conf.Username a := Conf.Password a]> (Conf.build_accounts l).
Proof. unfold Conf.build_accounts. by rewrite foldl_app. Qed.

(** The password [build_accounts] keeps for a username is that of the
    last account listed with it. *)
Lemma build_accounts_lookup (l : list Conf.HTTPAccount) (u p : string) :
  Conf.build_accounts l !! u = Some p
  <-> exists l1 l2,
        l = l1 ++ {| Conf.Username := u; Conf.Password := p |} :: l2
        /\ Forall (fun a => Conf.Username a <> u) l2.
Proof.
  induction l as [|a l IH] using rev_ind.
  - split; [unfold Conf.build_accounts; cbn [foldl]; by rewrite lookup_empty |].
    intros (l1 & l2 & H & _). by destruct l1.
  - rewrite build_accounts_snoc.
    destruct (decide (Conf.Username a = u)) as [Heq | Hne].
    + rewrite Heq, lookup_insert_eq. split.
      * intros [= <-]. exists l, []. split; [| constructor].
        destruct a; cbn in *; by subst.
      * intros (l1 & l2 & H & Hl2).
        destruct l2 as [|b l2 _] using rev_ind.
        -- apply app_inj_tail in H as [_ ->]. reflexivity.
        -- rewrite app_comm_cons, app_assoc in H.
           apply app_inj_tail in H as [_ ->].
           apply Forall_app in Hl2 as [_ Hb]. inversion Hb; subst. contradiction.
    + rewrite lookup_insert_ne by done. rewrite IH. split.
      * intros (l1 & l2 & -> & Hl2). exists l1, (l2 ++ [a]). split.
        -- by rewrite <- app_assoc.
        -- apply Forall_app. split; [exact Hl2 | by repeat constructor].
      * intros (l1 & l2 & H & Hl2).
        destruct l2 as [|b l2 _] using rev_ind.
        -- apply app_inj_tail in H as [_ ->]. cbn in Hne. contradiction.
        -- rewrite app_comm_cons, app_assoc in H.
           apply app_inj_tail in H as [-> ->].
           apply Forall_app in Hl2 as [Hl2 _]. eauto.
Qed.

Lemma Http_HasAccount_spec (sc : Http.ServerConfig) (u p : string) :
  Http.HasAccount sc u p = true
  <-> exists accounts, Http.Accounts sc = Some accounts /\ accounts !! u = Some p.
Proof.
  unfold Http.HasAccount. split.
  - destruct (Http.Accounts sc) as [accounts|]; [| discriminate].
    destruct (accounts !! u) as [q|] eqn:E; [| discriminate].
    intros H%String.eqb_eq. subst q. eauto.
  - intros (accounts & -> & ->). apply String.eqb_refl.
Qed.

Lemma Socks_HasAccount_spec (c : Socks.ServerConfig) (u p : string) :
  Socks.HasAccount c u p = true
  <-> exists accounts, Socks.Accounts c = Some accounts /\ accounts !! u = Some p.
Proof.
  unfold Socks.HasAccount. split.
  - destruct (Socks.Accounts c) as [accounts|]; [| discriminate].
    destruct (accounts !! u) as [q|] eqn:E; [| discriminate].
    intros H%String.eqb_eq. subst q. eauto.
  - intros (accounts & -> & ->). apply String.eqb_refl.
Qed.

(** X1. [HasAccount(username, password)] holds exactly when the accounts
    map is not nil and maps the username to that very password (an
    unknown username and a wrong password are both refused), in the HTTP
    and in the SOCKS configuration alike. On a configuration produced by
    [HTTPServerConfig.Build] it holds exactly when the last account
    listed under that username has that password: a later account
    replaces an earlier one of the same name. *)
Theorem HasAccount_last_listed_account_wins :
  (forall (sc : Http.ServerConfig) (u p : string),
      Http.HasAccount sc u p = true
      <-> exists accounts,
            Http.Accounts sc = Some accounts /\ accounts !! u = Some p)
  /\ (forall (c : Socks.ServerConfig) (u p : string),
      Socks.HasAccount c u p = true
      <-> exists accounts,
            Socks.Accounts c = Some accounts /\ accounts !! u = Some p)
  /\ (forall (c : Conf.HTTPServerConfig) (u p : string),
      Http.HasAccount (Conf.Build c) u p = true
      <-> exists l1 l2,
            Conf.Accounts c
            = l1 ++ {| Conf.Username := u; Conf.Password := p |} :: l2
            /\ Forall (fun a => Conf.Username a <> u) l2).
Proof.
  split; [exact Http_HasAccount_spec |].
  split; [exact Socks_HasAccount_spec |].
  intros c u p. rewrite Http_HasAccount_spec.
  assert (HB : Http.Accounts (Conf.Build c)
               = match Conf.Accounts c with
                 | [] => None
                 | _ :: _ => Some (Conf.build_accounts (Conf.Accounts c))
                 end).
  { unfold Conf.Build.
    destruct (String.eqb _ _); [reflexivity |].
    destruct (String.eqb _ _); [reflexivity |].
    destruct (String.eqb _ _); reflexivity. }
  rewrite HB. destruct (Conf.Accounts c) as [|a l] eqn:E.
  - split; [intros (? & [=] & _) |].
    intros (l1 & l2 & H & _). by destruct l1.
  - rewrite <- build_accounts_lookup. split.
    + intros (accounts & [= <-] & H). exact H.
    + intros H. eauto.
Qed.

(** X2. [HTTPServerConfig.Build] maps the auth string "password" to
    PASSWORD, "keyauth" to KEYAUTH and every other string, "noauth" and
    unknown ones alike, to NO_AUTH. The key list is kept only under
    "keyauth": with any other auth string the built configuration has no
    key map and validates no key, listed or not; and under "keyauth" with
    the key list absent it validates no key either. *)
Theorem Build_auth_type_and_keys :
  forall (c : Conf.HTTPServerConfig),
    (Conf.AuthMethod c = "password" ->
       Http.AuthType_ (Conf.Build c) = AuthType_PASSWORD)
    /\ (Conf.AuthMethod c = "keyauth" ->
       Http.AuthType_ (Conf.Build c) = AuthType_KEYAUTH)
    /\ (Conf.AuthMethod c <> "password" -> Conf.AuthMethod c <> "keyauth" ->
       Http.AuthType_ (Conf.Build c) = AuthType_NO_AUTH)
    /\ (Conf.AuthMethod c <> "keyauth" ->
       Http.Keys (Conf.Build c) = None
       /\ forall key, Http.ValidateKey (Conf.Build c) key = false)
    /\ (Conf.Keys c = None ->
       forall key, Http.ValidateKey (Conf.Build c) key = false)
    /\ (forall ks key,
       Conf.AuthMethod c = "keyauth" -> Conf.Keys c = Some ks ->
       Http.ValidateKey (Conf.Build c) key = bool_decide (key ∈ ks)).
Proof.
  intros c. unfold Conf.Build, Http.ValidateKey.
  unfold Conf.HTTPAuthMethodNoAuth, Conf.HTTPAuthMethodUserPass,
    Conf.HTTPAuthMethodKeyAuth.
  destruct (String.eqb_spec (Conf.AuthMethod c) "noauth") as [H1 | H1];
    [| destruct (String.eqb_spec (Conf.AuthMethod c) "password") as [H2 | H2];
       [| destruct (String.eqb_spec (Conf.AuthMethod c) "keyauth") as [H3 | H3]]];
    cbn [Http.AuthType_ Http.Keys];
    repeat split; try congruence; try (intros; congruence).
  - intros ->. reflexivity.
  - intros ks key _ Hks. rewrite Hks, build_keys_lookup.
    case_bool_decide; reflexivity.
Qed.

(* ===================================================================== *)
(** * Further properties: reading strings and credentials *)
(* ===================================================================== *)

Lemma ReadUntilNull_loop_eof (b u : list byte) :
  Forall (fun x => x <> x00) u ->
  (len b + len u < Size)%Z ->
  Socks.ReadUntilNull_loop b u = (Err io_EOF, []).
Proof.
  revert b. induction u as [|x u IH]; intros b Hu Hlen; [reflexivity |].
  inversion Hu as [|? ? Hx Hu']; subst.
  cbn [Socks.ReadUntilNull_loop]. rewrite (Byte_eqb_neq _ _ Hx).
  assert (Hfull : IsFull (b ++ [x]) = false).
  { unfold IsFull. apply Z.leb_gt. rewrite len_app.
    unfold len in *. cbn [length] in *. lia. }
  rewrite Hfull. apply IH; [exact Hu' |].
  rewrite len_app. unfold len in *. cbn [length] in *. lia.
Qed.

Lemma ReadUntilNull_loop_overrun (b u rest : list byte) :
  Forall (fun x => x <> x00) u ->
  u <> [] ->
  (len b + len u = Size)%Z ->
  Socks.ReadUntilNull_loop b (u ++ rest)
  = (Err (errors_New "buffer overrun"), rest).
Proof.
  revert b. induction u as [|x u IH]; intros b Hu Hne Hlen; [contradiction |].
  inversion Hu as [|? ? Hx Hu']; subst.
  cbn [app Socks.ReadUntilNull_loop]. rewrite (Byte_eqb_neq _ _ Hx).
  destruct u as [|y u].
  - assert (Hfull : IsFull (b ++ [x]) = true).
    { unfold IsFull. apply Z.leb_le. rewrite len_app.
      unfold len in *. cbn [length] in *. lia. }
    rewrite Hfull. reflexivity.
  - assert (Hfull : IsFull (b ++ [x]) = false).
    { unfold IsFull. apply Z.leb_gt. rewrite len_app.
      unfold len in *. cbn [length] in *. lia. }
    rewrite Hfull. apply IH; [exact Hu' | discriminate |].
    rewrite len_app. unfold len in *. cbn [length] in *. lia.
Qed.

(** X3. [ReadUntilNull] returns the bytes before the first null byte and
    consumes them and the null byte, as long as fewer than [Size] bytes
    precede it. If the stream ends before a null byte it fails with
    [io.EOF]. If the first [Size] bytes hold no null byte it fails with
    "buffer overrun", having consumed exactly those [Size] bytes. It
    never writes. *)
Theorem ReadUntilNull_outcomes :
  forall (u rest : list byte) w q,
    Forall (fun x => x <> x00) u ->
    ((len u < Size)%Z ->
       Socks.ReadUntilNull (mkConn (u ++ x00 :: rest) w q)
       = (Ok (string_of_bytes u), mkConn rest w q)
       /\ Socks.ReadUntilNull (mkConn u w q) = (Err io_EOF, mkConn [] w q))
    /\ (len u = Size ->
       Socks.ReadUntilNull (mkConn (u ++ rest) w q)
       = (Err (errors_New "buffer overrun"), mkConn rest w q)).
Proof.
  intros u rest w q Hu. split.
  - intros Hlen. split; [by apply ReadUntilNull_found |].
    unfold Socks.ReadUntilNull. cbn [input wlog wquota].
    rewrite ReadUntilNull_loop_eof; [reflexivity | exact Hu |].
    unfold buf_New, len in *. cbn [length]. lia.
  - intros Hlen. unfold Socks.ReadUntilNull. cbn [input wlog wquota].
    rewrite ReadUntilNull_loop_overrun; [reflexivity | exact Hu | |].
    + intros ->. unfold len, Size in Hlen. cbn in Hlen. lia.
    + unfold buf_New, len in *. cbn [length]. lia.
Qed.

(** A user id "u" followed by a null byte; the same without it. *)
Lemma ReadUntilNull_outcomes_witness :
  Socks.ReadUntilNull (Samples.stream [x75; x00; x01])
  = (Ok "u", Samples.stream [x01])
  /\ Socks.ReadUntilNull (Samples.stream [x75]) = (Err io_EOF, Samples.stream []).
Proof.
  apply (proj1 (ReadUntilNull_outcomes [x75] [x01] [] None
                  ltac:(repeat constructor; discriminate))).
  vm_compute. reflexivity.
Defined.

Lemma Buffer_ReadFullFrom_prefix (bs rest : list byte) (c : Conn) :
  (len bs <= 255)%Z ->
  input c = bs ++ rest ->
  Buffer_ReadFullFrom buf_New (len bs) c = (Ok bs, with_input c rest).
Proof.
  intros Hlen Hin. pose proof (len_nonneg bs).
  rewrite Buffer_ReadFullFrom_empty by lia.
  unfold len. rewrite Nat2Z.id. by apply ReadFull_prefix.
Qed.

Lemma Buffer_ReadFullFrom_short (n : Z) (c : Conn) :
  (0 <= n <= 255)%Z ->
  (len (input c) < n)%Z ->
  Buffer_ReadFullFrom buf_New n c
  = (Err (match input c with [] => io_EOF | _ => io_ErrUnexpectedEOF end),
     with_input c []).
Proof.
  intros Hn Hshort. rewrite Buffer_ReadFullFrom_empty by lia.
  unfold ReadFull.
  destruct (Nat.leb_spec (Z.to_nat n) (length (input c))) as [Hle | _];
    [unfold len in Hshort; lia | reflexivity].
Qed.

Lemma read1 (a : byte) rest (c : Conn) :
  input c = a :: rest ->
  Buffer_ReadFullFrom buf_New 1 c = (Ok [a], with_input c rest).
Proof.
  intros H. rewrite Buffer_ReadFullFrom_empty by lia.
  exact (ReadFull_prefix [a] rest c H).
Qed.


(* ===================================================================== *)
(** * Further properties: the SOCKS5 server handshake *)
(* ===================================================================== *)

Lemma address_bytes_wf (a : Address) :
  Address_wf a -> encode_address a = Ok (address_bytes a).
Proof.
  intros H. unfold address_bytes.
  destruct (encode_address_wf a H) as [bs ->]. reflexivity.
Qed.

Lemma wire_len_bound (a : Address) :
  Address_wf a ->
  (len (address_bytes a) + 2 = wire_len a /\ 7 <= wire_len a + 3 <= 262)%Z.
Proof.
  intros H. pose proof (encode_address_len a _ H (address_bytes_wf a H)) as Hl.
  split; [exact Hl |].
  destruct a as [ip | ip | d]; cbn [wire_len Address_wf] in *;
    pose proof (len_nonneg (bytes_of_string "")); try lia.
  pose proof (len_nonneg (bytes_of_string d)). lia.
Qed.

Lemma WriteAddressPort_fits (b : Buffer) (a : Address) (p : Port) :
  Address_wf a ->
  (len b + wire_len a <= Size)%Z ->
  WriteAddressPort b a p = Ok (b ++ address_bytes a ++ PutUint16 p).
Proof.
  intros Hwf Hfit. unfold WriteAddressPort. rewrite (address_bytes_wf a Hwf).
  destruct (wire_len_bound a Hwf) as [Hl _].
  pose proof (len_nonneg (address_bytes a)).
  assert (Hput : len (PutUint16 p) = 2%Z) by reflexivity.
  rewrite (Buffer_Write_fits b) by lia.
  rewrite Buffer_Write_fits by (rewrite len_app; lia).
  by rewrite <- app_assoc.
Qed.

Lemma writeSocks5Response_accepts (k : nat) (code : byte) (a : Address) (p : Port)
  (c : Conn) :
  Address_wf a ->
  accepts (S k) c ->
  Socks.writeSocks5Response code a p c = (Ok tt, written c (socks5Reply code a p))
  /\ writer_accepts c = true
  /\ accepts k (written c (socks5Reply code a p)).
Proof.
  intros Hwf HA. unfold Socks.writeSocks5Response.
  rewrite (Buffer_Write_fits buf_New) by fits.
  destruct (wire_len_bound a Hwf) as [_ Hb].
  rewrite WriteAddressPort_fits
    by (try exact Hwf; unfold buf_New, len, Size; cbn [length app]; lia).
  unfold bind, lift. cbn [app buf_New WriteAllBytes Socks.socks5Version].
  apply (Write_accepts k). exact HA.
Qed.

Lemma writeSocks5Response_written (code : byte) (a : Address) (p : Port) (c : Conn) :
  Address_wf a ->
  Socks.writeSocks5Response code a p c
  = (if writer_accepts c then Ok tt else Err (ErrPlain "write failed"),
     written c (socks5Reply code a p)).
Proof.
  intros Hwf. unfold Socks.writeSocks5Response.
  rewrite (Buffer_Write_fits buf_New) by fits.
  destruct (wire_len_bound a Hwf) as [_ Hb].
  rewrite WriteAddressPort_fits
    by (try exact Hwf; unfold buf_New, len, Size; cbn [length app]; lia).
  unfold bind, lift. cbn [app buf_New WriteAllBytes Socks.socks5Version].
  apply Write_written.
Qed.

Lemma ReadAddressPort_prefix (a : Address) (p : Port) (rest : list byte) (c : Conn) :
  Address_wf a -> Port_wf p ->
  input c = address_bytes a ++ PutUint16 p ++ rest ->
  ReadAddressPort c = (Ok (a, p), with_input c rest).
Proof.
  intros Hwf Hp Hin. destruct c as [inp w q]. cbn [input] in Hin. subst inp.
  apply ReadAddressPort_encode; [exact Hwf | exact Hp |].
  by apply address_bytes_wf.
Qed.

Lemma BytesRange_all (l : list byte) : BytesRange l 0 (length l) = l.
Proof. unfold BytesRange. rewrite Nat.sub_0_r. cbn [skipn]. apply firstn_all. Qed.

(** Method negotiation up to the server's choice, when the expected
    method is among the candidates. *)
Lemma auth5_method_chosen (s : Socks.ServerSession) (nMethod : byte)
  (methods rest : list byte) (c : Conn) (k : nat)
  (K : IO string) :
  length methods = Z.to_nat (Z_of_byte nMethod) ->
  In (Socks.expectedAuth (Socks.config s)) methods ->
  input c = methods ++ rest ->
  accepts (S k) c ->
  (let* buffer :=
     wrap_err "failed to read auth methods"
       (Buffer_ReadFullFrom buf_New (Z_of_byte nMethod)) in
   if negb (Socks.hasAuthMethod (Socks.expectedAuth (Socks.config s))
              (BytesRange buffer 0 (Z.to_nat (Z_of_byte nMethod)))) then
     let* _ := ignore_err
       (Socks.writeSocks5AuthenticationResponse Socks.socks5Version
          Socks.authNoMatchingMethod) in
     fail (errors_New "no matching auth method")
   else
     let* _ := wrap_err "failed to write auth response"
       (Socks.writeSocks5AuthenticationResponse Socks.socks5Version
          (Socks.expectedAuth (Socks.config s))) in
     K) c
  = K (written (with_input c rest)
               [x05; Socks.expectedAuth (Socks.config s)]).
Proof.
  intros Hlen Hin Hinp HA.
  step (apply wrap_err_Ok;
        rewrite Buffer_ReadFullFrom_empty by apply Z_of_byte_range;
        rewrite <- Hlen; apply ReadFull_prefix; exact Hinp).
  rewrite <- Hlen, BytesRange_all.
  rewrite (proj2 (hasAuthMethod_In _ _) Hin). cbn [negb].
  step (apply wrap_err_Ok;
        apply (Write_accepts k [x05; Socks.expectedAuth (Socks.config s)]
                 (with_input c rest)); exact HA).
  reflexivity.
Qed.

Lemma auth5_noauth (s : Socks.ServerSession) (nMethod : byte)
  (methods rest : list byte) (c : Conn) (k : nat) :
  Socks.AuthType_ (Socks.config s) = AuthType_NO_AUTH ->
  length methods = Z.to_nat (Z_of_byte nMethod) ->
  In x00 methods ->
  input c = methods ++ rest ->
  accepts (S k) c ->
  Socks.auth5 s nMethod c = (Ok "", written (with_input c rest) [x05; x00]).
Proof.
  intros HT Hlen Hin Hinp HA.
  assert (HE : Socks.expectedAuth (Socks.config s) = x00).
  { unfold Socks.expectedAuth. rewrite HT. reflexivity. }
  unfold Socks.auth5. cbv zeta.
  rewrite (auth5_method_chosen s nMethod methods rest c k _ Hlen)
    by (rewrite ?HE; assumption).
  rewrite HE. reflexivity.
Qed.

Lemma accepts_written (k : nat) (c : Conn) (data : list byte) :
  accepts (S k) c -> accepts k (written c data).
Proof. intros H. apply (Write_accepts k data c H). Qed.

Lemma ReadUsernamePassword_frame (ver : byte) (username password : string)
  (rest : list byte) (c : Conn) :
  (len (bytes_of_string username) <= 255)%Z ->
  (len (bytes_of_string password) <= 255)%Z ->
  input c = credentialsFrame ver username password ++ rest ->
  Socks.ReadUsernamePassword c = (Ok (username, password), with_input c rest).
Proof.
  intros Hu Hp Hin.
  pose proof (len_nonneg (bytes_of_string username)).
  pose proof (len_nonneg (bytes_of_string password)).
  unfold credentialsFrame in Hin. rewrite <- !app_assoc in Hin.
  unfold Socks.ReadUsernamePassword.
  step (exact (read2 ver (byte_of_Z (len (bytes_of_string username)))
                 (bytes_of_string username
                  ++ [byte_of_Z (len (bytes_of_string password))]
                  ++ bytes_of_string password ++ rest) c Hin)).
  cbn [Buffer_Byte nth].
  rewrite Z_of_byte_of_Z_small by lia.
  step (apply Buffer_ReadFullFrom_prefix; [exact Hu | reflexivity]).
  step (apply read1; reflexivity).
  cbn [Buffer_Byte nth]. rewrite Z_of_byte_of_Z_small by lia.
  step (apply Buffer_ReadFullFrom_prefix; [exact Hp | reflexivity]).
  unfold ret, string_of_bytes, bytes_of_string.
  rewrite !string_of_list_byte_of_string. reflexivity.
Qed.

(** X4. [ReadUsernamePassword] parses the frame
    [ver, ulen, username, plen, password] back into the username and the
    password, for every username and password of at most 255 bytes (empty
    ones included), leaving what follows the frame unread. It accepts any
    version byte. This is the frame [ClientHandshake] sends for an
    account (with first byte 0x01). *)
Theorem ReadUsernamePassword_parses_frame :
  forall (ver : byte) (username password : string) (rest : list byte) (c : Conn),
    (len (bytes_of_string username) <= 255)%Z ->
    (len (bytes_of_string password) <= 255)%Z ->
    input c = credentialsFrame ver username password ++ rest ->
    Socks.ReadUsernamePassword c = (Ok (username, password), with_input c rest).
Proof. exact ReadUsernamePassword_frame. Qed.

(** The frame of "alice" / "secret". *)
Lemma ReadUsernamePassword_parses_frame_witness :
  Socks.ReadUsernamePassword
    (Samples.stream ([x01; x05; x61; x6c; x69; x63; x65;
                      x06; x73; x65; x63; x72; x65; x74] ++ [xff]))
  = (Ok ("alice", "secret"), Samples.stream [xff]).
Proof.
  apply (ReadUsernamePassword_parses_frame x01 "alice" "secret" [xff]
           (Samples.stream ([x01; x05; x61; x6c; x69; x63; x65;
                             x06; x73; x65; x63; x72; x65; x74] ++ [xff]))).
  - vm_compute. discriminate.
  - vm_compute. discriminate.
  - reflexivity.
Defined.

Lemma wlog_written2 (c : Conn) (inp1 inp2 : list byte) (d1 d2 : list byte) :
  accepts 2 c ->
  wlog (written (with_input (written (with_input c inp1) d1) inp2) d2)
  = wlog c ++ [(d1, true); (d2, true)].
Proof.
  unfold accepts, written, with_input, writer_accepts. cbn [wlog wquota input].
  destruct (wquota c) as [[|[|n]]|]; intros H; try lia; by rewrite <- app_assoc.
Qed.

(** The password sub-negotiation of [auth5]. *)
Lemma auth5_credentials_run (s : Socks.ServerSession) (nMethod : byte)
  (methods : list byte) (ver : byte) (username password : string)
  (rest : list byte) (c : Conn) :
  Socks.AuthType_ (Socks.config s) <> AuthType_NO_AUTH ->
  length methods = Z.to_nat (Z_of_byte nMethod) ->
  In x02 methods ->
  (len (bytes_of_string username) <= 255)%Z ->
  (len (bytes_of_string password) <= 255)%Z ->
  accepts 2 c ->
  input c = methods ++ credentialsFrame ver username password ++ rest ->
  Socks.auth5 s nMethod c
  = (if accepted (Socks.config s) username password
     then Ok username else Err (rejection (Socks.config s)),
     written (with_input
                (written (with_input c (credentialsFrame ver username password
                                        ++ rest)) [x05; x02])
                rest)
             [x01; if accepted (Socks.config s) username password
                   then x00 else xff]).
Proof.
  intros HT Hlen Hin Hu Hp HA Hinp.
  assert (HE : Socks.expectedAuth (Socks.config s) = x02).
  { unfold Socks.expectedAuth.
    destruct (Socks.AuthType_ (Socks.config s)); [contradiction | |]; reflexivity. }
  unfold Socks.auth5. cbv zeta.
  rewrite (auth5_method_chosen s nMethod methods
             (credentialsFrame ver username password ++ rest) c 1 _ Hlen)
    by (rewrite ?HE; assumption).
  rewrite HE. change (Byte.eqb x02 Socks.authPassword) with true. cbv iota.
  set (c1 := written (with_input c (credentialsFrame ver username password ++ rest))
                     [x05; x02]).
  assert (HA1 : accepts 1 c1) by (apply accepts_written; exact HA).
  step (apply wrap_err_Ok;
        apply (ReadUsernamePassword_frame ver username password rest c1 Hu Hp);
        reflexivity).
  cbv iota.
  destruct (Write_accepts 0 [x01; x00] (with_input c1 rest) HA1) as (HW0 & Hacc & _).
  destruct (Write_accepts 0 [x01; xff] (with_input c1 rest) HA1) as (HWf & _ & _).
  unfold accepted, rejection.
  destruct (Socks.AuthType_ (Socks.config s)); [contradiction | |].
  - destruct (Socks.HasAccount (Socks.config s) username password); cbn [negb].
    + step reflexivity. step (apply wrap_err_Ok; exact HW0). reflexivity.
    + unfold bind at 1. unfold bind, ignore_err, fail.
      unfold Socks.writeSocks5AuthenticationResponse.
      cbn [WriteAllBytes]. rewrite HWf. reflexivity.
  - destruct (Socks.ValidateKey (Socks.config s) password); cbn [negb].
    + step reflexivity. step (apply wrap_err_Ok; exact HW0). reflexivity.
    + unfold bind at 1. unfold bind, ignore_err, fail.
      unfold Socks.writeSocks5AuthenticationResponse.
      cbn [WriteAllBytes]. rewrite HWf. reflexivity.
Qed.

Lemma command_selected (s : Socks.ServerSession) (cmd : byte)
  (command : Socks.RequestCommand) :
  match command with
  | Socks.RequestCommandTCP => is_connect_command cmd = true
  | Socks.RequestCommandUDP =>
      cmd = Socks.cmdUDPAssociate /\ Socks.UdpEnabled (Socks.config s) = true
  end ->
  (if Byte.eqb cmd Socks.cmdTCPConnect || Byte.eqb cmd Socks.cmdTorResolve
      || Byte.eqb cmd Socks.cmdTorResolvePTR
   then ret Socks.RequestCommandTCP
   else if Byte.eqb cmd Socks.cmdUDPAssociate then
     if negb (Socks.UdpEnabled (Socks.config s)) then
       let* _ := ignore_err
         (Socks.writeSocks5Response Socks.statusCmdNotSupport AnyIP 0%Z) in
       fail (errors_New "UDP is not enabled.")
     else ret Socks.RequestCommandUDP
   else if Byte.eqb cmd Socks.cmdTCPBind then
     let* _ := ignore_err
       (Socks.writeSocks5Response Socks.statusCmdNotSupport AnyIP 0%Z) in
     fail (errors_New "TCP bind is not supported.")
   else
     let* _ := ignore_err
       (Socks.writeSocks5Response Socks.statusCmdNotSupport AnyIP 0%Z) in
     fail (errors_New1 "unknown command " cmd))
  = ret command.
Proof.
  destruct command.
  - unfold is_connect_command. intros ->. reflexivity.
  - intros [-> ->]. reflexivity.
Qed.

(** The request phase of [handshake5] after a successful [auth5]. *)
Lemma handshake5_request_served (s : Socks.ServerSession) (nMethod : byte)
  (c c1 : Conn) (username : string) (ver cmd rsv : byte) (addr : Address)
  (prt : Port) (rest : list byte) (command : Socks.RequestCommand) :
  Socks.auth5 s nMethod c = (Ok username, c1) ->
  input c1 = [ver; cmd; rsv] ++ address_bytes addr ++ PutUint16 prt ++ rest ->
  accepts 1 c1 ->
  Address_wf addr -> Port_wf prt ->
  Address_wf (responseAddress s command) ->
  match command with
  | Socks.RequestCommandTCP => is_connect_command cmd = true
  | Socks.RequestCommandUDP =>
      cmd = Socks.cmdUDPAssociate /\ Socks.UdpEnabled (Socks.config s) = true
  end ->
  Socks.handshake5 s nMethod c
  = (Ok {| Socks.Version := x05; Socks.Command := command;
           Socks.Address_ := addr; Socks.Port_ := prt;
           Socks.User := identity username |},
     written (with_input c1 rest)
             (socks5Reply x00 (responseAddress s command) (Socks.port s))).
Proof.
  intros Hauth Hinp HA1 Hwf Hp Hrwf Hcmd.
  destruct (writeSocks5Response_accepts 0 x00 (responseAddress s command)
              (Socks.port s) (with_input c1 rest) Hrwf HA1) as (HW & _ & _).
  unfold Socks.handshake5.
  step (exact Hauth).
  step (apply wrap_err_Ok; apply (read3 ver cmd rsv); exact Hinp).
  cbn [Buffer_Byte nth].
  rewrite (command_selected s cmd command Hcmd). step reflexivity.
  step (apply wrap_err_Ok;
        apply (ReadAddressPort_prefix addr prt rest); [exact Hwf | exact Hp |];
        reflexivity).
  cbv iota.
  change (with_input (with_input c1 (address_bytes addr ++ PutUint16 prt ++ rest))
            rest) with (with_input c1 rest).
  change Socks.statusSuccess with x00.
  change (match command with
          | Socks.RequestCommandTCP => Socks.address s
          | Socks.RequestCommandUDP =>
              match Socks.ConfigAddress (Socks.config s) with
              | Some a => a
              | None => Socks.localAddress s
              end
          end) with (responseAddress s command).
  step (exact HW). reflexivity.
Qed.

(** The request phase of [handshake5] for a command it does not serve. *)
Lemma handshake5_request_refused (s : Socks.ServerSession) (nMethod : byte)
  (c c1 : Conn) (username : string) (ver cmd rsv : byte) (rest : list byte) :
  Socks.auth5 s nMethod c = (Ok username, c1) ->
  input c1 = ver :: cmd :: rsv :: rest ->
  is_connect_command cmd = false ->
  (cmd = Socks.cmdUDPAssociate -> Socks.UdpEnabled (Socks.config s) = false) ->
  Socks.handshake5 s nMethod c
  = (Err (refusal cmd),
     written (with_input c1 rest) (socks5Reply x07 AnyIP 0%Z)).
Proof.
  intros Hauth Hinp Hcmd Hudp.
  assert (HW : forall c0,
    ignore_err (Socks.writeSocks5Response Socks.statusCmdNotSupport AnyIP 0%Z) c0
    = (Ok tt, written c0 (socks5Reply x07 AnyIP 0%Z))).
  { intros c0. unfold ignore_err.
    rewrite writeSocks5Response_written by reflexivity.
    destruct (writer_accepts c0); reflexivity. }
  unfold Socks.handshake5.
  step (exact Hauth).
  step (apply wrap_err_Ok; apply (read3 ver cmd rsv); exact Hinp).
  cbn [Buffer_Byte nth]. unfold is_connect_command in Hcmd. rewrite Hcmd.
  unfold refusal.
  destruct (Byte.eqb cmd Socks.cmdUDPAssociate) eqn:E3.
  - apply Byte.byte_dec_bl in E3. rewrite (Hudp E3). cbn [negb].
    unfold bind at 1. unfold bind at 1. rewrite HW. reflexivity.
  - destruct (Byte.eqb cmd Socks.cmdTCPBind);
      unfold bind at 1; unfold bind at 1; rewrite HW; reflexivity.
Qed.


(** X6. After the authentication phase of a SOCKS5 handshake has
    succeeded, a request whose command is BIND, an unknown command, or
    UDP ASSOCIATE while UDP is disabled, is refused: the server writes the
    reply 05 07 00 01 00 00 00 00 00 00 ("command not supported", null
    address and port) and returns an error, which for an unknown command
    reports the command byte. The target address of the request is never
    read. *)
Theorem handshake5_refuses_unserved_commands :
  forall (s : Socks.ServerSession) (nMethod : byte) (c c1 : Conn)
         (username : string) (ver cmd rsv : byte) (rest : list byte),
    Socks.auth5 s nMethod c = (Ok username, c1) ->
    input c1 = ver :: cmd :: rsv :: rest ->
    is_connect_command cmd = false ->
    (cmd = Socks.cmdUDPAssociate -> Socks.UdpEnabled (Socks.config s) = false) ->
    exists c',
      Socks.handshake5 s nMethod c = (Err (refusal cmd), c')
      /\ input c' = rest
      /\ wlog c'
         = wlog c1 ++ [([x05; x07; x00; x01; x00; x00; x00; x00; x00; x00],
                        writer_accepts c1)]
      /\ (cmd <> Socks.cmdUDPAssociate -> cmd <> Socks.cmdTCPBind ->
          error_arg (refusal cmd) = Some cmd).
Proof.
  intros s nMethod c c1 username ver cmd rsv rest Hauth Hinp Hcmd Hudp.
  eexists. split; [| split; [| split]].
  - exact (handshake5_request_refused s nMethod c c1 username ver cmd rsv rest
             Hauth Hinp Hcmd Hudp).
  - reflexivity.
  - reflexivity.
  - intros H3 H2. unfold refusal.
    rewrite (Byte_eqb_neq _ _ H3), (Byte_eqb_neq _ _ H2). reflexivity.
Qed.

(** X7. In the password sub-negotiation of a SOCKS5 handshake (server
    configured for password or key authentication, client offering the
    password method and sending a credentials frame), the server writes
    its method choice 05 02 and then exactly one status reply: 01 00 and
    the username is returned when the configuration accepts the
    credentials, 01 FF and an error otherwise. Under password
    authentication acceptance is [HasAccount(username, password)]; under
    key authentication it is [ValidateKey(password)] alone, whatever the
    username. *)
Theorem auth5_credentials_outcome :
  forall (s : Socks.ServerSession) (nMethod : byte) (methods : list byte)
         (ver : byte) (username password : string) (rest : list byte) (c : Conn),
    Socks.AuthType_ (Socks.config s) <> AuthType_NO_AUTH ->
    length methods = Z.to_nat (Z_of_byte nMethod) ->
    In x02 methods ->
    (len (bytes_of_string username) <= 255)%Z ->
    (len (bytes_of_string password) <= 255)%Z ->
    accepts 2 c ->
    input c = methods ++ credentialsFrame ver username password ++ rest ->
    exists c',
      Socks.auth5 s nMethod c
      = (if accepted (Socks.config s) username password
         then Ok username else Err (rejection (Socks.config s)), c')
      /\ input c' = rest
      /\ wlog c'
         = wlog c ++ [([x05; x02], true);
                      ([x01; if accepted (Socks.config s) username password
                             then x00 else xff], true)].
Proof.
  intros s nMethod methods ver username password rest c HT Hlen Hin Hu Hp HA Hinp.
  eexists. split; [| split].
  - exact (auth5_credentials_run s nMethod methods ver username password rest c
             HT Hlen Hin Hu Hp HA Hinp).
  - reflexivity.
  - apply wlog_written2. exact HA.
Qed.


(** A BIND request after a no-auth negotiation. *)
Lemma handshake5_refuses_unserved_commands_witness :
  exists c',
    Socks.handshake5 (Samples.session AuthType_NO_AUTH) x01
      (Samples.stream [x00; x05; x02; x00; x01; x01; x02; x03; x04; x00; x50])
    = (Err (errors_New "TCP bind is not supported."), c')
    /\ input c' = [x01; x01; x02; x03; x04; x00; x50].
Proof.
  destruct (handshake5_refuses_unserved_commands
              (Samples.session AuthType_NO_AUTH) x01
              (Samples.stream [x00; x05; x02; x00; x01; x01; x02; x03; x04; x00; x50])
              (mkConn [x05; x02; x00; x01; x01; x02; x03; x04; x00; x50]
                      [([x05; x00], true)] None)
              "" x05 x02 x00 [x01; x01; x02; x03; x04; x00; x50])
    as (c' & H & Hinp & _).
  - reflexivity.
  - reflexivity.
  - reflexivity.
  - discriminate.
  - exists c'. split; [exact H | exact Hinp].
Defined.

(** A wrong password under password authentication. *)
Lemma auth5_credentials_outcome_witness :
  exists c',
    Socks.auth5 (Samples.session AuthType_PASSWORD) x01
      (Samples.stream ([x02] ++ credentialsFrame x01 "alice" "guess" ++ []))
    = (Err (errors_New "invalid username or password"), c')
    /\ input c' = []
    /\ wlog c' = [([x05; x02], true); ([x01; xff], true)].
Proof.
  apply (auth5_credentials_outcome (Samples.session AuthType_PASSWORD) x01 [x02]
           x01 "alice" "guess" []
           (Samples.stream ([x02] ++ credentialsFrame x01 "alice" "guess" ++ []))).
  - discriminate.
  - reflexivity.
  - left. reflexivity.
  - vm_compute. discriminate.
  - vm_compute. discriminate.
  - exact I.
  - reflexivity.
Defined.

(* ===================================================================== *)
(** * Further properties: version dispatch and SOCKS4 *)
(* ===================================================================== *)

(** X8. [Handshake] reads two bytes. A stream that ends before them fails
    with "insufficient header"; a version byte other than 4 and 5 fails
    with an error reporting that byte; in both cases nothing is written to
    the peer. Version 4 continues with [handshake4] and version 5 with
    [handshake5], the second byte being the command or the number of
    methods. *)
Theorem Handshake_version_dispatch :
  forall (ParseAddress : string -> Address) (s : Socks.ServerSession) (c : Conn),
    ((length (input c) < 2)%nat ->
       Socks.Handshake ParseAddress s c
       = (Err (Base (errors_New "insufficient header")
                    (match input c with
                     | [] => io_EOF
                     | _ => io_ErrUnexpectedEOF
                     end)),
          with_input c []))
    /\ (forall v b rest,
          input c = v :: b :: rest ->
          (v <> x04 -> v <> x05 ->
             Socks.Handshake ParseAddress s c
             = (Err (errors_New1 "unknown Socks version: " v), with_input c rest))
          /\ (v = x04 ->
             Socks.Handshake ParseAddress s c
             = Socks.handshake4 ParseAddress s b (with_input c rest))
          /\ (v = x05 ->
             Socks.Handshake ParseAddress s c
             = Socks.handshake5 s b (with_input c rest))).
Proof.
  intros P s c. split.
  - intros Hshort. unfold Socks.Handshake.
    erewrite bind_Err; [reflexivity |].
    apply wrap_err_Err. apply Buffer_ReadFullFrom_short; [lia |].
    unfold len. lia.
  - intros v b rest Hin.
    assert (H : Socks.Handshake P s c
                = if Byte.eqb v Socks.socks4Version
                  then Socks.handshake4 P s b (with_input c rest)
                  else if Byte.eqb v Socks.socks5Version
                       then Socks.handshake5 s b (with_input c rest)
                       else (Err (errors_New1 "unknown Socks version: " v),
                             with_input c rest)).
    { unfold Socks.Handshake.
      step (apply wrap_err_Ok; apply (read2 v b rest); exact Hin).
      cbn [Buffer_Byte nth].
      destruct (Byte.eqb v Socks.socks4Version); [reflexivity |].
      destruct (Byte.eqb v Socks.socks5Version); reflexivity. }
    rewrite H. unfold Socks.socks4Version, Socks.socks5Version.
    repeat split.
    + intros H4 H5. by rewrite (Byte_eqb_neq _ _ H4), (Byte_eqb_neq _ _ H5).
    + intros ->. reflexivity.
    + intros ->. reflexivity.
Qed.

(** An HTTP request sent to the SOCKS port. *)
Lemma Handshake_version_dispatch_witness :
  Socks.Handshake domainAddress (Samples.session AuthType_NO_AUTH)
    (Samples.stream [x47; x45; x54])
  = (Err (errors_New1 "unknown Socks version: " x47), Samples.stream [x54]).
Proof.
  apply (proj1 (proj2 (Handshake_version_dispatch domainAddress
                         (Samples.session AuthType_NO_AUTH)
                         (Samples.stream [x47; x45; x54]))
                  x47 x45 [x54] eq_refl)); discriminate.
Defined.

Lemma read6 (a1 a2 a3 a4 a5 a6 : byte) rest (c : Conn) :
  input c = a1 :: a2 :: a3 :: a4 :: a5 :: a6 :: rest ->
  Buffer_ReadFullFrom buf_New 6 c
  = (Ok [a1; a2; a3; a4; a5; a6], with_input c rest).
Proof.
  intros H. rewrite Buffer_ReadFullFrom_empty by lia.
  exact (ReadFull_prefix [a1; a2; a3; a4; a5; a6] rest c H).
Qed.

Lemma ReadUntilNull_prefix (u rest : list byte) (c : Conn) :
  Forall (fun x => x <> x00) u ->
  (len u < Size)%Z ->
  input c = u ++ x00 :: rest ->
  Socks.ReadUntilNull c = (Ok (string_of_bytes u), with_input c rest).
Proof.
  intros Hu Hlen Hin. destruct c as [inp w q]. cbn [input] in Hin. subst inp.
  by apply ReadUntilNull_found.
Qed.

Lemma ReadUntilNull_unterminated (u : list byte) (c : Conn) :
  Forall (fun x => x <> x00) u ->
  (len u < Size)%Z ->
  input c = u ->
  Socks.ReadUntilNull c = (Err io_EOF, with_input c []).
Proof.
  intros Hu Hlen Hin. destruct c as [inp w q]. cbn [input] in Hin. subst inp.
  unfold Socks.ReadUntilNull. cbn [input wlog wquota].
  rewrite ReadUntilNull_loop_eof; [reflexivity | exact Hu |].
  unfold buf_New, len in *. cbn [length]. lia.
Qed.

(** X9. A SOCKS4/4a handshake on a server that does not require
    passwords. (a) A request cut short within its first six bytes fails
    with "insufficient header", and one cut short within the user id
    fails with [io.EOF]; in both cases nothing is written. (b) When the
    first octet of the IPv4 field is zero (SOCKS4a), a second
    null-terminated string is read after the user id and the target
    address is [net.ParseAddress] of it, whatever the other three octets.
    (c) A well-formed request with a command other than CONNECT is read in
    full, answered with the rejection reply (status 91), and fails with an
    error reporting the command byte. *)
Theorem handshake4_edge_cases :
  forall (ParseAddress : string -> Address) (s : Socks.ServerSession)
         (cmd : byte) (c : Conn),
    Socks.AuthType_ (Socks.config s) <> AuthType_PASSWORD ->
    ((length (input c) < 6)%nat ->
       Socks.handshake4 ParseAddress s cmd c
       = (Err (Base (errors_New "insufficient header")
                    (match input c with
                     | [] => io_EOF
                     | _ => io_ErrUnexpectedEOF
                     end)),
          with_input c []))
    /\ (forall p1 p2 a1 a2 a3 a4 userid,
          input c = [p1; p2; a1; a2; a3; a4] ++ userid ->
          Forall (fun b => b <> x00) userid -> (len userid < Size)%Z ->
          Socks.handshake4 ParseAddress s cmd c = (Err io_EOF, with_input c []))
    /\ (forall p1 p2 a2 a3 a4 userid domain rest,
          input c = [p1; p2; x00; a2; a3; a4] ++ userid ++ x00
                    :: domain ++ x00 :: rest ->
          Forall (fun b => b <> x00) userid -> (len userid < Size)%Z ->
          Forall (fun b => b <> x00) domain -> (len domain < Size)%Z ->
          cmd = Socks.cmdTCPConnect ->
          Socks.handshake4 ParseAddress s cmd c
          = (if writer_accepts c
             then Ok {| Socks.Version := x04;
                        Socks.Command := Socks.RequestCommandTCP;
                        Socks.Address_ := ParseAddress (string_of_bytes domain);
                        Socks.Port_ := PortFromBytes [p1; p2];
                        Socks.User := None |}
             else Err (ErrPlain "write failed"),
             written (with_input c rest)
                     (socks4Reply Socks.socks4RequestGranted)))
    /\ (forall p1 p2 a1 a2 a3 a4 userid rest,
          input c = [p1; p2; a1; a2; a3; a4] ++ userid ++ x00 :: rest ->
          a1 <> x00 ->
          Forall (fun b => b <> x00) userid -> (len userid < Size)%Z ->
          cmd <> Socks.cmdTCPConnect ->
          Socks.handshake4 ParseAddress s cmd c
          = (Err (errors_New1 "unsupported command: " cmd),
             written (with_input c rest)
                     (socks4Reply Socks.socks4RequestRejected))).
Proof.
  intros P s cmd c HT.
  assert (H4 : Socks.handshake4 P s cmd c
    = (let* buffer := wrap_err "insufficient header" (Buffer_ReadFullFrom buf_New 6) in
       let prt := PortFromBytes (BytesRange buffer 0 2) in
       let ip := BytesRange buffer 2 6 in
       let* _ := Socks.ReadUntilNull in
       let* addr :=
         if Byte.eqb (nth 0 ip x00) x00 then
           let* domain :=
             wrap_err "failed to read domain for socks 4a" Socks.ReadUntilNull in
           ret (P domain)
         else ret (ipv4Address ip) in
       if Byte.eqb cmd Socks.cmdTCPConnect then
         let request :=
           {| Socks.Version := Socks.socks4Version;
              Socks.Command := Socks.RequestCommandTCP;
              Socks.Address_ := addr; Socks.Port_ := prt; Socks.User := None |} in
         let* _ := Socks.writeSocks4Response Socks.socks4RequestGranted AnyIP 0%Z in
         ret request
       else
         let* _ := ignore_err
           (Socks.writeSocks4Response Socks.socks4RequestRejected AnyIP 0%Z) in
         fail (errors_New1 "unsupported command: " cmd)) c).
  { unfold Socks.handshake4.
    destruct (Socks.AuthType_ (Socks.config s)); [reflexivity | contradiction |
                                                   reflexivity]. }
  rewrite H4. clear H4. cbv zeta. split; [| split; [| split]].
  - intros Hshort. erewrite bind_Err; [reflexivity |].
    apply wrap_err_Err. apply Buffer_ReadFullFrom_short; [lia |].
    unfold len. lia.
  - intros p1 p2 a1 a2 a3 a4 userid Hin Hu Hlen.
    step (apply wrap_err_Ok; apply (read6 p1 p2 a1 a2 a3 a4 userid); exact Hin).
    erewrite bind_Err; [reflexivity |].
    apply (ReadUntilNull_unterminated userid (with_input c userid));
      [exact Hu | exact Hlen | reflexivity].
  - intros p1 p2 a2 a3 a4 userid domain rest Hin Hu Hlen Hd Hdlen ->.
    step (apply wrap_err_Ok;
          apply (read6 p1 p2 x00 a2 a3 a4 (userid ++ x00 :: domain ++ x00 :: rest));
          exact Hin).
    step (apply (ReadUntilNull_prefix userid (domain ++ x00 :: rest)
                   (with_input c (userid ++ x00 :: domain ++ x00 :: rest)));
          [exact Hu | exact Hlen | reflexivity]).
    cbn [BytesRange skipn firstn Nat.sub nth].
    change (Byte.eqb x00 x00) with true. cbv iota.
    step (erewrite bind_Ok;
          [reflexivity |
           apply wrap_err_Ok;
           apply (ReadUntilNull_prefix domain rest
                    (with_input c (domain ++ x00 :: rest)));
           [exact Hd | exact Hdlen | reflexivity]]).
    rewrite Byte_eqb_refl. unfold bind.
    rewrite writeSocks4Response_AnyIP.
    unfold written, with_input, writer_accepts. cbn [wquota input wlog].
    destruct (wquota c) as [[|n]|]; reflexivity.
  - intros p1 p2 a1 a2 a3 a4 userid rest Hin Ha1 Hu Hlen Hcmd.
    step (apply wrap_err_Ok;
          apply (read6 p1 p2 a1 a2 a3 a4 (userid ++ x00 :: rest)); exact Hin).
    step (apply (ReadUntilNull_prefix userid rest
                   (with_input c (userid ++ x00 :: rest)));
          [exact Hu | exact Hlen | reflexivity]).
    cbn [BytesRange skipn firstn Nat.sub nth].
    rewrite (Byte_eqb_neq _ _ Ha1). step reflexivity.
    rewrite (Byte_eqb_neq _ _ Hcmd).
    unfold bind, ignore_err, fail. rewrite writeSocks4Response_AnyIP.
    destruct (writer_accepts _); reflexivity.
Qed.

(** SOCKS4a CONNECT to "a.b" port 80, and a SOCKS4 BIND. *)
Lemma handshake4_edge_cases_witness :
  Socks.handshake4 domainAddress (Samples.session AuthType_NO_AUTH) x01
    (Samples.stream ([x00; x50; x00; x00; x00; x01] ++ [x75] ++ x00
                     :: [x61; x2e; x62] ++ x00 :: []))
  = (Ok {| Socks.Version := x04; Socks.Command := Socks.RequestCommandTCP;
           Socks.Address_ := domainAddress "a.b"; Socks.Port_ := 80%Z;
           Socks.User := None |},
     mkConn [] [(socks4Reply x5a, true)] None)
  /\ Socks.handshake4 domainAddress (Samples.session AuthType_NO_AUTH) x02
       (Samples.stream ([x00; x50; x01; x02; x03; x04] ++ [x75] ++ x00 :: []))
     = (Err (errors_New1 "unsupported command: " x02),
        mkConn [] [(socks4Reply x5b, true)] None).
Proof.
  split.
  - apply (proj1 (proj2 (proj2 (handshake4_edge_cases domainAddress
                    (Samples.session AuthType_NO_AUTH) x01
                    (Samples.stream ([x00; x50; x00; x00; x00; x01] ++ [x75] ++ x00
                                     :: [x61; x2e; x62] ++ x00 :: []))
                    ltac:(discriminate))))
             x00 x50 x00 x00 x01 [x75] [x61; x2e; x62] [] eq_refl).
    + repeat constructor; discriminate.
    + vm_compute. reflexivity.
    + repeat constructor; discriminate.
    + vm_compute. reflexivity.
    + reflexivity.
  - apply (proj2 (proj2 (proj2 (handshake4_edge_cases domainAddress
                    (Samples.session AuthType_NO_AUTH) x02
                    (Samples.stream ([x00; x50; x01; x02; x03; x04] ++ [x75]
                                     ++ x00 :: []))
                    ltac:(discriminate))))
             x00 x50 x01 x02 x03 x04 [x75] [] eq_refl).
    + discriminate.
    + repeat constructor; discriminate.
    + vm_compute. reflexivity.
    + discriminate.
Defined.

(* ===================================================================== *)
(** * Further properties: dispatch *)
(* ===================================================================== *)

Section DispatchProperties.
Import Outbound.

(** The three ways [Dispatch] can go. *)
Lemma Dispatch_shape (h : Handler) (ob : SessionOutbound) (link : Link)
  (outcomes : Outcomes) :
  let link' := overrideLink ob link in
  Dispatch h ob link outcomes = out link' outcomes
  \/ (exists p m,
        Dispatch h ob link outcomes
        = PoolDispatch p m link' :: test link' (poolResult p outcomes)
        /\ Enabled m = true
        /\ match p with
           | PoolXudp => xudp h = Some m
                         /\ DNetwork (Target ob) = Network_UDP
           | PoolMux => mux h = Some m
           end)
  \/ (Dispatch h ob link outcomes = test link' (Some (AtInfo (errors_New "XUDP rejected UDP/443 traffic")))
      /\ mux h <> None /\ is_udp443 ob = true /\ udp443 h = "reject").
Proof.
  intros link'. unfold Dispatch. fold link'.
  assert (Hsel : forall m, mux h = Some m ->
    selectPool h m ob link' outcomes = out link' outcomes
    \/ exists p m0,
         selectPool h m ob link' outcomes
         = PoolDispatch p m0 link' :: test link' (poolResult p outcomes)
         /\ Enabled m0 = true
         /\ match p with
            | PoolXudp => xudp h = Some m0
                          /\ DNetwork (Target ob) = Network_UDP
            | PoolMux => mux h = Some m0
            end).
  { intros m Hm. unfold selectPool.
    assert (Hvia :
      (if Enabled m
       then PoolDispatch PoolMux m link' :: test link' (mux_Dispatch outcomes)
       else out link' outcomes) = out link' outcomes
      \/ exists p m0,
           (if Enabled m
            then PoolDispatch PoolMux m link' :: test link' (mux_Dispatch outcomes)
            else out link' outcomes)
           = PoolDispatch p m0 link' :: test link' (poolResult p outcomes)
           /\ Enabled m0 = true
           /\ match p with
              | PoolXudp => xudp h = Some m0
                            /\ DNetwork (Target ob) = Network_UDP
              | PoolMux => mux h = Some m0
              end).
    { destruct (Enabled m) eqn:E; [right | left; reflexivity].
      exists PoolMux, m. auto. }
    destruct (xudp h) as [x|] eqn:Hx; [| exact Hvia].
    case_bool_decide as Hudp; [| exact Hvia].
    destruct (Enabled x) eqn:E; cbn [negb]; [right | left; reflexivity].
    exists PoolXudp, x. auto. }
  destruct (mux h) as [m|] eqn:Hm; [| left; reflexivity].
  fold (is_udp443 ob). destruct (is_udp443 ob) eqn:H443.
  - destruct (String.eqb_spec (udp443 h) "reject") as [Hr | _].
    + right. right. repeat split; [discriminate | exact Hr].
    + destruct (String.eqb (udp443 h) "skip"); [left; reflexivity |].
      destruct (Hsel m eq_refl) as [H | H]; [left | right; left]; exact H.
  - destruct (Hsel m eq_refl) as [H | H]; [left | right; left]; exact H.
Qed.

Lemma test_filter_pool link err : List.filter is_pool_event (test link err) = [].
Proof. destruct err; reflexivity. Qed.

Lemma test_filter_process link err : List.filter is_process (test link err) = [].
Proof. destruct err; reflexivity. Qed.

Lemma out_filter_pool link outcomes :
  List.filter is_pool_event (out link outcomes) = [].
Proof.
  rewrite out_cases. destruct (proxy_Process outcomes) as [e|];
    [destruct (benign e) |]; reflexivity.
Qed.

Lemma out_filter_process link outcomes :
  List.filter is_process (out link outcomes) = [ProxyProcess link].
Proof.
  rewrite out_cases. destruct (proxy_Process outcomes) as [e|];
    [destruct (benign e) |]; reflexivity.
Qed.

(** X10. Whatever the handler, the flow and its collaborators do, one
    [Dispatch] hands the link either to one pool or to the proxy's
    [Process], never to both and never twice, or (UDP/443 with policy
    "reject" on a handler with mux) to neither. A pool that is invoked is
    one of the handler's own, is enabled, and gets the link as
    [Dispatch] wrapped it; the xudp pool is only ever invoked for a UDP
    flow. *)
Theorem Dispatch_one_path :
  forall (h : Handler) (ob : SessionOutbound) (link : Link) (outcomes : Outcomes),
    let t := Dispatch h ob link outcomes in
    (length (List.filter is_pool_event t)
     + length (List.filter is_process t) <= 1)%nat
    /\ (length (List.filter is_pool_event t)
        + length (List.filter is_process t) = 0%nat
        <-> mux h <> None /\ is_udp443 ob = true /\ udp443 h = "reject")
    /\ (forall p m l,
          In (PoolDispatch p m l) t ->
          Enabled m = true
          /\ l = overrideLink ob link
          /\ match p with
             | PoolXudp => xudp h = Some m
                           /\ DNetwork (Target ob) = Network_UDP
             | PoolMux => mux h = Some m
             end).
Proof.
  intros h ob link outcomes t. subst t.
  destruct (Dispatch_shape h ob link outcomes)
    as [H | [(p & m & H & HE & Hp) | (H & Hm & H443 & Hr)]].
  - rewrite H, out_filter_pool, out_filter_process. cbn [length Nat.add].
    split; [lia |]. split.
    + split; [discriminate |]. intros (Hm & H443 & Hr).
      exfalso. revert H. unfold Dispatch.
      destruct (mux h) as [m|]; [| contradiction].
      fold (is_udp443 ob). rewrite H443, Hr. cbn [String.eqb Ascii.eqb Bool.eqb].
      rewrite out_cases. destruct (proxy_Process outcomes) as [e|];
        [destruct (benign e) |]; discriminate.
    + intros p m l Hin. exfalso. rewrite out_cases in Hin.
      destruct (proxy_Process outcomes) as [e|]; [destruct (benign e) |];
        cbn in Hin; intuition discriminate.
  - rewrite H. cbn [List.filter is_pool_event is_process length].
    rewrite test_filter_pool, test_filter_process. cbn [length Nat.add].
    split; [lia |]. split.
    + split; [discriminate |]. intros (Hm & H443 & Hr).
      exfalso. revert H. unfold Dispatch.
      destruct (mux h) as [m0|]; [| contradiction].
      fold (is_udp443 ob). rewrite H443, Hr. cbn [String.eqb Ascii.eqb Bool.eqb].
      discriminate.
    + intros p0 m0 l [Heq | Hin].
      * injection Heq as <- <- <-. auto.
      * exfalso. destruct (poolResult p outcomes); cbn in Hin;
          intuition discriminate.
  - rewrite H. cbn. split; [lia |]. split; [tauto |].
    intros p m l Hin. exfalso. intuition discriminate.
Qed.

(** X11. When [Dispatch] hands the link to a pool, that is all it does if
    the pool returns no error: it leaves both ends of the link to the
    pool. If the pool returns an error, [Dispatch] reports the wrapped
    error to the originator once, logs it and calls [Interrupt] on the
    writer of the link as [Dispatch] wrapped it. On this path it never
    calls [Close], and the writer is the only thing it calls [Interrupt]
    on. The call ends the writer of the link unless the link was wrapped
    in endpoint-override adapters: then it reaches the adapter and ends
    nothing. No other end of the link is ended on this path. *)
Theorem Dispatch_pool_path :
  forall (h : Handler) (ob : SessionOutbound) (link : Link) (outcomes : Outcomes)
         (p : Pool) (m : ClientManager) (l : Link),
    In (PoolDispatch p m l) (Dispatch h ob link outcomes) ->
    let t := Dispatch h ob link outcomes in
    l = overrideLink ob link
    /\ t = PoolDispatch p m l ::
           match poolResult p outcomes with
           | None => []
           | Some e =>
               let err :=
                 Base (errors_New "failed to process mux outbound traffic") e in
               [SubmitOutboundErrorToOriginator err; LogInfo err;
                Interrupt (Writer l)]
           end
    /\ (forall x, ~ In (Close x) t)
    /\ (forall x, In (Interrupt x) t ->
          x = Writer l /\ poolResult p outcomes <> None)
    /\ ended_by t
       = match poolResult p outcomes with
         | Some _ => if overridden ob then [] else end_of (Writer link)
         | None => []
         end.
Proof.
  intros h ob link outcomes p m l Hin t. subst t.
  destruct (Dispatch_shape h ob link outcomes)
    as [H | [(p0 & m0 & H & HE & Hp) | (H & _)]]; rewrite H in Hin |- *.
  - exfalso. rewrite out_cases in Hin.
    destruct (proxy_Process outcomes) as [e|]; [destruct (benign e) |];
      cbn in Hin; intuition discriminate.
  - assert (Heq : p0 = p /\ m0 = m /\ overrideLink ob link = l).
    { destruct Hin as [Heq | Hin]; [by injection Heq as -> -> -> |].
      exfalso. destruct (poolResult p0 outcomes); cbn in Hin;
        intuition discriminate. }
    destruct Heq as (-> & -> & Hl).
    pose proof (proj1 (end_of_overrideLink ob link)) as HW. rewrite Hl in *.
    split; [reflexivity |].
    destruct (poolResult p outcomes) as [e|] eqn:Hres; cbn [test].
    + split; [reflexivity |]. split; [| split].
      * intros x Hx. cbn in Hx. intuition discriminate.
      * intros x [Hx | [Hx | [Hx | [Hx | []]]]]; try discriminate.
        injection Hx as <-. split; [reflexivity | discriminate].
      * unfold ended_by. cbn [flat_map ended app]. rewrite app_nil_r. exact HW.
    + split; [reflexivity |]. split; [| split].
      * intros x Hx. cbn in Hx. intuition discriminate.
      * intros x Hx. exfalso. cbn in Hx. intuition discriminate.
      * reflexivity.
  - exfalso. cbn in Hin. intuition discriminate.
Qed.

(** A mux pool that fails on a translated flow: four events, none of
    which ends an end of the link. *)
Lemma Dispatch_pool_path_witness :
  let h := OutboundSamples.handler (Some OutboundSamples.pool) "" in
  let o := {| xudp_Dispatch := None; mux_Dispatch := Some io_ErrUnexpectedEOF;
              proxy_Process := None |} in
  let l := overrideLink OutboundSamples.translated OutboundSamples.link in
  let t := Dispatch h OutboundSamples.translated OutboundSamples.link o in
  In (PoolDispatch PoolMux OutboundSamples.pool l) t
  /\ length t = 4%nat
  /\ (forall x, ~ In (Close x) t)
  /\ ended_by t = [].
Proof.
  intros h o l t.
  assert (Hin : In (PoolDispatch PoolMux OutboundSamples.pool l) t)
    by (left; reflexivity).
  split; [exact Hin |].
  destruct (Dispatch_pool_path h OutboundSamples.translated OutboundSamples.link o
              PoolMux OutboundSamples.pool l Hin)
    as (_ & Ht & Hclose & _ & He).
  split; [| split; [exact Hclose | exact He]].
  fold t in Ht. rewrite Ht. reflexivity.
Defined.

End DispatchProperties.

(* ===================================================================== *)
(** * Further properties: from the configuration to the dispatch *)
(* ===================================================================== *)

Section ConfiguredDispatch.
Import Outbound.






End ConfiguredDispatch.

(* ===================================================================== *)
(** * Further properties: UDP packets *)
(* ===================================================================== *)

(** X14. [DecodeUDPPacket] on a packet of any length. A packet shorter
    than 5 bytes, or one whose third byte (the fragment number) is not 0,
    is refused and left as it was. Otherwise the two reserved bytes are
    ignored, whatever they are: a packet made of them, a zero fragment
    byte, an address, a port and a payload decodes to a UDP request of
    version 5 for that address and port without user, and the packet is
    left holding exactly the payload, however long it is. An address of
    an unknown type is reported with the type byte. *)
Theorem DecodeUDPPacket_outcomes :
  (forall packet : Buffer,
     (len packet < 5)%Z ->
     Socks.DecodeUDPPacket packet
     = (Err (errors_New "insufficient length of packet."), packet))
  /\ (forall packet : Buffer,
        (5 <= len packet)%Z -> Buffer_Byte packet 2 <> x00 ->
        Socks.DecodeUDPPacket packet
        = (Err (errors_New "discarding fragmented payload."), packet))
  /\ (forall (r0 r1 : byte) (a : Address) (p : Port) (payload : list byte),
        Address_wf a -> Port_wf p ->
        Socks.DecodeUDPPacket
          ([r0; r1; x00] ++ address_bytes a ++ PutUint16 p ++ payload)
        = (Ok {| Socks.Version := x05; Socks.Command := Socks.RequestCommandUDP;
                 Socks.Address_ := a; Socks.Port_ := p; Socks.User := None |},
           payload))
  /\ (forall (r0 r1 ty b : byte) (rest : list byte),
        ty <> x01 -> ty <> x03 -> ty <> x04 ->
        fst (Socks.DecodeUDPPacket (r0 :: r1 :: x00 :: ty :: b :: rest))
        = Err (Base (errors_New "failed to read UDP header")
                    (errors_New1 "unknown address type: " ty))).
Proof.
  split; [| split; [| split]].
  - intros packet H. unfold Socks.DecodeUDPPacket.
    by rewrite (proj2 (Z.ltb_lt _ _) H).
  - intros packet H Hf. unfold Socks.DecodeUDPPacket.
    rewrite (proj2 (Z.ltb_ge _ _) H).
    by rewrite (Byte_eqb_neq _ _ Hf).
  - intros r0 r1 a p payload Hwf Hp. unfold Socks.DecodeUDPPacket.
    destruct (wire_len_bound a Hwf) as [Hl Hb].
    pose proof (len_nonneg payload) as Hpl.
    assert (Hput : len (PutUint16 p) = 2%Z) by reflexivity.
    assert (Hlen : (5 <= len ([r0; r1; x00] ++ address_bytes a
                              ++ PutUint16 p ++ payload))%Z).
    { rewrite !len_app. change (len [r0; r1; x00]) with 3%Z. lia. }
    rewrite (proj2 (Z.ltb_ge _ _) Hlen).
    cbn [app Buffer_Byte nth skipn]. rewrite Byte_eqb_refl. cbn [negb].
    rewrite (wrap_err_Ok _ _ _ _ _
               (ReadAddressPort_encode a p (address_bytes a) payload [] None
                  Hwf Hp (address_bytes_wf a Hwf))).
    reflexivity.
  - intros r0 r1 ty b rest H1 H3 H4. unfold Socks.DecodeUDPPacket.
    assert (Hlen : (5 <= len (r0 :: r1 :: x00 :: ty :: b :: rest))%Z).
    { unfold len. cbn [length]. lia. }
    rewrite (proj2 (Z.ltb_ge _ _) Hlen).
    cbn [Buffer_Byte nth skipn]. rewrite Byte_eqb_refl. cbn [negb].
    unfold wrap_err, ReadAddressPort, readAddress, bind, ReadFull.
    cbn [input length Nat.leb firstn skipn nth wlog wquota].
    rewrite (Byte_eqb_neq _ _ H1), (Byte_eqb_neq _ _ H4), (Byte_eqb_neq _ _ H3).
    reflexivity.
Qed.

(* ===================================================================== *)
(** * Further properties: the client role and the two roles together *)
(* ===================================================================== *)

Lemma WriteAllBytes_cons (k : nat) (x : byte) (data : list byte) (c : Conn) :
  accepts (S k) c ->
  WriteAllBytes (x :: data) c = (Ok tt, written c (x :: data)).
Proof. intros H. exact (proj1 (Write_accepts k (x :: data) c H)). Qed.

(** The password sub-negotiation of [ClientHandshake], accepted by the
    server. *)
Lemma client_credentials_sent (user : Socks.MemoryUser) (account : Socks.Account)
  (a : byte) rest (k : nat) (c : Conn) :
  Socks.Account_ user = Some account ->
  (3 + len (bytes_of_string (Socks.Username account))
   + len (bytes_of_string (Socks.Password account)) <= Size)%Z ->
  accepts (S k) c ->
  input c = a :: x00 :: rest ->
  (let* account :=
     lift (match Some user with
           | Some {| Socks.Account_ := Some a |} => Ok a
           | _ => Panic "interface conversion: not *socks.Account"
           end) in
   let* b := lift (Must (Buffer_WriteByte buf_New x01)) in
   let* b := lift (Must (Buffer_WriteByte b
                (byte_of_Z (len (bytes_of_string (Socks.Username account)))))) in
   let b := Buffer_Write b (bytes_of_string (Socks.Username account)) in
   let* b := lift (Must (Buffer_WriteByte b
                (byte_of_Z (len (bytes_of_string (Socks.Password account)))))) in
   let b := Buffer_Write b (bytes_of_string (Socks.Password account)) in
   let* _ := WriteAllBytes b in
   let* b := Buffer_ReadFullFrom buf_New 2 in
   if negb (Byte.eqb (Buffer_Byte b 1) x00) then
     fail (errors_New1 "server rejects account: " (Buffer_Byte b 1))
   else ret tt) c
  = (Ok tt,
     with_input
       (written c (credentialsFrame x01 (Socks.Username account)
                                    (Socks.Password account)))
       rest).
Proof.
  intros Hacc Hfit HA Hin. destruct user as [email acc].
  cbn [Socks.Account_] in Hacc. subst acc.
  unfold credentialsFrame.
  set (ub := bytes_of_string (Socks.Username account)) in *.
  set (pb := bytes_of_string (Socks.Password account)) in *.
  pose proof (len_nonneg ub). pose proof (len_nonneg pb).
  step reflexivity. step reflexivity. step reflexivity.
  fold ub pb. cbv zeta.
  rewrite (Buffer_Write_fits _ ub) by fits.
  rewrite Buffer_WriteByte_Ok by fits. cbn [Must].
  step reflexivity.
  rewrite (Buffer_Write_fits _ pb) by fits_app.
  change (buf_New ++ [x01]) with [x01]. cbn [app].
  step (exact (WriteAllBytes_cons k _ _ c HA)).
  step (apply (read2 a x00 rest); exact Hin).
  cbn [Buffer_Byte nth]. rewrite Byte_eqb_refl. cbn [negb].
  unfold ret. f_equal. f_equal. f_equal. by rewrite <- !app_assoc.
Qed.

(** The request phase of [ClientHandshake], granted by the server. *)
Lemma client_request_served (request : Socks.RequestHeader) (v rsv : byte)
  (bnd : Address) (bport : Port) rest (k : nat) (c : Conn) :
  Socks.Command request = Socks.RequestCommandUDP
  \/ Address_wf (Socks.Address_ request) ->
  Address_wf bnd -> Port_wf bport ->
  accepts (S k) c ->
  input c = [v; x00; rsv] ++ address_bytes bnd ++ PutUint16 bport ++ rest ->
  (let command :=
     match Socks.Command request with
     | Socks.RequestCommandUDP => Socks.cmdUDPAssociate
     | Socks.RequestCommandTCP => Socks.cmdTCPConnect
     end in
   let b := Buffer_Write buf_New [Socks.socks5Version; command; x00] in
   let* b :=
     match Socks.Command request with
     | Socks.RequestCommandUDP =>
         ret (Buffer_Write b [x01; x00; x00; x00; x00; x00; x00])
     | Socks.RequestCommandTCP =>
         lift (WriteAddressPort b (Socks.Address_ request) (Socks.Port_ request))
     end in
   let* _ := WriteAllBytes b in
   let* b := Buffer_ReadFullFrom buf_New 3 in
   let resp := Buffer_Byte b 1 in
   if negb (Byte.eqb resp x00) then
     fail (errors_New1 "server rejects request: " resp)
   else
     let* '(addr, prt) := ReadAddressPort in
     match Socks.Command request with
     | Socks.RequestCommandUDP =>
         ret (Some {| Socks.Version := Socks.socks5Version;
                      Socks.Command := Socks.RequestCommandUDP;
                      Socks.Address_ := addr; Socks.Port_ := prt;
                      Socks.User := None |})
     | Socks.RequestCommandTCP => ret None
     end) c
  = (Ok (clientResult request bnd bport),
     with_input (written c (clientRequestFrame request)) rest).
Proof.
  intros Hwf Hb Hbp HA Hin. cbv zeta.
  unfold clientResult, clientRequestFrame.
  destruct (Socks.Command request) eqn:HC.
  - destruct Hwf as [Hwf | Hwf]; [discriminate |].
    destruct (wire_len_bound _ Hwf) as [Hl Hbd].
    rewrite (Buffer_Write_fits buf_New) by fits.
    rewrite WriteAddressPort_fits by (try exact Hwf; fits_app).
    step reflexivity.
    step (exact (WriteAllBytes_cons k _ _ c HA)).
    step (apply (read3 v x00 rsv (address_bytes bnd ++ PutUint16 bport ++ rest));
          exact Hin).
    cbn [Buffer_Byte nth]. rewrite Byte_eqb_refl. cbn [negb].
    step (apply (ReadAddressPort_prefix bnd bport rest); [exact Hb | exact Hbp |];
          reflexivity).
    reflexivity.
  - rewrite (Buffer_Write_fits buf_New) by fits.
    rewrite Buffer_Write_fits by fits_app.
    step reflexivity.
    step (exact (WriteAllBytes_cons k _ _ c HA)).
    step (apply (read3 v x00 rsv (address_bytes bnd ++ PutUint16 bport ++ rest));
          exact Hin).
    cbn [Buffer_Byte nth]. rewrite Byte_eqb_refl. cbn [negb].
    step (apply (ReadAddressPort_prefix bnd bport rest); [exact Hb | exact Hbp |];
          reflexivity).
    reflexivity.
Qed.

(** A complete run of [ClientHandshake] against a server that accepts
    the method, the credentials and the request. *)
Lemma ClientHandshake_run (request : Socks.RequestHeader) (c : Conn)
  (a v rsv : byte) (bnd : Address) (bport : Port) (rest : list byte) :
  credentials_fit request ->
  Socks.Command request = Socks.RequestCommandUDP
  \/ Address_wf (Socks.Address_ request) ->
  Address_wf bnd -> Port_wf bport ->
  accepts (client_writes request) c ->
  input c = [x05; Socks.clientAuthByte request]
            ++ match Socks.User request with
               | Some _ => [a; x00]
               | None => []
               end
            ++ [v; x00; rsv] ++ address_bytes bnd ++ PutUint16 bport ++ rest ->
  exists c',
    Socks.ClientHandshake request c = (Ok (clientResult request bnd bport), c')
    /\ input c' = rest
    /\ wlog c' = wlog c ++ map (fun d => (d, true)) (clientFrames request).
Proof.
  intros Hcred Hwf Hb Hbp HA Hin.
  unfold Socks.ClientHandshake. cbv zeta.
  unfold clientFrames, clientCredentials, credentials_fit, client_writes,
    Socks.clientAuthByte in *.
  destruct (Socks.User request) as [user|] eqn:HU.
  - destruct Hcred as (account & Hacc & Hfit). cbn [app] in Hin.
    pose proof (client_offer request x05 x02
                  (a :: x00 :: [v; x00; rsv] ++ address_bytes bnd
                   ++ PutUint16 bport ++ rest) c) as Hoff.
    unfold Socks.clientAuthByte in Hoff. rewrite HU in Hoff.
    rewrite (Hoff _ (accepts_S _ _ (accepts_S _ _ HA)) Hin). clear Hoff.
    cbn [Buffer_Byte nth].
    change Socks.socks5Version with x05. change Socks.authPassword with x02.
    rewrite !Byte_eqb_refl. cbn [negb].
    set (c1 := written (with_input c _) [x05; x01; x02]).
    assert (HA1 : accepts 2 c1) by (apply accepts_written; exact HA).
    step (exact (client_credentials_sent user account a
                   ([v; x00; rsv] ++ address_bytes bnd ++ PutUint16 bport ++ rest)
                   1 c1 Hacc Hfit HA1 eq_refl)).
    set (c2 := with_input (written c1 _) _).
    assert (HA2 : accepts 1 c2) by (apply (accepts_written 1 c1); exact HA1).
    eexists. split; [| split].
    + exact (client_request_served request v rsv bnd bport rest 0 c2
               Hwf Hb Hbp HA2 eq_refl).
    + reflexivity.
    + destruct user as [email acc]. cbn [Socks.Account_] in Hacc. subst acc.
      subst c2 c1. unfold written, with_input, writer_accepts, accepts in *.
      cbn [wlog wquota input map app] in *.
      destruct (wquota c) as [[|[|[|n]]]|]; try lia;
        rewrite <- !app_assoc; reflexivity.
  - cbn [app] in Hin.
    pose proof (client_offer request x05 x00
                  ([v; x00; rsv] ++ address_bytes bnd
                   ++ PutUint16 bport ++ rest) c) as Hoff.
    unfold Socks.clientAuthByte in Hoff. rewrite HU in Hoff.
    rewrite (Hoff _ (accepts_S _ _ HA) Hin). clear Hoff.
    cbn [Buffer_Byte nth].
    change Socks.socks5Version with x05.
    change Socks.authNotRequired with x00.
    rewrite !Byte_eqb_refl. cbn [negb].
    change (Byte.eqb x00 Socks.authPassword) with false.
    step reflexivity.
    set (c1 := written (with_input c _) [x05; x01; x00]).
    assert (HA1 : accepts 1 c1) by (apply accepts_written; exact HA).
    eexists. split; [| split].
    + exact (client_request_served request v rsv bnd bport rest 0 c1
               Hwf Hb Hbp HA1 eq_refl).
    + reflexivity.
    + subst c1. unfold written, with_input, writer_accepts, accepts in *.
      cbn [wlog wquota input map app] in *.
      destruct (wquota c) as [[|[|n]]|]; try lia;
        rewrite <- !app_assoc; reflexivity.
Qed.

(** X15. Take a request whose user, if it has one, carries an account
    whose username and password fit the buffer together with their three
    framing bytes, and whose target, for a TCP request, can be encoded
    (an IP address, or a domain of at most 255 bytes), and a writer that
    accepts the client's writes. The client-role handshake succeeds when
    the server's replies are the offered method, a zero status for the
    credentials if the request has a user, and a zero status for the
    request followed by a bound address and port (an IP address or a
    domain of at most 255 bytes, a port of 16 bits). The version bytes of
    the last two replies and the reserved byte are not checked. For a TCP
    request the client returns no header; for a UDP request it returns a
    UDP header of version 5 for the server's bound address and port. What
    follows the bound port is left unread. The client has written, in
    this order, the method offer, the credentials frame if any, and the
    request frame, which for a UDP request names the null address and
    port 0 instead of the request's target. *)
Theorem ClientHandshake_succeeds :
  forall (request : Socks.RequestHeader) (c : Conn)
         (a v rsv : byte) (bnd : Address) (bport : Port) (rest : list byte),
    credentials_fit request ->
    Socks.Command request = Socks.RequestCommandUDP
    \/ Address_wf (Socks.Address_ request) ->
    Address_wf bnd -> Port_wf bport ->
    accepts (client_writes request) c ->
    input c = [x05; Socks.clientAuthByte request]
              ++ match Socks.User request with
                 | Some _ => [a; x00]
                 | None => []
                 end
              ++ [v; x00; rsv] ++ address_bytes bnd ++ PutUint16 bport ++ rest ->
    exists c',
      Socks.ClientHandshake request c
      = (Ok match Socks.Command request with
            | Socks.RequestCommandUDP =>
                Some {| Socks.Version := x05;
                        Socks.Command := Socks.RequestCommandUDP;
                        Socks.Address_ := bnd; Socks.Port_ := bport;
                        Socks.User := None |}
            | Socks.RequestCommandTCP => None
            end, c')
      /\ input c' = rest
      /\ wlog c' = wlog c ++ map (fun d => (d, true)) (clientFrames request)
      /\ (Socks.Command request = Socks.RequestCommandUDP ->
          List.last (clientFrames request) []
          = [x05; x03; x00; x01; x00; x00; x00; x00; x00; x00]).
Proof.
  intros request c a v rsv bnd bport rest Hcred Hwf Hb Hbp HA Hin.
  destruct (ClientHandshake_run request c a v rsv bnd bport rest
              Hcred Hwf Hb Hbp HA Hin) as (c' & H & Hi & Hw).
  exists c'. split; [exact H |]. split; [exact Hi |]. split; [exact Hw |].
  intros HC. unfold clientFrames. 
  rewrite app_comm_cons, List.last_last. unfold clientRequestFrame. rewrite HC.
  reflexivity.
Qed.

(** A UDP association for "alice". *)
Lemma ClientHandshake_succeeds_witness :
  exists c',
    Socks.ClientHandshake
      {| Socks.Version := x05; Socks.Command := Socks.RequestCommandUDP;
         Socks.Address_ := Samples.ip1234; Socks.Port_ := 80%Z;
         Socks.User := Socks.User ClientSamples.alice |}
      (Samples.stream [x05; x02; x01; x00; x05; x00; x00;
                       x01; x7f; x00; x00; x01; x04; x38])
    = (Ok (Some {| Socks.Version := x05; Socks.Command := Socks.RequestCommandUDP;
                   Socks.Address_ := ipv4Address [x7f; x00; x00; x01];
                   Socks.Port_ := 1080%Z; Socks.User := None |}), c')
    /\ input c' = []
    /\ map fst (wlog c')
       = [[x05; x01; x02];
          [x01; x05; x61; x6c; x69; x63; x65; x06; x73; x65; x63; x72; x65; x74];
          [x05; x03; x00; x01; x00; x00; x00; x00; x00; x00]].
Proof.
  destruct (ClientHandshake_succeeds
              {| Socks.Version := x05; Socks.Command := Socks.RequestCommandUDP;
                 Socks.Address_ := Samples.ip1234; Socks.Port_ := 80%Z;
                 Socks.User := Socks.User ClientSamples.alice |}
              (Samples.stream [x05; x02; x01; x00; x05; x00; x00;
                               x01; x7f; x00; x00; x01; x04; x38])
              x01 x05 x00 (ipv4Address [x7f; x00; x00; x01]) 1080%Z [])
    as (c' & H & Hi & Hw & _).
  - eexists. split; [reflexivity |]. vm_compute. discriminate.
  - left. reflexivity.
  - reflexivity.
  - unfold Port_wf. lia.
  - exact I.
  - reflexivity.
  - exists c'. split; [exact H |]. split; [exact Hi |].
    rewrite Hw. reflexivity.
Defined.

Lemma Handshake_v5 (ParseAddress : string -> Address) (s : Socks.ServerSession)
  (b : byte) (rest : list byte) (c : Conn) :
  input c = x05 :: b :: rest ->
  Socks.Handshake ParseAddress s c = Socks.handshake5 s b (with_input c rest).
Proof.
  intros Hin. unfold Socks.Handshake.
  step (apply wrap_err_Ok; apply (read2 x05 b rest); exact Hin).
  reflexivity.
Qed.

(** X16. The two roles agree. Take a server session and a client request
    such that: the server's configuration admits the request (neither
    side uses authentication, or the server uses password or key
    authentication and accepts the account of the request's user); the
    username and the password of that account have at most 255 bytes
    each; the server has UDP enabled if the request is a UDP request; the
    target of a TCP request is an IP address or a domain of at most 255
    bytes, with a port of 16 bits; and so are the address and the port
    the server announces in its reply. Run the server's [Handshake] on
    the bytes [ClientHandshake] writes, and [ClientHandshake] on the
    bytes that server run writes: both succeed and neither leaves a byte
    unread. The server obtains version 5, the client's command, the
    client's target for a TCP request (the null address and port 0 for a
    UDP request), and the client's username as user unless it is empty;
    the client obtains, for a UDP request, the relay address the server
    announced. *)
Theorem client_and_server_handshakes_agree :
  forall (ParseAddress : string -> Address) (s : Socks.ServerSession)
         (request : Socks.RequestHeader),
    admits (Socks.config s) request ->
    sendable_credentials request ->
    (Socks.Command request = Socks.RequestCommandUDP ->
     Socks.UdpEnabled (Socks.config s) = true) ->
    (Socks.Command request = Socks.RequestCommandTCP ->
     Address_wf (Socks.Address_ request) /\ Port_wf (Socks.Port_ request)) ->
    Address_wf (responseAddress s (Socks.Command request)) ->
    Port_wf (Socks.port s) ->
    exists cs cc,
      Socks.Handshake ParseAddress s
        (Samples.stream (concat (clientFrames request)))
      = (Ok {| Socks.Version := x05; Socks.Command := Socks.Command request;
               Socks.Address_ := fst (requestedTarget request);
               Socks.Port_ := snd (requestedTarget request);
               Socks.User := identity (presentedUsername request) |}, cs)
      /\ input cs = [] /\ all_received cs
      /\ Socks.ClientHandshake request
           (Samples.stream (concat (map fst (wlog cs))))
         = (Ok (clientResult request
                  (responseAddress s (Socks.Command request)) (Socks.port s)), cc)
      /\ input cc = [] /\ all_received cc
      /\ map fst (wlog cc) = clientFrames request.
Proof.
  intros P s request Hadm Hcred Hudp Htcp Hrwf Hsp.
  assert (Hfit : credentials_fit request).
  { unfold credentials_fit, sendable_credentials in *.
    destruct (Socks.User request) as [user|]; [| exact I].
    destruct Hcred as (account & Hacc & Hu & Hpw). exists account.
    split; [exact Hacc |]. unfold Size. lia. }
  assert (Hwf : Socks.Command request = Socks.RequestCommandUDP
                \/ Address_wf (Socks.Address_ request)).
  { destruct (Socks.Command request); [right; by apply Htcp | by left]. }
  set (cmd := match Socks.Command request with
              | Socks.RequestCommandUDP => Socks.cmdUDPAssociate
              | Socks.RequestCommandTCP => Socks.cmdTCPConnect
              end).
  assert (Hframe : clientRequestFrame request
                   = [x05; cmd; x00] ++ address_bytes (fst (requestedTarget request))
                     ++ PutUint16 (snd (requestedTarget request)) ++ []).
  { unfold clientRequestFrame, requestedTarget, cmd, socks5Request.
    rewrite app_nil_r. destruct (Socks.Command request); reflexivity. }
  assert (Htwf : Address_wf (fst (requestedTarget request))
                 /\ Port_wf (snd (requestedTarget request))).
  { unfold requestedTarget. destruct (Socks.Command request); cbn [fst snd].
    - by apply Htcp.
    - split; [reflexivity | unfold Port_wf; lia]. }
  destruct Htwf as [Htwf Htp].
  assert (Hcmd : match Socks.Command request with
                 | Socks.RequestCommandTCP => is_connect_command cmd = true
                 | Socks.RequestCommandUDP =>
                     cmd = Socks.cmdUDPAssociate
                     /\ Socks.UdpEnabled (Socks.config s) = true
                 end).
  { unfold cmd. destruct (Socks.Command request); [reflexivity |].
    split; [reflexivity | by apply Hudp]. }
  assert (Hclient : forall (replies : list byte) (a : byte),
    replies = [x05; Socks.clientAuthByte request]
              ++ match Socks.User request with
                 | Some _ => [a; x00]
                 | None => []
                 end
              ++ [x05; x00; x00]
              ++ address_bytes (responseAddress s (Socks.Command request))
              ++ PutUint16 (Socks.port s) ++ [] ->
    exists cc,
      Socks.ClientHandshake request (Samples.stream replies)
      = (Ok (clientResult request
               (responseAddress s (Socks.Command request)) (Socks.port s)), cc)
      /\ input cc = [] /\ all_received cc
      /\ map fst (wlog cc) = clientFrames request).
  { intros replies a ->.
    destruct (ClientHandshake_run request (Samples.stream _) a x05 x00
                (responseAddress s (Socks.Command request)) (Socks.port s) []
                Hfit Hwf Hrwf Hsp I eq_refl)
      as (cc & H & Hi & Hw).
    exists cc. split; [exact H |]. split; [exact Hi |].
    unfold all_received. rewrite Hw. cbn [Samples.stream wlog app]. split.
    - apply List.Forall_forall. intros w Hw'. apply in_map_iff in Hw'.
      by destruct Hw' as (d & <- & _).
    - rewrite map_map. cbn [fst]. apply map_id. }
  unfold admits, presentedUsername in *.
  unfold clientFrames at 1. unfold clientCredentials, sendable_credentials,
    Socks.clientAuthByte in *.
  destruct (Socks.User request) as [user|] eqn:HU.
  - destruct Hadm as (HT & account & Hacc & Hok).
    destruct Hcred as (account' & Hacc' & Hu & Hpw).
    assert (account' = account) by congruence. subst account'.
    destruct user as [email acc]. cbn [Socks.Account_] in Hacc. subst acc.
    cbn [concat app]. rewrite app_nil_r, Hframe.
    set (creds := credentialsFrame x01 (Socks.Username account)
                                   (Socks.Password account)).
    set (frame := [x05; cmd; x00] ++ _).
    set (c0 := Samples.stream _).
    rewrite (Handshake_v5 P s x01 ([x02] ++ creds ++ frame) c0 eq_refl).
    pose proof (auth5_credentials_run s x01 [x02] x01 (Socks.Username account)
                  (Socks.Password account) frame
                  (with_input c0 ([x02] ++ creds ++ frame))
                  HT eq_refl (or_introl eq_refl) Hu Hpw I eq_refl) as Hauth.
    rewrite Hok in Hauth.
    eexists. 
    pose proof (handshake5_request_served s x01 _ _ (Socks.Username account)
                  x05 cmd x00 (fst (requestedTarget request))
                  (snd (requestedTarget request)) [] (Socks.Command request)
                  Hauth eq_refl I Htwf Htp Hrwf Hcmd) as Hserved.
    destruct (Hclient
                ([x05; x02] ++ [x01; x00] ++ [x05; x00; x00]
                 ++ address_bytes (responseAddress s (Socks.Command request))
                 ++ PutUint16 (Socks.port s) ++ []) x01 eq_refl)
      as (cc & Hc & Hci & Hcr & Hcw).
    exists cc. split; [exact Hserved |]. split; [reflexivity |].
    split; [| split; [| split; [exact Hci | split; [exact Hcr | exact Hcw]]]].
    + unfold all_received. cbn. repeat constructor.
    + cbn [written with_input wlog c0 Samples.stream map fst concat app input
             writer_accepts wquota].
      unfold socks5Reply. cbn [app]. rewrite !app_nil_r in *. exact Hc.
  - cbn [concat app]. rewrite app_nil_r, Hframe.
    set (frame := [x05; cmd; x00] ++ _).
    set (c0 := Samples.stream _).
    rewrite (Handshake_v5 P s x01 ([x00] ++ frame) c0 eq_refl).
    pose proof (auth5_noauth s x01 [x00] frame
                  (with_input c0 ([x00] ++ frame)) 0
                  Hadm eq_refl (or_introl eq_refl) eq_refl I) as Hauth.
    eexists.
    pose proof (handshake5_request_served s x01 _ _ ""
                  x05 cmd x00 (fst (requestedTarget request))
                  (snd (requestedTarget request)) [] (Socks.Command request)
                  Hauth eq_refl I Htwf Htp Hrwf Hcmd) as Hserved.
    destruct (Hclient
                ([x05; x00] ++ [] ++ [x05; x00; x00]
                 ++ address_bytes (responseAddress s (Socks.Command request))
                 ++ PutUint16 (Socks.port s) ++ []) x00 eq_refl)
      as (cc & Hc & Hci & Hcr & Hcw).
    exists cc. split; [exact Hserved |]. split; [reflexivity |].
    split; [| split; [| split; [exact Hci | split; [exact Hcr | exact Hcw]]]].
    + unfold all_received. cbn. repeat constructor.
    + cbn [written with_input wlog c0 Samples.stream map fst concat app input
             writer_accepts wquota].
      unfold socks5Reply. cbn [app]. rewrite !app_nil_r in *. exact Hc.
Qed.

(** "alice" connecting to 1.2.3.4:80 through a password-protected
    server. *)
Lemma client_and_server_handshakes_agree_witness :
  exists cs cc,
    Socks.Handshake (fun d => domainAddress d) (Samples.session AuthType_PASSWORD)
      (Samples.stream (concat (clientFrames ClientSamples.alice)))
    = (Ok {| Socks.Version := x05; Socks.Command := Socks.RequestCommandTCP;
             Socks.Address_ := Samples.ip1234; Socks.Port_ := 80%Z;
             Socks.User := Some {| Socks.Email := "alice";
                                   Socks.Account_ := None |} |}, cs)
    /\ Socks.ClientHandshake ClientSamples.alice
         (Samples.stream (concat (map fst (wlog cs))))
       = (Ok None, cc).
Proof.
  destruct (client_and_server_handshakes_agree (fun d => domainAddress d)
              (Samples.session AuthType_PASSWORD) ClientSamples.alice)
    as (cs & cc & Hs & _ & _ & Hc & _).
  - split; [discriminate |]. eexists. split; [reflexivity |].
    vm_compute. reflexivity.
  - eexists. split; [reflexivity |]. split; vm_compute; discriminate.
  - discriminate.
  - intros _. split; [reflexivity | unfold Port_wf; cbn; lia].
  - reflexivity.
  - unfold Port_wf. cbn. lia.
  - exists cs, cc. split; [exact Hs | exact Hc].
Defined.

(** X17. A client and a server that disagree on authentication never get
    to the request. A request with a user makes [ClientHandshake] offer
    the password method only, and one without a user the no-auth method
    only; when the server's configuration expects the other method, the
    server's [Handshake] answers 05 FF and fails with "no matching auth
    method" without reading further, and [ClientHandshake], reading that
    answer, fails with "auth method not supported." after its method offer
    and writes nothing else. So a server without authentication refuses
    every client that presents credentials. *)
Theorem mismatched_authentication_fails_both_roles :
  forall (ParseAddress : string -> Address) (s : Socks.ServerSession)
         (request : Socks.RequestHeader),
    Socks.expectedAuth (Socks.config s) <> Socks.clientAuthByte request ->
    exists cs cc,
      Socks.Handshake ParseAddress s
        (Samples.stream (concat (clientFrames request)))
      = (Err (errors_New "no matching auth method"), cs)
      /\ wlog cs = [([x05; xff], true)]
      /\ input cs = concat (clientCredentials request ++ [clientRequestFrame request])
      /\ Socks.ClientHandshake request
           (Samples.stream (concat (map fst (wlog cs))))
         = (Err (AtWarning (errors_New "auth method not supported.")), cc)
      /\ wlog cc = [([x05; x01; Socks.clientAuthByte request], true)].
Proof.
  intros P s request Hne.
  unfold clientFrames. cbn [concat app].
  set (tail := concat _).
  rewrite (Handshake_v5 P s x01 (Socks.clientAuthByte request :: tail)
             (Samples.stream (x05 :: x01 :: Socks.clientAuthByte request :: tail))
             eq_refl).
  assert (Hno : Socks.hasAuthMethod (Socks.expectedAuth (Socks.config s))
                  [Socks.clientAuthByte request] = false).
  { destruct (Socks.hasAuthMethod _ _) eqn:E; [| reflexivity].
    apply hasAuthMethod_In in E. destruct E as [E | []]. congruence. }
  eexists. eexists. split; [| split; [| split; [| split]]].
  - unfold Socks.handshake5, Socks.auth5. cbv zeta.
    erewrite bind_Err; [reflexivity |].
    step (apply wrap_err_Ok;
          exact (read1 (Socks.clientAuthByte request) tail
                   (with_input
                      (Samples.stream
                         (x05 :: x01 :: Socks.clientAuthByte request :: tail))
                      (Socks.clientAuthByte request :: tail)) eq_refl)).
    change (Z.to_nat (Z_of_byte x01)) with 1%nat.
    change (BytesRange [Socks.clientAuthByte request] 0 1)
      with [Socks.clientAuthByte request].
    rewrite Hno. cbn [negb].
    reflexivity.
  - reflexivity.
  - reflexivity.
  - cbn [wlog Samples.stream with_input written writer_accepts wquota map fst
           concat app input].
    unfold Socks.ClientHandshake. cbv zeta.
    rewrite (client_offer request x05 xff [] (Samples.stream [x05; xff]) _ I eq_refl).
    cbn [Buffer_Byte nth]. change (Byte.eqb x05 Socks.socks5Version) with true.
    cbn [negb].
    assert (Hff : Byte.eqb xff (Socks.clientAuthByte request) = false).
    { unfold Socks.clientAuthByte. destruct (Socks.User request); reflexivity. }
    rewrite Hff. reflexivity.
  - reflexivity.
Qed.

(** "alice" connecting to a server without authentication. *)
Lemma mismatched_authentication_fails_both_roles_witness :
  exists cs cc,
    Socks.Handshake (fun d => domainAddress d) (Samples.session AuthType_NO_AUTH)
      (Samples.stream (concat (clientFrames ClientSamples.alice)))
    = (Err (errors_New "no matching auth method"), cs)
    /\ Socks.ClientHandshake ClientSamples.alice
         (Samples.stream (concat (map fst (wlog cs))))
       = (Err (AtWarning (errors_New "auth method not supported.")), cc).
Proof.
  destruct (mismatched_authentication_fails_both_roles (fun d => domainAddress d)
              (Samples.session AuthType_NO_AUTH) ClientSamples.alice)
    as (cs & cc & Hs & _ & _ & Hc & _).
  - discriminate.
  - exists cs, cc. split; [exact Hs | exact Hc].
Defined.

(* ===================================================================== *)
(** * Further properties: the address a dial is sent through *)
(* ===================================================================== *)

Section ViaProperties.
Import Via.

Lemma append_nil (s : string) : String.append EmptyString s = s.
Proof. reflexivity. Qed.

Lemma append_cons (c : ascii) (s t : string) :
  String.append (String c s) t = String c (String.append s t).
Proof. reflexivity. Qed.

Lemma Split_free (sep : ascii) (p : string) :
  free_of sep p = true -> Split p sep = [p].
Proof.
  induction p as [|c p IH]; [reflexivity |].
  cbn [free_of Split]. intros H. apply andb_prop in H. destruct H as [Hc Hp].
  apply negb_true_iff in Hc. rewrite Hc, (IH Hp). reflexivity.
Qed.

Lemma Split_app_free (sep : ascii) (p rest : string) :
  free_of sep p = true ->
  Split (p ++ String sep rest) sep = p :: Split rest sep.
Proof.
  induction p as [|c p IH].
  - intros _. rewrite append_nil. cbn [Split]. by rewrite Ascii.eqb_refl.
  - rewrite append_cons. cbn [free_of Split]. intros H. apply andb_prop in H.
    destruct H as [Hc Hp]. apply negb_true_iff in Hc. rewrite Hc, (IH Hp).
    reflexivity.
Qed.

Lemma Split_Join (sep : ascii) (parts : list string) :
  parts <> [] ->
  Forall (fun p => free_of sep p = true) parts ->
  Split (Join parts (String sep EmptyString)) sep = parts.
Proof.
  unfold Join. induction parts as [|p parts IH]; [congruence |].
  intros _ H. apply Forall_cons in H. destruct H as [Hp Hparts].
  destruct parts as [|q parts].
  - cbn [String.concat]. by apply Split_free.
  - change (String.concat (String sep "") (p :: q :: parts))
      with (String.append p
              (String sep (String.concat (String sep "") (q :: parts)))).
    rewrite (Split_app_free sep p _ Hp). f_equal. by apply IH.
Qed.

Lemma substring_all (s : string) : substring 0 (String.length s) s = s.
Proof. induction s as [|c s IH]; [reflexivity |]. cbn. by rewrite IH. Qed.

Lemma HasPrefix_append (p x : string) : HasPrefix (p +:+ x) p = true.
Proof.
  unfold HasPrefix. induction p as [|c p IH]; [by destruct x |].
  rewrite append_cons. cbn [String.prefix].
  destruct (ascii_dec c c); [exact IH | congruence].
Qed.

Lemma TrimPrefix_append (p x : string) : TrimPrefix (p +:+ x) p = x.
Proof.
  unfold TrimPrefix. rewrite HasPrefix_append.
  induction p as [|c p IH].
  - rewrite append_nil. cbn [String.length]. rewrite Nat.sub_0_r.
    apply substring_all.
  - rewrite append_cons. cbn [String.length substring Nat.sub]. exact IH.
Qed.

Lemma Split_length (s : string) (sep : ascii) : (1 <= length (Split s sep))%nat.
Proof.
  induction s as [|c s IH]; cbn [Split length]; [lia |].
  destruct (Ascii.eqb c sep); cbn [length]; [lia |].
  destruct (Split s sep); cbn [length] in *; lia.
Qed.

Variable ParseAddress : string -> Address.
Variable SplitHostPort : string -> option string.
Variable dtoi : string -> option nat.
Variable rand_Int : Z -> Z.

#[local] Abbreviation Dial_via := (Via.Dial_via ParseAddress SplitHostPort dtoi rand_Int).
#[local] Abbreviation ParseRandomIP := (Via.ParseRandomIP dtoi rand_Int).

(** The parts an email of the form prefix, part, "-", part, ... is split
    into. *)
Lemma Split_email_parts (parts : list string) :
  Forall (fun p => free_of "-" p = true) parts ->
  (length (Split (Join parts "-") "-") = Nat.max 1 (length parts)
   /\ forall n, (n <= length parts)%nat -> (1 <= n)%nat ->
        firstn n (Split (Join parts "-") "-") = firstn n parts).
Proof.
  intros H. destruct parts as [|p parts].
  - split; [reflexivity |]. cbn [length]. lia.
  - rewrite (Split_Join "-" (p :: parts)) by (congruence || assumption).
    split; [cbn [length]; lia | reflexivity].
Qed.

(** X18. Sending through "origin", no CIDR configured: when the email of
    the inbound's user is "ipv4_" followed by parts separated by "-", the
    gateway becomes the address that the first four parts, joined by ".",
    denote, further parts being ignored; with "ipv6_" it is the first
    eight parts joined by ":". With fewer parts the gateway is left as it
    was: the local address of the inbound connection is not used as a
    fallback, whether there is a connection or not. *)
Theorem Dial_via_origin_email_address :
  forall (user : Socks.MemoryUser) (parts : list string)
         (conn : option InboundConn) (gateway : option Address),
    Forall (fun p => free_of "-" p = true) parts ->
    (Socks.Email user = "ipv4_" +:+ Join parts "-" ->
       Dial_via (domainAddress "origin") ""
                (Some {| User := Some user; Conn := conn |}) gateway
       = Ok (if (4 <=? length parts)%nat
             then Some (ParseAddress (Join (firstn 4 parts) "."))
             else gateway))
    /\ (Socks.Email user = "ipv6_" +:+ Join parts "-" ->
       Dial_via (domainAddress "origin") ""
                (Some {| User := Some user; Conn := conn |}) gateway
       = Ok (if (8 <=? length parts)%nat
             then Some (ParseAddress (Join (firstn 8 parts) ":"))
             else gateway)).
Proof.
  intros user parts conn gateway Hfree.
  destruct (Split_email_parts parts Hfree) as [Hlen Hfirst].
  split; intros Hemail; unfold Via.Dial_via; cbn [User Conn String.eqb negb];
    rewrite Hemail.
  - change (String.eqb ("ipv4_" +:+ Join parts "-") "") with false. cbn [negb].
    rewrite HasPrefix_append, TrimPrefix_append, Hlen.
    destruct (Nat.leb_spec 4 (length parts)) as [H4 | H4].
    + rewrite (proj2 (Nat.leb_le 4 _)) by lia. rewrite Hfirst by lia. reflexivity.
    + rewrite (proj2 (Nat.leb_gt 4 _)) by lia. reflexivity.
  - change (String.eqb ("ipv6_" +:+ Join parts "-") "") with false. cbn [negb].
    change (HasPrefix ("ipv6_" +:+ Join parts "-") "ipv4_") with false.
    rewrite HasPrefix_append, TrimPrefix_append, Hlen.
    destruct (Nat.leb_spec 8 (length parts)) as [H8 | H8].
    + rewrite (proj2 (Nat.leb_le 8 _)) by lia. rewrite Hfirst by lia. reflexivity.
    + rewrite (proj2 (Nat.leb_gt 8 _)) by lia. reflexivity.
Qed.

(** X19. Sending through "origin", no CIDR configured. An inbound
    session without a user makes [Dial] panic, with or without a
    connection: the user's email is read for the log before the user is
    tested. So the local address of the inbound connection becomes the
    gateway only for a user whose email starts with neither "ipv4_" nor
    "ipv6_" (an empty email included), and then only if there is a
    connection whose local address has a host part; otherwise the gateway
    is left as it was. Without inbound session nothing happens. *)
Theorem Dial_via_origin_needs_user :
  forall (conn : option InboundConn) (gateway : option Address),
    Dial_via (domainAddress "origin") ""
             (Some {| User := None; Conn := conn |}) gateway
    = Panic "invalid memory address or nil pointer dereference"
    /\ Dial_via (domainAddress "origin") "" None gateway = Ok gateway
    /\ forall user : Socks.MemoryUser,
         HasPrefix (Socks.Email user) "ipv4_" = false ->
         HasPrefix (Socks.Email user) "ipv6_" = false ->
         Dial_via (domainAddress "origin") ""
                  (Some {| User := Some user; Conn := conn |}) gateway
         = Ok match conn with
              | Some c =>
                  match SplitHostPort (LocalAddr c) with
                  | Some host => Some (ParseAddress host)
                  | None => gateway
                  end
              | None => gateway
              end.
Proof.
  intros conn gateway. split; [reflexivity |]. split; [reflexivity |].
  intros user H4 H6. unfold Via.Dial_via. cbn [User Conn String.eqb negb].
  rewrite H4, H6. unfold hostGateway.
  destruct (String.eqb (Socks.Email user) ""), conn; reflexivity.
Qed.

(** X20. Which setting decides the gateway. A configured CIDR comes
    first: the gateway is then a random address of that network around
    the sending address, whatever the inbound session is, and [Dial]
    panics when the sending address is a domain, "origin" and "srcip"
    included. Without CIDR, "srcip" takes the host part of the inbound
    connection's remote address and never looks at the user; and every
    sending address other than the domains "origin" and "srcip", another
    domain included, becomes the gateway itself. *)
Theorem Dial_via_modes :
  forall (Via : Address) (ViaCidr : string) (inbound : option Inbound)
         (gateway : option Address),
    (ViaCidr <> "" ->
       (forall inbound' gateway',
          Dial_via Via ViaCidr inbound gateway
          = Dial_via Via ViaCidr inbound' gateway')
       /\ forall domain, Via = domainAddress domain ->
            Dial_via Via ViaCidr inbound gateway
            = Panic "Calling IP() on a DomainAddress.")
    /\ (ViaCidr = "" -> Via = domainAddress "srcip" ->
        Dial_via Via ViaCidr inbound gateway
        = Ok match inbound with
             | Some {| Conn := Some c |} =>
                 match SplitHostPort (RemoteAddr c) with
                 | Some host => Some (ParseAddress host)
                 | None => gateway
                 end
             | _ => gateway
             end)
    /\ (ViaCidr = "" -> Via <> domainAddress "origin" ->
        Via <> domainAddress "srcip" ->
        Dial_via Via ViaCidr inbound gateway = Ok (Some Via)).
Proof.
  intros Via ViaCidr inbound gateway. split; [| split].
  - intros Hc. unfold Via.Dial_via.
    rewrite (proj2 (String.eqb_neq _ _) Hc). cbn [negb].
    split; [| intros domain ->; reflexivity].
    intros inbound' gateway'. reflexivity.
  - intros -> ->. unfold Via.Dial_via, hostGateway. cbn [String.eqb negb].
    change (String.eqb "srcip" "origin") with false.
    change (String.eqb "srcip" "srcip") with true. cbv iota.
    destruct inbound as [[user [c|]]|]; reflexivity.
  - intros -> Ho Hs. unfold Via.Dial_via. cbn [String.eqb negb].
    destruct Via as [ip | ip | d]; try reflexivity.
    destruct (String.eqb_spec d "origin") as [-> | _]; [congruence |].
    destruct (String.eqb_spec d "srcip") as [-> | _]; [congruence |].
    reflexivity.
Qed.

End ViaProperties.

(** The user "ipv4_114-1-28-114-4". *)
Lemma Dial_via_origin_email_address_witness :
  Via.Dial_via (fun d => domainAddress d) (fun _ => None) (fun _ => None)
    (fun _ => 0%Z) (domainAddress "origin") ""
    (Some {| Via.User := Some {| Socks.Email := "ipv4_114-1-28-114-4";
                                 Socks.Account_ := None |};
             Via.Conn := None |})
    None
  = Ok (Some (domainAddress "114.1.28.114")).
Proof.
  apply (proj1 (Dial_via_origin_email_address
                  (fun d => domainAddress d) (fun _ => None) (fun _ => None)
                  (fun _ => 0%Z)
                  {| Socks.Email := "ipv4_114-1-28-114-4"; Socks.Account_ := None |}
                  ["114"; "1"; "28"; "114"; "4"] None None
                  ltac:(repeat constructor))).
  reflexivity.
Defined.

(* ===================================================================== *)
(** * Further properties: a random address of a network *)
(* ===================================================================== *)

Section RandomIP.
Import Via.
Local Open Scope Z_scope.

Lemma Z_of_byte_inj (a b : byte) : Z_of_byte a = Z_of_byte b -> a = b.
Proof.
  unfold Z_of_byte. intros H. apply N2Z.inj in H.
  pose proof (Byte.of_to_N a) as Ha. rewrite H, Byte.of_to_N in Ha.
  congruence.
Qed.

Lemma SetBytes_fold (bs : list byte) (acc : Z) :
  fold_left (fun acc b => acc * 256 + Z_of_byte b) bs acc
  = acc * 256 ^ len bs + SetBytes bs.
Proof.
  unfold SetBytes. revert acc.
  induction bs as [|b bs IH]; intros acc.
  - unfold len. cbn. lia.
  - cbn [fold_left]. rewrite IH, (IH (0 * 256 + Z_of_byte b)).
    unfold len. cbn [length]. rewrite Nat2Z.inj_succ, Z.pow_succ_r by lia.
    ring.
Qed.

Lemma SetBytes_cons (b : byte) (bs : list byte) :
  SetBytes (b :: bs) = Z_of_byte b * 256 ^ len bs + SetBytes bs.
Proof.
  unfold SetBytes at 1. cbn [fold_left]. rewrite SetBytes_fold. ring.
Qed.

Lemma SetBytes_app (a b : list byte) :
  SetBytes (a ++ b) = SetBytes a * 256 ^ len b + SetBytes b.
Proof.
  unfold SetBytes at 1. rewrite fold_left_app. fold (SetBytes a).
  apply SetBytes_fold.
Qed.

Lemma SetBytes_range (bs : list byte) : 0 <= SetBytes bs < 256 ^ len bs.
Proof.
  induction bs as [|b bs IH]; [unfold len; cbn; lia |].
  rewrite SetBytes_cons. pose proof (Z_of_byte_range b).
  replace (len (b :: bs)) with (Z.succ (len bs))
    by (unfold len; cbn [length]; lia).
  rewrite Z.pow_succ_r by apply len_nonneg. nia.
Qed.

Lemma SetBytes_inj (a b : list byte) :
  length a = length b -> SetBytes a = SetBytes b -> a = b.
Proof.
  revert b. induction a as [|x a IH]; intros [|y b] Hl; try discriminate;
    [reflexivity |].
  injection Hl as Hl. rewrite !SetBytes_cons.
  assert (Hlen : len a = len b) by (unfold len; congruence).
  rewrite Hlen. intros H.
  pose proof (SetBytes_range a) as Ha. pose proof (SetBytes_range b) as Hb.
  rewrite Hlen in Ha.
  pose proof (Z_of_byte_range x). pose proof (Z_of_byte_range y).
  assert (Hxy : Z_of_byte x = Z_of_byte y) by nia.
  rewrite Hxy in H. f_equal; [by apply Z_of_byte_inj |].
  apply IH; [exact Hl | lia].
Qed.

Lemma SetBytes_repeat0 (m : nat) (bs : list byte) :
  SetBytes (repeat x00 m ++ bs) = SetBytes bs.
Proof.
  induction m as [|m IH]; [reflexivity |].
  cbn [repeat app]. rewrite SetBytes_cons, IH.
  change (Z_of_byte x00) with 0. lia.
Qed.

Lemma be_bytes_length (k : nat) (z : Z) : length (be_bytes k z) = k.
Proof.
  revert z. induction k as [|k IH]; intros z; [reflexivity |].
  cbn [be_bytes]. rewrite length_app, IH. cbn [length]. lia.
Qed.

Lemma SetBytes_be_bytes (k : nat) (z : Z) :
  SetBytes (be_bytes k z) = z mod 256 ^ Z.of_nat k.
Proof.
  revert z. induction k as [|k IH]; intros z.
  - cbn. by rewrite Z.mod_1_r.
  - cbn [be_bytes]. rewrite SetBytes_app, IH.
    change (len [byte_of_Z z]) with 1. rewrite Z.pow_1_r.
    change (SetBytes [byte_of_Z z]) with (0 * 256 + Z_of_byte (byte_of_Z z)).
    rewrite Z_of_byte_of_Z, Nat2Z.inj_succ, Z.pow_succ_r by lia.
    rewrite (Z.rem_mul_r z 256 (256 ^ Z.of_nat k)) by lia. ring.
Qed.

(** [Bytes] is the shortest big-endian form. *)
Lemma Bytes_spec (z : Z) (L : nat) :
  0 <= z < 256 ^ Z.of_nat L ->
  (length (Bytes z) <= L)%nat /\ SetBytes (Bytes z) = z.
Proof.
  intros Hz. unfold Bytes. destruct (Z.leb_spec z 0) as [H0 | Hpos].
  - cbn [length]. split; [lia |]. cbn. lia.
  - rewrite be_bytes_length, SetBytes_be_bytes.
    pose proof (Z.log2_nonneg z) as Hl0.
    assert (Hdiv : 0 <= Z.log2 z / 8) by (apply Z.div_pos; lia).
    rewrite Z2Nat.id by lia.
    assert (Hlog : Z.log2 z < 8 * Z.of_nat L).
    { apply Z.log2_lt_pow2; [lia |].
      replace (2 ^ (8 * Z.of_nat L)) with (256 ^ Z.of_nat L); [lia |].
      change 256 with (2 ^ 8). rewrite <- Z.pow_mul_r by lia. reflexivity. }
    split.
    + assert (Z.log2 z / 8 < Z.of_nat L)
        by (apply Z.div_lt_upper_bound; lia).
      lia.
    + apply Z.mod_small. split; [lia |].
      change 256 with (2 ^ 8). rewrite <- Z.pow_mul_r by lia.
      pose proof (Z.log2_spec z Hpos) as [_ Hup].
      eapply Z.lt_le_trans; [exact Hup |].
      apply Z.pow_le_mono_r; [lia |].
      pose proof (Z.mul_succ_div_gt (Z.log2 z) 8 ltac:(lia)). lia.
Qed.

Lemma maskByte_full (k : nat) : (8 <= k)%nat -> maskByte k = xff.
Proof.
  intros H. unfold maskByte. replace (8 - k)%nat with 0%nat by lia.
  reflexivity.
Qed.

Lemma maskByte_land (b : byte) (k : nat) :
  (k <= 8)%nat ->
  Z_of_byte (byte_of_Z (Z.land (Z_of_byte b) (Z_of_byte (maskByte k))))
  = Z_of_byte b / 2 ^ Z.of_nat (8 - k) * 2 ^ Z.of_nat (8 - k).
Proof.
  intros H.
  do 9 (destruct k as [|k]; [destruct b; vm_compute; reflexivity |]).
  lia.
Qed.

Lemma CIDRMask_length (n L : nat) : length (CIDRMask n L) = L.
Proof.
  revert n. induction L as [|L IH]; intros n; [reflexivity |].
  cbn [CIDRMask length]. by rewrite IH.
Qed.

Lemma Mask_length (ip : list byte) (n : nat) :
  length (Mask ip (CIDRMask n (length ip))) = length ip.
Proof.
  revert n. induction ip as [|b ip IH]; intros n; [reflexivity |].
  cbn [length CIDRMask Mask]. by rewrite IH.
Qed.

Lemma pow256 (l : Z) : 0 <= l -> 256 ^ l = 2 ^ (8 * l).
Proof. intros H. change 256 with (2 ^ 8). by rewrite <- Z.pow_mul_r by lia. Qed.

(** Masking clears the host bits. *)
Lemma SetBytes_Mask (ip : list byte) (n : nat) :
  (n <= 8 * length ip)%nat ->
  SetBytes (Mask ip (CIDRMask n (length ip)))
  = SetBytes ip / 2 ^ Z.of_nat (8 * length ip - n)
    * 2 ^ Z.of_nat (8 * length ip - n).
Proof.
  revert n. induction ip as [|b ip IH]; intros n Hn.
  - cbn. reflexivity.
  - cbn [length CIDRMask Mask] in *. rewrite !SetBytes_cons.
    assert (HlenM : len (Mask ip (CIDRMask (n - 8) (length ip))) = len ip)
      by (unfold len; by rewrite Mask_length).
    rewrite HlenM.
    pose proof (SetBytes_range ip) as Hr.
    pose proof (Z_of_byte_range b) as Hb.
    pose proof (len_nonneg ip) as Hl.
    set (l := len ip) in *. set (S' := SetBytes ip) in *.
    set (B := Z_of_byte b) in *.
    assert (Hl8 : Z.of_nat (8 * length ip) = 8 * l) by (unfold l, len; lia).
    rewrite pow256 in * by lia.
    destruct (Nat.le_gt_cases 8 n) as [H8 | H8].
    + rewrite (maskByte_full n H8).
      change (Z_of_byte xff) with 255.
      assert (HB : Z.land B 255 = B).
      { change 255 with (Z.ones 8). rewrite Z.land_ones by lia.
        apply Z.mod_small. change (2 ^ 8) with 256. lia. }
      rewrite HB, Z_of_byte_of_Z_small by lia.
      rewrite IH by lia.
      replace (Z.of_nat (8 * S (length ip) - n))
        with (Z.of_nat (8 * length ip - (n - 8))) by lia.
      set (h := Z.of_nat (8 * length ip - (n - 8))).
      assert (Hh : 0 <= h <= 8 * l) by (unfold h; lia).
      replace (2 ^ (8 * l)) with (2 ^ (8 * l - h) * 2 ^ h)
        by (rewrite <- Z.pow_add_r by lia; f_equal; lia).
      rewrite Z.mul_assoc, Z.div_add_l by (apply Z.pow_nonzero; lia).
      ring.
    + unfold B. rewrite maskByte_land by lia. fold B.
      replace (n - 8)%nat with 0%nat by lia.
      rewrite IH by lia. rewrite Nat.sub_0_r, Hl8.
      rewrite (Z.div_small S') by lia.
      replace (Z.of_nat (8 * S (length ip) - n))
        with (Z.of_nat (8 - n) + 8 * l) by lia.
      set (j := Z.of_nat (8 - n)).
      assert (Hj : 0 <= j) by (unfold j; lia).
      rewrite Z.pow_add_r by lia.
      rewrite (Z.mul_comm (2 ^ j) (2 ^ (8 * l))) at 1.
      rewrite <- Z.div_div by (try apply Z.pow_pos_nonneg; lia).
      rewrite Z.div_add_l by (apply Z.pow_nonzero; lia).
      rewrite (Z.div_small S') by lia.
      rewrite !Z.add_0_r. ring.
Qed.

Lemma byte_of_Z_of_byte (b : byte) : byte_of_Z (Z_of_byte b) = b.
Proof.
  apply Z_of_byte_inj. rewrite Z_of_byte_of_Z. apply Z.mod_small.
  pose proof (Z_of_byte_range b). lia.
Qed.

(** A mask keeps the bytes that its ones cover. *)
Lemma Mask_firstn (ip : list byte) (n k : nat) :
  (8 * k <= n)%nat ->
  firstn k (Mask ip (CIDRMask n (length ip))) = firstn k ip.
Proof.
  revert n k. induction ip as [|b ip IH]; intros n k Hk.
  - cbn. reflexivity.
  - destruct k as [|k]; [reflexivity |].
    cbn [length CIDRMask Mask firstn].
    rewrite maskByte_full by lia. change (Z_of_byte xff) with 255.
    pose proof (Z_of_byte_range b) as Hb.
    assert (HB : Z.land (Z_of_byte b) 255 = Z_of_byte b).
    { change 255 with (Z.ones 8). rewrite Z.land_ones by lia.
      apply Z.mod_small. change (2 ^ 8) with 256. lia. }
    rewrite HB, byte_of_Z_of_byte. f_equal. apply IH. lia.
Qed.

(** Whether sixteen bytes hold an IPv4 address is decided by the first
    twelve. *)
Lemma To4_firstn (a b : list byte) :
  length a = 16%nat -> length b = 16%nat ->
  firstn 12 a = firstn 12 b ->
  To4 a = None -> To4 b = None.
Proof.
  intros Ha Hb H12. unfold To4. rewrite Ha, Hb. cbn [Nat.eqb andb].
  replace (firstn 10 a) with (firstn 10 (firstn 12 a))
    by (rewrite firstn_firstn; reflexivity).
  replace (firstn 10 b) with (firstn 10 (firstn 12 b))
    by (rewrite firstn_firstn; reflexivity).
  replace (nth 10 a x00) with (nth 10 (firstn 12 a) x00)
    by (rewrite nth_firstn; reflexivity).
  replace (nth 11 a x00) with (nth 11 (firstn 12 a) x00)
    by (rewrite nth_firstn; reflexivity).
  replace (nth 10 b x00) with (nth 10 (firstn 12 b) x00)
    by (rewrite nth_firstn; reflexivity).
  replace (nth 11 b x00) with (nth 11 (firstn 12 b) x00)
    by (rewrite nth_firstn; reflexivity).
  rewrite H12. destruct (_ && _); [discriminate | reflexivity].
Qed.

(** The network [ParseCIDR] takes for a well-formed IP address. *)
Lemma network_cases (addr : Address) (ip : list byte) :
  Address_wf addr -> Address_IP addr = Ok ip ->
  (length (default ip (To4 ip)) = 4%nat
   /\ To4 (default ip (To4 ip)) = Some (default ip (To4 ip)))
  \/ (length (default ip (To4 ip)) = 16%nat
      /\ To4 (default ip (To4 ip)) = None).
Proof.
  intros Hwf HIP.
  destruct addr as [a | a | d]; cbn in Hwf, HIP; try discriminate;
    injection HIP as <-.
  - left. assert (H : To4 a = Some a) by (unfold To4; by rewrite Hwf).
    rewrite H. change (default a (Some a)) with a. by split.
  - destruct (To4 a) as [v4|] eqn:H4.
    2: { right. change (default a None) with a. split; [exact Hwf | exact H4]. }
    change (default a (Some v4)) with v4.
    + left. unfold To4 in H4. rewrite Hwf in H4. cbn [Nat.eqb andb] in H4.
      destruct (_ && _); [| discriminate]. injection H4 as <-.
      assert (Hl : length (skipn 12 a) = 4%nat) by (rewrite length_skipn; lia).
      split; [exact Hl |]. unfold To4. by rewrite Hl.
Qed.

Variable dtoi : string -> option nat.
Variable rand_Int : Z -> Z.

#[local] Abbreviation ParseCIDR := (Via.ParseCIDR dtoi).
#[local] Abbreviation ParseRandomIP := (Via.ParseRandomIP dtoi rand_Int).

Lemma ParseCIDR_wf (addr : Address) (ip : list byte) (prefix : string) :
  Address_wf addr -> Address_IP addr = Ok ip ->
  ParseCIDR ip prefix
  = match dtoi prefix with
    | Some n =>
        if (n <=? 8 * length (default ip (To4 ip)))%nat
        then Some (Mask (default ip (To4 ip))
                        (CIDRMask n (length (default ip (To4 ip)))), n)
        else None
    | None => None
    end.
Proof.
  intros Hwf HIP. unfold Via.ParseCIDR.
  destruct (To4 ip) as [v4|] eqn:H4; [reflexivity |].
  destruct addr as [a | a | d]; cbn in Hwf, HIP; try discriminate;
    injection HIP as <-.
  - unfold To4 in H4. rewrite Hwf in H4. discriminate.
  - change (default a None) with a. rewrite Hwf. reflexivity.
Qed.

(** X21. [ParseRandomIP] on an IP address and a prefix length that is a
    number within the width of the network (32 bits for an IPv4 address,
    also one held in sixteen bytes; 128 bits otherwise): the bytes it
    computes are as many as the network has, lie in the same network
    (they agree with the given address under the mask of the prefix), and
    are the network number plus the random number drawn below the size of
    the network; the padding of the sum never goes out of bounds. The
    address returned is the one those bytes print and parse as: for a
    4-byte network the IPv4 address of those bytes; for a 16-byte
    network with a prefix of 96 or more the IPv6 address of those bytes;
    for a 16-byte network with a shorter prefix the random bytes may be
    an IPv4 address held in sixteen bytes, and then the address returned
    is that IPv4 address, of 4 bytes. A prefix that is not a number or is
    longer than the network makes the function panic. *)
Theorem ParseRandomIP_in_network :
  forall (addr : Address) (ip : list byte) (prefix : string),
    Address_wf addr -> Address_IP addr = Ok ip ->
    let net := default ip (To4 ip) in
    let bits := (8 * length net)%nat in
    (forall n : nat,
       dtoi prefix = Some n -> (n <= bits)%nat ->
       let mask := CIDRMask n (length net) in
       let size := 2 ^ Z.of_nat (bits - n) in
       0 <= rand_Int size < size ->
       exists out,
         ParseRandomIP addr prefix
         = Ok match To4 out with
              | Some v4 => ipv4Address v4
              | None => ipv6Address out
              end
         /\ length out = length net
         /\ Mask out mask = Mask net mask
         /\ SetBytes out = SetBytes (Mask net mask) + rand_Int size
         /\ (length net = 4%nat -> To4 out = Some out)
         /\ (length net = 16%nat -> (96 <= n)%nat -> To4 out = None))
    /\ (dtoi prefix = None
        \/ (exists n, dtoi prefix = Some n /\ (bits < n)%nat) ->
        ParseRandomIP addr prefix
        = Panic "invalid memory address or nil pointer dereference").
Proof.
  intros addr ip prefix Hwf HIP net bits. split.
  - intros n Hd Hn mask size Hrnd.
    unfold Via.ParseRandomIP. rewrite HIP, (ParseCIDR_wf addr ip prefix Hwf HIP).
    fold net. rewrite Hd. fold bits.
    rewrite (proj2 (Nat.leb_le _ _) Hn). fold mask.
    assert (HML : length (Mask net mask) = length net) by apply Mask_length.
    rewrite HML. fold bits. rewrite Z.shiftl_1_l. fold size.
    cbv zeta.
    pose proof (SetBytes_Mask net n Hn) as Hstart. fold mask bits size in Hstart.
    pose proof (SetBytes_range net) as Hnet.
    assert (Hsize : 0 < size) by (apply Z.pow_pos_nonneg; lia).
    assert (Hfull : 256 ^ len net = 2 ^ Z.of_nat n * size).
    { unfold size. rewrite <- Z.pow_add_r by lia.
      rewrite pow256 by apply len_nonneg. f_equal. unfold bits, len. lia. }
    set (q := SetBytes net / size) in *.
    assert (Hq : 0 <= q < 2 ^ Z.of_nat n).
    { unfold q. split; [apply Z.div_pos; lia |].
      apply Z.div_lt_upper_bound; lia. }
    set (z := SetBytes (Mask net mask) + rand_Int size).
    assert (Hz : 0 <= z < 256 ^ Z.of_nat (length net)).
    { fold (len net). unfold z. rewrite Hstart, Hfull. nia. }
    destruct (Bytes_spec z (length net) Hz) as [Hlen Hval].
    rewrite (proj2 (Nat.ltb_ge _ _) Hlen).
    set (out := repeat x00 (length net - length (Bytes z)) ++ Bytes z).
    assert (Hout : length out = length net).
    { unfold out. rewrite length_app, repeat_length. lia. }
    assert (HSout : SetBytes out = z).
    { unfold out. by rewrite SetBytes_repeat0. }
    assert (HMask : Mask out mask = Mask net mask).
    2: { exists out. split; [reflexivity |]. split; [exact Hout |].
         split; [exact HMask |]. split; [by rewrite HSout |]. split.
         - intros H4. unfold To4. by rewrite Hout, H4.
         - intros H16 H96.
           destruct (network_cases addr ip Hwf HIP) as [[H4 _] | [_ HN]];
             [fold net in H4; lia |].
           fold net in HN.
           apply (To4_firstn net out); [exact H16 | lia | | exact HN].
           rewrite <- (Mask_firstn net n 12) by lia.
           rewrite <- (Mask_firstn out n 12) by lia.
           fold mask. rewrite Hout. fold mask. by rewrite HMask. }
    assert (HMo : length (Mask out mask) = length out).
    { unfold mask. rewrite <- Hout. apply Mask_length. }
    assert (HSo : SetBytes (Mask out mask) = SetBytes out / size * size).
    { unfold mask, size, bits. rewrite <- Hout. apply SetBytes_Mask.
      rewrite Hout. exact Hn. }
    apply SetBytes_inj; [congruence |].
    rewrite HSo, HSout, Hstart. unfold z. rewrite Hstart.
    rewrite Z.div_add_l by lia.
    rewrite (Z.div_small (rand_Int size)) by lia. lia.
  - intros Hbad. unfold Via.ParseRandomIP.
    rewrite HIP, (ParseCIDR_wf addr ip prefix Hwf HIP). fold net bits.
    destruct Hbad as [-> | (n & -> & Hn)]; [reflexivity |].
    by rewrite (proj2 (Nat.leb_gt _ _) Hn).
Qed.

End RandomIP.

(** ::1 with prefix 80 and the random number FFFF 0102 0304: the sixteen
    bytes computed hold an IPv4 address, and 1.2.3.4 is returned. *)
Lemma ParseRandomIP_in_network_witness :
  exists out,
    Via.ParseRandomIP (fun _ => Some 80%nat) (fun _ => 281470698652420%Z)
      (ipv6Address (repeat x00 15 ++ [x01])) "80"
    = Ok (ipv4Address [x01; x02; x03; x04])
    /\ length out = 16%nat
    /\ Via.To4 out = Some [x01; x02; x03; x04]
    /\ Via.SetBytes out = 281470698652420%Z.
Proof.
  pose proof (proj1 (ParseRandomIP_in_network
                       (fun _ => Some 80%nat) (fun _ => 281470698652420%Z)
                       (ipv6Address (repeat x00 15 ++ [x01]))
                       (repeat x00 15 ++ [x01])
                       "80" eq_refl eq_refl) 80%nat eq_refl) as H.
  destruct H as (out & H & Hlen & _ & Hval & _).
  - cbn. lia.
  - cbn. lia.
  - change (Via.SetBytes out = 281470698652420%Z) in Hval.
    assert (Hout : out = repeat x00 10 ++ [xff; xff; x01; x02; x03; x04]).
    { apply SetBytes_inj; [exact Hlen | rewrite Hval; reflexivity]. }
    exists out. subst out.
    split; [exact H |]. split; [reflexivity |]. split; reflexivity.
Defined.
